(** * Section 3 figure generator: effects of [generate_section3_figures (1).py]

    The script draws four matplotlib figures and saves each as a PNG and a
    PDF.  What the program computes is almost entirely a sequence of calls
    into numpy, matplotlib, the file system and the console, so the script is
    embedded as a program in a state-and-exception monad [Py] over a [World]
    that holds exactly the state those calls act on.  Floating-point array
    values are kept symbolic (a term records how an array was obtained);
    integers are computed in [Z]. *)

From stdpp Require Import gmap strings list pretty.
From Stdlib Require Import ZArith Lia Ascii.
From Stdlib.Strings Require Import Byte.

Local Open Scope Z_scope.
Local Open Scope string_scope.
Local Open Scope list_scope.
Local Set Warnings "-register-all".

(** ** Python exceptions *)

(** [exc_is_Exception] tells whether the class derives from [Exception]
    (what [except Exception] selects) or only from [BaseException]
    (KeyboardInterrupt, SystemExit). *)
Record PyExc := mkExc {
  exc_is_Exception : bool;
  exc_class : string;
  exc_msg : string
}.

Definition OSError (cls msg : string) : PyExc := mkExc true cls msg.

Inductive Outcome (A : Type) : Type :=
| Ok (a : A)
| Raise (e : PyExc).
Arguments Ok {A} a.
Arguments Raise {A} e.

(** ** numpy: the global generator and symbolic arrays *)

(** The four sampling calls the script makes on [np.random]. *)
Inductive Dist :=
| DRand (shape : list Z)                     (* np.random.rand(d0, d1, ...) *)
| DRandn (n : Z)                             (* np.random.randn(n) *)
| DUniform (lo hi : string) (shape : list Z) (* np.random.uniform(lo, hi, shape) *)
| DBeta (a b n : Z).                         (* np.random.beta(a, b, n) *)

(** State of numpy's global generator: some state left by earlier code, the
    state right after [np.random.seed(n)], or the state after one more draw. *)
Inductive RngState :=
| RngUnknown (k : nat)
| RngSeeded (n : Z)
| RngAfter (s : RngState) (d : Dist).

(** A float array, by provenance: drawn from the generator in a given state,
    written as literals in the source, or computed by a pure numpy
    expression from other arrays. *)
Inductive ndarray :=
| NdSample (s : RngState) (d : Dist)
| NdLit (tokens : list string)
| NdOp (expr : string) (args : list ndarray).

(** ** Integers with provenance

    [int_computed] is [false] for a value that is written in the source as a
    literal and [true] for the result of an operation performed while the
    figure is generated. *)
Record PyInt := mkInt { int_val : Z; int_computed : bool }.

Definition lit (z : Z) : PyInt := mkInt z false.
Definition int_add (a b : PyInt) : PyInt := mkInt (int_val a + int_val b) true.

(** [range(n)]: the loop indices are produced at run time. *)
Definition py_range (n : nat) : list PyInt :=
  map (fun i => mkInt (Z.of_nat i) true) (seq 0 n).

(** [np.cumsum(l)]: running sums; every element of the result is computed. *)
Fixpoint cumsum_from (acc : Z) (l : list PyInt) : list PyInt :=
  match l with
  | [] => []
  | x :: rest => mkInt (acc + int_val x) true :: cumsum_from (acc + int_val x) rest
  end.
Definition np_cumsum (l : list PyInt) : list PyInt := cumsum_from 0 l.

(** [l[-1]] and [l[i]]; the script only indexes in range. *)
Definition py_last (l : list PyInt) : PyInt := List.last l (lit 0).
Definition py_index (l : list PyInt) (i : PyInt) : PyInt :=
  nth (Z.to_nat (int_val i)) l (lit 0).

(** ** Displayed text *)

(** A displayed string is a sequence of pieces: characters written in the
    source, an integer formatted into the string ([str(v)] or an f-string
    field), or a float formatted with a format spec. *)
Inductive Piece :=
| Lit (s : string)
| FmtInt (n : PyInt)
| FmtFloat (spec : string) (x : ndarray).

Abbreviation Annotation := (list Piece).

Definition piece_is_literal (p : Piece) : bool :=
  match p with
  | Lit _ => true
  | FmtInt n => negb (int_computed n)
  | FmtFloat _ _ => false
  end.

Definition annotation_is_literal (a : Annotation) : bool :=
  forallb piece_is_literal a.

(** The characters shown for a piece; floats stay symbolic. *)
Definition piece_digits (p : Piece) : option string :=
  match p with
  | Lit s => Some s
  | FmtInt n => Some (pretty (int_val n))
  | FmtFloat _ _ => None
  end.

(** ** matplotlib figures *)

(** One call on a figure or one of its axes: the method, the strings it
    displays and the data it plots.  Coordinates, colours and font sizes are
    left out. *)
Record Artist := mkArtist {
  art_method : string;
  art_texts : list Annotation;
  art_data : list ndarray
}.

Abbreviation RcParams := (gmap string string).

(** [fig_size] is the [figsize] argument, [None] for the library default. *)
Record Figure := mkFigure {
  fig_size : option (Z * Z);
  fig_rc : RcParams;
  fig_artists : list Artist
}.

Definition new_figure (size : option (Z * Z)) (rc : RcParams) : Figure :=
  mkFigure size rc [].

Definition add_artist (c : Artist) (f : Figure) : Figure :=
  mkFigure (fig_size f) (fig_rc f) (fig_artists f ++ [c]).

(** ** Files *)

(** What [savefig] leaves in a file: the format (taken by matplotlib from the
    extension of the path), the resolution if one was passed, and the figure
    that was rendered. *)
Record File := mkFile {
  file_format : string;
  file_dpi : option Z;
  file_figure : Figure
}.

(** ** The world *)

Inductive Event :=
| EvEnter (fn : string)          (* a function of this script is entered *)
| EvFigure (id : nat)            (* plt.figure created figure [id] *)
| EvSavefig (path : string)      (* savefig wrote [path] *)
| EvClose (id : nat)             (* plt.close closed figure [id] *)
| EvMakedirs (path : string)     (* os.makedirs returned *)
| EvPrint (line : string)        (* print, on stdout *)
| EvTraceback (e : PyExc)        (* traceback.print_exc, on stderr *)
| EvRaise (e : PyExc).           (* a library call raised [e] *)

#[local] Set Primitive Projections.
Record World := mkWorld {
  argv : list string;                 (* sys.argv *)
  environ : gmap string string;       (* os.environ *)
  dirs : gset string;                 (* directories on disk *)
  files : gmap string File;           (* regular files on disk *)
  rcparams : RcParams;                (* plt.rcParams *)
  fig_heap : gmap nat Figure;         (* figure objects *)
  open_figs : list nat;               (* pyplot's open figures, current first *)
  next_fig : nat;
  rng : RngState;                     (* numpy's global generator *)
  faults : list (option PyExc);       (* failures the libraries will have *)
  trace : list Event                  (* history of the run *)
}.
#[local] Unset Primitive Projections.

Definition with_process (a : list string) (e : gmap string string) (w : World) : World :=
  mkWorld a e (dirs w) (files w) (rcparams w) (fig_heap w) (open_figs w)
          (next_fig w) (rng w) (faults w) (trace w).
Definition with_dirs (d : gset string) (w : World) : World :=
  mkWorld (argv w) (environ w) d (files w) (rcparams w) (fig_heap w) (open_figs w)
          (next_fig w) (rng w) (faults w) (trace w).
Definition with_files (f : gmap string File) (w : World) : World :=
  mkWorld (argv w) (environ w) (dirs w) f (rcparams w) (fig_heap w) (open_figs w)
          (next_fig w) (rng w) (faults w) (trace w).
Definition with_rcparams (rc : RcParams) (w : World) : World :=
  mkWorld (argv w) (environ w) (dirs w) (files w) rc (fig_heap w) (open_figs w)
          (next_fig w) (rng w) (faults w) (trace w).
Definition with_figs (h : gmap nat Figure) (o : list nat) (n : nat) (w : World) : World :=
  mkWorld (argv w) (environ w) (dirs w) (files w) (rcparams w) h o
          n (rng w) (faults w) (trace w).
Definition with_rng (r : RngState) (w : World) : World :=
  mkWorld (argv w) (environ w) (dirs w) (files w) (rcparams w) (fig_heap w) (open_figs w)
          (next_fig w) r (faults w) (trace w).
Definition with_faults (F : list (option PyExc)) (w : World) : World :=
  mkWorld (argv w) (environ w) (dirs w) (files w) (rcparams w) (fig_heap w) (open_figs w)
          (next_fig w) (rng w) F (trace w).
Definition log (ev : Event) (w : World) : World :=
  mkWorld (argv w) (environ w) (dirs w) (files w) (rcparams w) (fig_heap w) (open_figs w)
          (next_fig w) (rng w) (faults w) (trace w ++ [ev]).

(** ** The monad of Python statements *)

Definition Py (A : Type) : Type := World -> Outcome A * World.

(** A primitive, given by what it does to the world. *)
Definition act {A} (f : World -> Outcome A * World) : Py A := f.

Definition py_ret {A} (a : A) : Py A := fun w => (Ok a, w).
Definition py_bind {A B} (k : A -> Py B) (m : Py A) : Py B :=
  fun w => match m w with
           | (Ok a, w') => k a w'
           | (Raise e, w') => (Raise e, w')
           end.

#[global] Instance Py_ret : MRet Py := @py_ret.
#[global] Instance Py_bind : MBind Py := @py_bind.

(** [raise e]: the exception is recorded where it originates. *)
Definition py_raise {A} (e : PyExc) : Py A := fun w => (Raise e, log (EvRaise e) w).

(** [try: body except Exception as e: handler(e)] *)
Definition try_except {A} (body : Py A) (handler : PyExc -> Py A) : Py A :=
  fun w => match body w with
           | (Ok a, w') => (Ok a, w')
           | (Raise e, w') =>
               if exc_is_Exception e then handler e w' else (Raise e, w')
           end.

(** The next entry of the failure schedule; an exhausted schedule means no
    further failure. *)
Definition pop_fault (F : list (option PyExc)) : option PyExc * list (option PyExc) :=
  match F with
  | [] => (None, [])
  | x :: F' => (x, F')
  end.

(** Every call into numpy, matplotlib or the OS first asks the world whether
    the library fails this time. *)
Definition fault_point : Py unit :=
  fun w => match pop_fault (faults w) with
           | (None, F) => (Ok tt, with_faults F w)
           | (Some e, F) => py_raise e (with_faults F w)
           end.

Definition emit (ev : Event) : Py unit := fun w => (Ok tt, log ev w).

(** [print(line)] *)
Definition print (line : string) : Py unit := emit (EvPrint line).

(** [traceback.print_exc()] inside a handler for [e] *)
Definition traceback_print_exc (e : PyExc) : Py unit := emit (EvTraceback e).

(** ** The file system *)

Fixpoint split_last (sep : Ascii.ascii) (s : string) : option (string * string) :=
  match s with
  | EmptyString => None
  | String c s' =>
      match split_last sep s' with
      | Some (a, b) => Some (String c a, b)
      | None => if Ascii.eqb c sep then Some (EmptyString, s') else None
      end
  end.

(** [os.path.join(a, b)] on POSIX, for a relative [b] and a non-empty [a]. *)
Definition os_path_join (a b : string) : string := a +:+ "/" +:+ b.

(** [os.path.dirname]; the empty string stands for the working directory. *)
Definition dirname (p : string) : string :=
  match split_last "/"%char p with
  | Some (d, _) => d
  | None => ""
  end.

(** Extension of a path, which selects the output format of [savefig]; a
    path without one gets matplotlib's default format. *)
Definition extension (p : string) : string :=
  match split_last "."%char p with
  | Some (_, e) => e
  | None => "png"
  end.

Definition dir_exists (d : string) (w : World) : bool :=
  bool_decide (d = "") || bool_decide (d ∈ dirs w).

(** [os.makedirs(path, exist_ok=True)] for a path of one component: an
    existing directory is accepted, an existing regular file is not. *)
Definition os_makedirs_exist_ok (path : string) : Py unit :=
  fault_point ;;
  act (fun w =>
    if bool_decide (path ∈ dom (files w))
    then py_raise (OSError "FileExistsError" path) w
    else (Ok tt, log (EvMakedirs path) (with_dirs ({[path]} ∪ dirs w) w))).

(** ** pyplot *)

Definition blank_figure : Figure := new_figure None ∅.

Definition figure_of (w : World) (id : nat) : Figure :=
  default blank_figure (fig_heap w !! id).

(** [plt.style.use(name)] and [plt.rcParams[key] = value] *)
Definition plt_style_use (name : string) : Py unit :=
  fault_point ;;
  act (fun w => (Ok tt, with_rcparams (<["style" := name]> (rcparams w)) w)).
Definition rcParams_set (key value : string) : Py unit :=
  fault_point ;;
  act (fun w => (Ok tt, with_rcparams (<[key := value]> (rcparams w)) w)).

(** [fig = plt.figure(figsize=...)]: a new figure object, registered with
    pyplot and made the current figure. *)
Definition plt_figure (figsize : Z * Z) : Py nat :=
  fault_point ;;
  act (fun w =>
    let id := next_fig w in
    (Ok id, log (EvFigure id)
              (with_figs (<[id := new_figure (Some figsize) (rcparams w)]> (fig_heap w))
                         (id :: open_figs w) (S id) w))).

(** [plt.gcf()]: the current figure; pyplot makes one when none is open. *)
Definition plt_gcf : Py nat :=
  fun w =>
    match open_figs w with
    | id :: _ => (Ok id, w)
    | [] =>
        let id := next_fig w in
        (Ok id, log (EvFigure id)
                  (with_figs (<[id := new_figure None (rcparams w)]> (fig_heap w))
                             [id] (S id) w))
    end.

Definition modify_figure (id : nat) (f : Figure -> Figure) : Py unit :=
  act (fun w => (Ok tt, with_figs (<[id := f (figure_of w id)]> (fig_heap w))
                                  (open_figs w) (next_fig w) w)).

(** [plt.tight_layout(rect=...)], on the current figure. *)
Definition plt_tight_layout (rect : list string) : Py unit :=
  fault_point ;;
  id ← plt_gcf ;
  modify_figure id (add_artist (mkArtist "plt.tight_layout" [] [NdLit rect])).

(** [plt.close()]: closes the current figure, if there is one. *)
Definition plt_close : Py unit :=
  fault_point ;;
  act (fun w =>
    match open_figs w with
    | [] => (Ok tt, w)
    | id :: rest =>
        (Ok tt, log (EvClose id) (with_figs (fig_heap w) rest (next_fig w) w))
    end).

(** [fig.savefig(path, dpi=..., bbox_inches='tight')]: creates the file or
    replaces its content.  The directory of [path] must exist and [path]
    must not name a directory.  A call that raises leaves the disk as it
    was. *)
Definition fig_savefig (fig : nat) (path : string) (dpi : option Z) : Py unit :=
  fault_point ;;
  act (fun w =>
    if negb (dir_exists (dirname path) w)
    then py_raise (OSError "FileNotFoundError" path) w
    else if bool_decide (path ∈ dirs w)
    then py_raise (OSError "IsADirectoryError" path) w
    else (Ok tt, log (EvSavefig path)
                   (with_files (<[path := mkFile (extension path) dpi (figure_of w fig)]>
                                  (files w)) w))).

(** ** Drawing on one figure

    The body of a figure function is a sequence of calls on the figure and
    its axes, interleaved with calls on [np.random].  [Drawing] is the free
    monad over those calls. *)
Inductive Drawing (A : Type) : Type :=
| DRet (a : A)
| DCall (c : Artist) (k : Drawing A)
| DSeed (n : Z) (k : Drawing A)
| DSample (d : Dist) (k : ndarray -> Drawing A).
Arguments DRet {A} a.
Arguments DCall {A} c k.
Arguments DSeed {A} n k.
Arguments DSample {A} d k.

Fixpoint drawing_bind {A B} (k : A -> Drawing B) (m : Drawing A) : Drawing B :=
  match m with
  | DRet a => k a
  | DCall c m' => DCall c (drawing_bind k m')
  | DSeed n m' => DSeed n (drawing_bind k m')
  | DSample d f => DSample d (fun x => drawing_bind k (f x))
  end.

#[global] Instance Drawing_ret : MRet Drawing := @DRet.
#[global] Instance Drawing_bind : MBind Drawing := @drawing_bind.

Record Canvas := mkCanvas {
  cv_fig : Figure;
  cv_rng : RngState;
  cv_faults : list (option PyExc)
}.

(** Each call may fail; a failed call leaves the figure as drawn so far. *)
Fixpoint run_drawing {A} (m : Drawing A) (c : Canvas) : Outcome A * Canvas :=
  match m with
  | DRet a => (Ok a, c)
  | DCall art k =>
      match pop_fault (cv_faults c) with
      | (Some e, F) => (Raise e, mkCanvas (cv_fig c) (cv_rng c) F)
      | (None, F) => run_drawing k (mkCanvas (add_artist art (cv_fig c)) (cv_rng c) F)
      end
  | DSeed n k =>
      match pop_fault (cv_faults c) with
      | (Some e, F) => (Raise e, mkCanvas (cv_fig c) (cv_rng c) F)
      | (None, F) => run_drawing k (mkCanvas (cv_fig c) (RngSeeded n) F)
      end
  | DSample d k =>
      match pop_fault (cv_faults c) with
      | (Some e, F) => (Raise e, mkCanvas (cv_fig c) (cv_rng c) F)
      | (None, F) =>
          run_drawing (k (NdSample (cv_rng c) d))
                      (mkCanvas (cv_fig c) (RngAfter (cv_rng c) d) F)
      end
  end.

(** Running a body on figure [fig].  The pyplot-level calls a body makes
    ([plt.colorbar]) go to the current figure, which is [fig]: [plt.figure]
    made it current and a body opens no other figure. *)
Definition drawing {A} (fig : nat) (body : Drawing A) : Py A :=
  fun w =>
    let '(r, c) := run_drawing body (mkCanvas (figure_of w fig) (rng w) (faults w)) in
    let w' := with_faults (cv_faults c)
                (with_rng (cv_rng c)
                   (with_figs (<[fig := cv_fig c]> (fig_heap w)) (open_figs w) (next_fig w) w)) in
    match r with
    | Ok a => (Ok a, w')
    | Raise e => py_raise e w'
    end.

(** *** The calls a body makes *)

Definition call (method : string) (texts : list Annotation) (data : list ndarray)
  : Drawing unit :=
  DCall (mkArtist method texts data) (DRet tt).

(** A call that displays one string written in the source. *)
Definition say (method : string) (s : string) : Drawing unit :=
  call method [[Lit s]] [].

(** A call that displays nothing and plots nothing (axis limits, ticks
    removed, grid, a patch, an arrow, a subplot). *)
Definition shape (method : string) : Drawing unit := call method [] [].

Definition np_random_seed (n : Z) : Drawing unit := DSeed n (DRet tt).
Definition np_random (d : Dist) : Drawing ndarray := DSample d DRet.

Fixpoint draw_each {A} (l : list A) (body : A -> Drawing unit) : Drawing unit :=
  match l with
  | [] => mret tt
  | x :: rest => body x ;; draw_each rest body
  end.

Fixpoint draw_fold {A B} (l : list A) (acc : B) (body : B -> A -> Drawing B)
  : Drawing B :=
  match l with
  | [] => mret acc
  | x :: rest => acc' ← body acc x ; draw_fold rest acc' body
  end.

(** *** Small Python helpers *)

Definition nl : string := String "010"%char EmptyString.

(** The string whose lines are [l] (the source writes them with [\n]). *)
Definition lines (l : list string) : string := String.concat nl l.

(** [enumerate(l, start)] *)
Definition enumerate_from {A} (start : nat) (l : list A) : list (nat * A) :=
  combine (seq start (length l)) l.
Definition enumerate {A} (l : list A) : list (nat * A) := enumerate_from 0 l.

(** Integers used as plotted data. *)
Definition nd_ints (l : list PyInt) : ndarray :=
  NdLit (map (fun n => pretty (int_val n)) l).
Definition nd_nat (n : nat) : ndarray := NdLit [pretty n].

(** ** The script *)

Definition OUTPUT_DIR : string := "paper_figures_section3".

Definition save_figure (fig : nat) (name : string) : Py unit :=
  emit (EvEnter "save_figure") ;;
  let png_path := os_path_join OUTPUT_DIR (name +:+ ".png") in
  let pdf_path := os_path_join OUTPUT_DIR (name +:+ ".pdf") in
  fig_savefig fig png_path (Some 300) ;;
  fig_savefig fig pdf_path None ;;
  print ("  ✓ Saved: " +:+ name).

(** *** The drawing calls of the four figures

    Every call is listed in source order.  A patch constructor and the
    [add_patch] that places it are one call. *)

(** Lines 49-305 of [plot_system_architecture]. *)
Definition system_architecture_body : Drawing unit :=
  shape "fig.add_subplot" ;;
  shape "ax.set_xlim" ;;
  shape "ax.set_ylim" ;;
  shape "ax.axis" ;;
  say "fig.text" "Figure 3. ST-RL Nav System Architecture" ;;
  shape "ax.add_patch(FancyBboxPatch)" ;;
  say "ax.text" "Drone Sensors" ;;
  say "ax.text" "RGB Camera" ;;
  say "ax.text" "640×480 @ 30fps" ;;
  say "ax.text" "IMU 200Hz" ;;
  say "ax.text" "(ω, a, g)" ;;
  shape "ax.add_patch(FancyBboxPatch)" ;;
  say "ax.text" "Localization" ;;
  say "ax.text" "Position: p ∈ ℝ³" ;;
  say "ax.text" "Velocity: v ∈ ℝ³" ;;
  say "ax.text" "Target: Δp_goal" ;;
  shape "ax.add_patch(FancyBboxPatch)" ;;
  say "ax.text" "PERCEPTION MODULE" ;;
  shape "ax.add_patch(FancyBboxPatch)" ;;
  say "ax.text" "HAA-UQ" ;;
  say "ax.text" "• Multi-scale Aliasing" ;;
  say "ax.text" "• Uncertainty: U_t" ;;
  say "ax.text" "• Features: f_t ∈ ℝ³⁸⁴" ;;
  shape "ax.add_patch(FancyBboxPatch)" ;;
  say "ax.text" "Semantic Seg" ;;
  say "ax.text" "DeepLabV3+" ;;
  say "ax.text" "mIoU: 0.888" ;;
  shape "ax.add_patch(FancyBboxPatch)" ;;
  say "ax.text" "Visual Depth" ;;
  say "ax.text" "U-Net + ResNet" ;;
  say "ax.text" "D_vis" ;;
  shape "ax.add_patch(FancyBboxPatch)" ;;
  say "ax.text" "PI-CMDR MODULE" ;;
  shape "ax.add_patch(FancyBboxPatch)" ;;
  say "ax.text" "IMU Prior" ;;
  say "ax.text" "Gravity: ĝ" ;;
  say "ax.text" "Vertical: v̂" ;;
  say "ax.text" "Plane: D_geo" ;;
  shape "ax.add_patch(FancyBboxPatch)" ;;
  say "ax.text" "Physics" ;;
  say "ax.text" "Ground planar" ;;
  say "ax.text" "Vertical align" ;;
  say "ax.text" "Spatial regular" ;;
  shape "ax.add_patch(Circle)" ;;
  say "ax.text" "⊕" ;;
  say "ax.text" (lines ["Adaptive Fusion"; "D_fused"]) ;;
  shape "ax.add_patch(FancyBboxPatch)" ;;
  say "ax.text" "STATE s_t" ;;
  say "ax.text" "• Proprioceptive: [p, v, q, Δp]" ;;
  say "ax.text" "• Perceptual: [f_t, O_t]" ;;
  say "ax.text" "• Uncertainty: U_t" ;;
  say "ax.text" "• Historical: s_{t-4:t-1}" ;;
  say "ax.text" "Dim: 512" ;;
  shape "ax.add_patch(FancyBboxPatch)" ;;
  say "ax.text" "PPO POLICY NETWORK" ;;
  shape "ax.add_patch(FancyBboxPatch)" ;;
  say "ax.text" "ACTOR π_θ" ;;
  say "ax.text" "Encoders: [Proprio | Percept | Uncert]" ;;
  say "ax.text" "FC: 256 → 128" ;;
  say "ax.text" "Output: μ_a, log σ_a ∈ ℝ²" ;;
  shape "ax.add_patch(FancyBboxPatch)" ;;
  say "ax.text" "CRITIC V_φ" ;;
  say "ax.text" "Shared Encoders" ;;
  say "ax.text" "FC: 256 → 128 → 1" ;;
  say "ax.text" "Output: V(s_t) ∈ ℝ" ;;
  shape "ax.add_patch(FancyBboxPatch)" ;;
  say "ax.text" "ACTION a_t" ;;
  say "ax.text" "a ~ N(μ_a, σ²_a)" ;;
  say "ax.text" "Uncertainty modulation:" ;;
  say "ax.text" "v ← v·(1-α·max(0,U-τ))" ;;
  shape "ax.add_patch(FancyBboxPatch)" ;;
  say "ax.text" "CONTROL" ;;
  say "ax.text" "Linear vel: v" ;;
  say "ax.text" "Angular vel: ω" ;;
  say "ax.text" "Frequency: 10Hz" ;;
  shape "ax.add_patch(FancyBboxPatch)" ;;
  say "ax.text" "LPC MODULE" ;;
  say "ax.text" "VAE Difficulty" ;;
  say "ax.text" "z ∈ ℝ⁵" ;;
  say "ax.text" "5 Curriculum" ;;
  say "ax.text" "Stages" ;;
  say "ax.text" "Adaptive" ;;
  say "ax.text" "Sampling" ;;
  shape "ax.add_patch(FancyArrowPatch)" ;;
  say "ax.text" "RGB" ;;
  shape "ax.add_patch(FancyArrowPatch)" ;;
  shape "ax.add_patch(FancyArrowPatch)" ;;
  say "ax.text" "D_vis, S" ;;
  shape "ax.add_patch(FancyArrowPatch)" ;;
  say "ax.text" "IMU" ;;
  shape "ax.add_patch(FancyArrowPatch)" ;;
  say "ax.text" "D_fused" ;;
  shape "ax.add_patch(FancyArrowPatch)" ;;
  say "ax.text" "f_t, U_t" ;;
  shape "ax.add_patch(FancyArrowPatch)" ;;
  say "ax.text" "s_t" ;;
  shape "ax.add_patch(FancyArrowPatch)" ;;
  say "ax.text" "μ_a, σ_a" ;;
  shape "ax.add_patch(FancyArrowPatch)" ;;
  say "ax.text" "a_t" ;;
  shape "ax.add_patch(FancyArrowPatch)" ;;
  say "ax.text" "Training" ;;
  shape "ax.add_patch(FancyArrowPatch)" ;;
  shape "ax.add_patch(FancyArrowPatch)" ;;
  say "ax.text" "Environment Selection" ;;
  let legend_elements := ["Perception"; "Depth Fusion"; "Policy"; "Curriculum"] in
  call "ax.legend" (map (fun s => [Lit s]) legend_elements) [] ;;
  let metrics_text := (lines ["System Performance:"; "• End-to-end latency: 43ms (23 FPS)"; ""]) +:+ (lines ["• Success rate: 97.8% (sim), 98.2% (real)"; ""]) +:+ "• Training: 1,140 episodes (42% reduction)" in
  say "ax.text" metrics_text.

(** Lines 323-461 of [plot_haa_uq_mechanism]. *)
Definition haa_uq_body : Drawing unit :=
  shape "GridSpec" ;;
  np_random_seed 42 ;;
  shape "fig.add_subplot" ;;
  say "ax1.set_title" (lines ["Patch-Level Aliasing"; "(16×16 pixels)"]) ;;
  patch_img ← np_random (DRand [8; 8]) ;
  let patch_img := NdOp "patch_img[2:4, 2:4] = 0.8" [patch_img] in
  let patch_img := NdOp "patch_img[5:7, 5:7] = 0.3" [patch_img] in
  call "ax1.imshow" [] [patch_img] ;;
  shape "ax1.set_xticks" ;;
  shape "ax1.set_yticks" ;;
  say "plt.colorbar" "α_local" ;;
  say "ax1.text" "Eq. (1): Local similarity" ;;
  shape "fig.add_subplot" ;;
  say "ax2.set_title" (lines ["Regional Aliasing"; "(64×64 regions)"]) ;;
  regional_img ← np_random (DRand [4; 4]) ;
  let regional_img := NdOp "regional_img[1:3, :] = 0.7" [regional_img] in
  call "ax2.imshow" [] [regional_img] ;;
  shape "ax2.set_xticks" ;;
  shape "ax2.set_yticks" ;;
  say "plt.colorbar" "α_region" ;;
  say "ax2.text" "Eq. (2): Structural similarity" ;;
  shape "fig.add_subplot" ;;
  say "ax3.set_title" (lines ["Global Scene Aliasing"; "(Full image)"]) ;;
  let global_scores := NdLit ["0.25"; "0.45"; "0.72"; "0.88"] in
  let scene_types := [(lines ["Open"; "Area"]); (lines ["Sparse"; "Obstacles"]); (lines ["Dense"; "Rows"]); (lines ["Extreme"; "Repetition"])] in
  call "ax3.bar" [] [(NdOp "range(4)" []); global_scores] ;;
  shape "ax3.set_xticks" ;;
  call "ax3.set_xticklabels" (map (fun s => [Lit s]) scene_types) [] ;;
  say "ax3.set_ylabel" "α_global" ;;
  shape "ax3.set_ylim" ;;
  call "ax3.axhline" [] [(NdLit ["0.7"])] ;;
  say "ax3.text" "High aliasing threshold" ;;
  shape "ax3.grid" ;;
  say "ax3.text" "Eq. (3): Learned detector f_θ" ;;
  shape "fig.add_subplot" ;;
  say "ax4.set_title" (lines ["Hierarchical Score α_i"; "(Geometric mean)"]) ;;
  combined ← np_random (DRand [8; 8]) ;
  let combined := NdOp "combined[2:4, 2:4] = 0.15" [combined] in
  let combined := NdOp "combined[5:7, :] = 0.85" [combined] in
  call "ax4.imshow" [] [combined] ;;
  shape "ax4.set_xticks" ;;
  shape "ax4.set_yticks" ;;
  say "plt.colorbar" "α_i" ;;
  say "ax4.text" "Eq. (4): α = (α_local·α_region·α_global)^(1/3)" ;;
  shape "fig.add_subplot" ;;
  say "ax5.set_title" (lines ["Standard Attention"; "(Uniform temperature)"]) ;;
  std_attn ← np_random (DUniform "0.01" "0.03" [8; 8]) ;
  let std_attn := NdOp "std_attn[3:5, 3:5] = 0.08" [std_attn] in
  call "ax5.imshow" [] [std_attn] ;;
  shape "ax5.set_xticks" ;;
  shape "ax5.set_yticks" ;;
  say "plt.colorbar" "Attention" ;;
  let entropy_std := (NdOp "-np.sum(std_attn * np.log(std_attn + 1e-8))" [std_attn]) in
  call "ax5.text" [[Lit "Entropy: "; FmtFloat ".2f" entropy_std; Lit " (HIGH)"]] [] ;;
  shape "fig.add_subplot" ;;
  say "ax6.set_title" (lines ["HAA-UQ Attention"; "(Modulated τ_i)"]) ;;
  let haa_attn := (NdOp "np.ones((8, 8)) * 0.005" []) in
  let haa_attn := NdOp "haa_attn[3:5, 3:5] = 0.25" [haa_attn] in
  call "ax6.imshow" [] [haa_attn] ;;
  shape "ax6.set_xticks" ;;
  shape "ax6.set_yticks" ;;
  say "plt.colorbar" "Attention" ;;
  let entropy_haa := (NdOp "-np.sum(haa_attn * np.log(haa_attn + 1e-8))" [haa_attn]) in
  call "ax6.text"
       [[Lit "Entropy: "; FmtFloat ".2f" entropy_haa; Lit " (LOW, ↓";
         FmtFloat ".0f" (NdOp "(entropy_std-entropy_haa)/entropy_std*100"
                              [entropy_std; entropy_haa]);
         Lit "%)"]] [] ;;
  shape "fig.add_subplot" ;;
  say "ax7.set_title" (lines ["Attention Entropy"; "→ Uncertainty"]) ;;
  let n_patches := NdLit ["64"] in
  let entropies := (NdOp "np.linspace(0, np.log(n_patches), 50)" [n_patches]) in
  let uncertainties_entropy := (NdOp "entropies / np.log(n_patches)" [entropies; n_patches]) in
  call "ax7.plot" [[Lit "H_norm = H / log(N)"]] [(NdOp "np.arange(50)" []); uncertainties_entropy] ;;
  call "ax7.fill_between" [] [(NdOp "np.arange(50)" []); (NdLit ["0"]); uncertainties_entropy] ;;
  say "ax7.set_xlabel" "Patch Index" ;;
  say "ax7.set_ylabel" "Normalized Entropy" ;;
  shape "ax7.legend" ;;
  shape "ax7.grid" ;;
  shape "ax7.set_ylim" ;;
  say "ax7.text" "Eq. (10): Normalize to [0,1]" ;;
  shape "fig.add_subplot" ;;
  say "ax8.set_title" (lines ["Scene-Level Uncertainty"; "U_scene"]) ;;
  let scene_names := ["Open"; "Moderate"; "Dense"; "Extreme"] in
  let uncertainties := NdLit ["0.25"; "0.48"; "0.72"; "0.89"] in
  call "ax8.barh" [] [(NdOp "range(4)" []); uncertainties] ;;
  shape "ax8.set_yticks" ;;
  call "ax8.set_yticklabels" (map (fun s => [Lit s]) scene_names) [] ;;
  say "ax8.set_xlabel" "U_scene" ;;
  shape "ax8.set_xlim" ;;
  call "ax8.axvline" [] [(NdLit ["0.3"])] ;;
  say "ax8.text" (lines ["Low"; "(efficient nav)"]) ;;
  call "ax8.axvline" [] [(NdLit ["0.6"])] ;;
  say "ax8.text" (lines ["High"; "(cautious)"]) ;;
  shape "ax8.grid" ;;
  say "ax8.text" "Eq. (12): Weighted aggregation" ;;
  say "fig.suptitle" "Figure 4. Hierarchical Aliasing-Aware Attention with Uncertainty Quantification (HAA-UQ)".

(** Lines 517-741 of [plot_pi_cmdr_pipeline]. *)
Definition pi_cmdr_body : Drawing unit :=
  shape "GridSpec" ;;
  np_random_seed 42 ;;
  shape "fig.add_subplot" ;;
  say "ax1.set_title" "Visual Depth Branch (D_vis)" ;;
  say "ax1.text" "U-Net Architecture" ;;
  depth_visual_raw ← np_random (DRand [10; 10]) ;
  let depth_visual := NdOp "np.random.rand(10, 10) * 5 + 2" [depth_visual_raw] in
  let depth_visual := NdOp "depth_visual[3:7, 3:7] = 1.5" [depth_visual] in
  call "ax1.imshow" [] [depth_visual] ;;
  shape "ax1.set_xticks" ;;
  shape "ax1.set_yticks" ;;
  say "plt.colorbar" "Depth (m)" ;;
  say "ax1.text" "Self-supervised (Eq. 16)" ;;
  say "ax1.text" "MAE: 0.283m | Temporal σ²: 4.82×10⁻³" ;;
  shape "fig.add_subplot" ;;
  say "ax2.set_title" "IMU Geometric Prior (D_geo)" ;;
  say "ax2.text" "Gravity-Based" ;;
  let y_coords := (NdOp "np.linspace(0, 10, 10)" []) in
  let x_coords := (NdOp "np.linspace(0, 10, 10)" []) in
  let XY := NdOp "np.meshgrid(x_coords, y_coords)" [x_coords; y_coords] in
  let X := NdOp "X, _ = XY" [XY] in
  let Y := NdOp "_, Y = XY" [XY] in
  let depth_geo := (NdOp "2 + 0.3 * Y" [Y]) in
  call "ax2.imshow" [] [depth_geo] ;;
  shape "ax2.set_xticks" ;;
  shape "ax2.set_yticks" ;;
  say "plt.colorbar" "Depth (m)" ;;
  say "ax2.text" "Ground plane (Eq. 19)" ;;
  say "ax2.text" "Vertical: v̂ from IMU" ;;
  shape "fig.add_subplot" ;;
  say "ax3.set_title" "Physics Constraints (D_phys)" ;;
  let constraint_names := [(lines ["Ground"; "Planarity"]); (lines ["Vertical"; "Alignment"]); (lines ["Spatial"; "Regularity"])] in
  let constraint_strengths := NdLit ["0.85"; "0.72"; "0.68"] in
  call "ax3.barh" [] [(NdOp "range(3)" []); constraint_strengths] ;;
  shape "ax3.set_yticks" ;;
  call "ax3.set_yticklabels" (map (fun s => [Lit s]) constraint_names) [] ;;
  say "ax3.set_xlabel" "Constraint Weight" ;;
  shape "ax3.set_xlim" ;;
  shape "ax3.grid" ;;
  say "ax3.text" "Eq. (21)" ;;
  say "ax3.text" "Eq. (22)" ;;
  say "ax3.text" "Eq. (23-24)" ;;
  say "ax3.text" "Agricultural domain knowledge" ;;
  shape "fig.add_subplot" ;;
  say "ax4.set_title" "Scene Classification" ;;
  let scene_types := ["Open Area"; "Dense Foliage"; "Repetitive Rows"] in
  let visual_weights := NdLit ["0.75"; "0.30"; "0.40"] in
  let geo_weights := NdLit ["0.15"; "0.50"; "0.35"] in
  let phys_weights := NdLit ["0.10"; "0.20"; "0.25"] in
  let x := (NdOp "np.arange(len(scene_types))" []) in
  let width := NdLit ["0.25"] in
  call "ax4.bar" [[Lit "w_vis"]] [(NdOp "x - width" [x; width]); visual_weights; width] ;;
  call "ax4.bar" [[Lit "w_geo"]] [x; geo_weights; width] ;;
  call "ax4.bar" [[Lit "w_phys"]] [(NdOp "x + width" [x; width]); phys_weights; width] ;;
  say "ax4.set_ylabel" "Fusion Weight" ;;
  shape "ax4.set_xticks" ;;
  call "ax4.set_xticklabels" (map (fun s => [Lit s]) scene_types) [] ;;
  shape "ax4.legend" ;;
  shape "ax4.set_ylim" ;;
  shape "ax4.grid" ;;
  say "ax4.text" "Eq. (25): Learned adaptive weighting" ;;
  shape "fig.add_subplot" ;;
  say "ax5.set_title" "Multi-Modal Fusion" ;;
  shape "ax5.axis" ;;
  shape "ax5.add_patch(Circle)" ;;
  say "ax5.text" "⊕" ;;
  say "ax5.annotate" "" ;;
  say "ax5.text" "D_vis" ;;
  say "ax5.annotate" "" ;;
  say "ax5.text" "D_geo" ;;
  say "ax5.annotate" "" ;;
  say "ax5.text" "D_phys" ;;
  say "ax5.annotate" "" ;;
  say "ax5.text" "D_fused" ;;
  say "ax5.text" "Eq. (26)" ;;
  shape "fig.add_subplot" ;;
  say "ax6.set_title" "Fused Depth (D_fused)" ;;
  let depth_fused := (NdOp "0.5 * depth_visual + 0.3 * depth_geo + 0.2 * (depth_visual * 0.9)" [depth_visual; depth_geo]) in
  call "ax6.imshow" [] [depth_fused] ;;
  shape "ax6.set_xticks" ;;
  shape "ax6.set_yticks" ;;
  say "plt.colorbar" "Depth (m)" ;;
  say "ax6.text" "MAE: 0.175m (↓38%) | Temporal σ²: 2.35×10⁻³ (↓51%)" ;;
  shape "fig.add_subplot" ;;
  say "ax7.set_title" "Temporal Scale Consistency" ;;
  let frames := (NdOp "np.arange(0, 100)" []) in
  let scale_drift_before := (NdOp "1 + 0.00087 * frames" [frames]) in
  let scale_drift_after := (NdOp "1 + 0.00032 * frames" [frames]) in
  call "ax7.plot" [[Lit "Visual-only (8.7% @ 100f)"]] [frames; (NdOp "(scale_drift_before - 1) * 100" [scale_drift_before])] ;;
  call "ax7.plot" [[Lit "PI-CMDR (3.2% @ 100f)"]] [frames; (NdOp "(scale_drift_after - 1) * 100" [scale_drift_after])] ;;
  call "ax7.axhline" [] [(NdLit ["0"])] ;;
  say "ax7.set_xlabel" "Frame Number" ;;
  say "ax7.set_ylabel" "Scale Drift (%)" ;;
  shape "ax7.legend" ;;
  shape "ax7.grid" ;;
  shape "ax7.set_xlim" ;;
  say "ax7.text" "Eq. (27-29): IMU-integrated displacement" ;;
  shape "fig.add_subplot" ;;
  say "ax8.set_title" (lines ["Frame-to-Frame"; "Variance"]) ;;
  let methods := [(lines ["Visual"; "Only"]); "PI-CMDR"] in
  let variances := NdLit ["4.82"; "2.35"] in
  call "ax8.bar" [] [(NdOp "range(2)" []); variances] ;;
  shape "ax8.set_xticks" ;;
  call "ax8.set_xticklabels" (map (fun s => [Lit s]) methods) [] ;;
  say "ax8.set_ylabel" "Variance (×10⁻³)" ;;
  shape "ax8.set_ylim" ;;
  shape "ax8.grid" ;;
  say "ax8.text" "↓51%" ;;
  shape "fig.add_subplot" ;;
  say "ax9.set_title" "Final Corrected Depth (D_corrected)" ;;
  let depth_corrected := (NdOp "depth_fused * 1.0" [depth_fused]) in
  call "ax9.imshow" [] [depth_corrected] ;;
  shape "ax9.set_xticks" ;;
  shape "ax9.set_yticks" ;;
  say "plt.colorbar" "Depth (m)" ;;
  let perf_text := (lines ["Final Performance:"; ""]) +:+ (lines ["✓ MAE: 0.175m (38% improvement)"; ""]) +:+ (lines ["✓ Temporal variance: ↓51%"; ""]) +:+ (lines ["✓ Scale drift: ↓63%"; ""]) +:+ "✓ FPS: 22 (real-time)" in
  say "ax9.text" perf_text ;;
  say "fig.suptitle" "Figure 5. Physics-Informed Cross-Modal Depth Refinement (PI-CMDR) Pipeline".

(** Lines 759-1003 of [plot_lpc_curriculum]. *)
Definition lpc_body : Drawing unit :=
  shape "GridSpec" ;;
  np_random_seed 42 ;;
  shape "fig.add_subplot" ;;
  say "ax1.set_title" (lines ["Environment Features"; "x_e ∈ ℝ⁶⁴"]) ;;
  let feature_names := ["Aliasing"; "Density"; "Lighting"; "Curvature"; "Dynamics"; "Occlusion"] in
  feature_values_raw ← np_random (DRand [6]) ;
  let feature_values := NdOp "np.random.rand(6) * 0.8 + 0.1" [feature_values_raw] in
  call "ax1.barh" [] [(NdOp "range(6)" []); feature_values] ;;
  shape "ax1.set_yticks" ;;
  call "ax1.set_yticklabels" (map (fun s => [Lit s]) feature_names) [] ;;
  say "ax1.set_xlabel" "Normalized Value" ;;
  shape "ax1.set_xlim" ;;
  shape "ax1.grid" ;;
  say "ax1.text" (lines ["64 geometric +"; "perceptual features"]) ;;
  shape "fig.add_subplot" ;;
  say "ax2.set_title" (lines ["VAE Encoder"; "q_φ(z|x)"]) ;;
  shape "ax2.axis" ;;
  let layer_sizes := [6; 4; 2; 1]%nat in
  let y_pos := NdLit ["0.8"] in
  draw_each (enumerate layer_sizes) (fun '(i, size) =>
    draw_each (seq 0 size) (fun j =>
      shape "ax2.add_patch(Circle)" ;;
      if bool_decide (i < length layer_sizes - 1)%nat
      then draw_each (seq 0 (nth (i + 1) layer_sizes 0%nat)) (fun k =>
             call "ax2.plot" []
                  [NdOp "[x_pos + 0.03, 0.2 + (i+1) * 0.25 - 0.03]" [nd_nat i];
                   NdOp "[y, y_next]" [y_pos; nd_nat j; nd_nat k]])
      else mret tt)) ;;
  say "ax2.text" "FC: 64→128→64→5" ;;
  say "ax2.text" "Eq. (30): μ_z, log σ²_z" ;;
  shape "fig.add_subplot" ;;
  say "ax3.set_title" (lines ["Latent Space"; "z ∈ ℝ⁵"]) ;;
  let n_envs := NdLit ["150"] in
  z1 ← np_random (DRandn 150) ;
  z2 ← np_random (DRandn 150) ;
  let success_rates := (NdOp "1 - 0.5 * (np.abs(z1) + np.abs(z2)) / 4" [z1; z2]) in
  let success_rates := (NdOp "np.clip(success_rates, 0, 1)" [success_rates]) in
  call "ax3.scatter" [] [z1; z2; success_rates] ;;
  say "ax3.set_xlabel" "z₁ (Perceptual Ambiguity)" ;;
  say "ax3.set_ylabel" "z₂ (Spatial Density)" ;;
  shape "ax3.grid" ;;
  shape "ax3.set_xlim" ;;
  shape "ax3.set_ylim" ;;
  shape "plt.colorbar" ;;
  say "cbar.set_label" "Success Rate" ;;
  say "ax3.text" "Eq. (31): Reparameterization" ;;
  shape "fig.add_subplot" ;;
  say "ax4.set_title" (lines ["Factor-Performance"; "Correlation"]) ;;
  let factors := ["z₁"; "z₂"; "z₃"; "z₄"; "z₅"] in
  let correlations := NdLit ["0.871"; "0.824"; "0.792"; "0.683"; "0.715"] in
  call "ax4.barh" [] [(NdOp "range(5)" []); correlations] ;;
  shape "ax4.set_yticks" ;;
  call "ax4.set_yticklabels" (map (fun s => [Lit s]) factors) [] ;;
  say "ax4.set_xlabel" "|ρ| with Failure Rate" ;;
  shape "ax4.set_xlim" ;;
  shape "ax4.grid" ;;
  say "ax4.text" "Strongest!" ;;
  say "ax4.text" "Eq. (34): Pearson correlation" ;;
  shape "fig.add_subplot" ;;
  say "ax5.set_title" "5-Stage Curriculum Distribution" ;;
  let stage_labels := [(lines ["Stage 1"; "(Easy)"]); "Stage 2"; (lines ["Stage 3"; "(Medium)"]); "Stage 4"; (lines ["Stage 5"; "(Hard)"])] in
  let all_difficulties : list ndarray := [] in
  all_difficulties ← draw_fold (seq 0 5) all_difficulties (fun acc i =>
    stage_diff ← np_random (DBeta (Z.of_nat i + 1) (6 - Z.of_nat i) 30) ;
    mret (acc ++ [stage_diff])) ;
  call "ax5.hist" [] [NdOp "all_difficulties" all_difficulties; NdLit ["30"]] ;;
  let quintiles := NdOp "np.percentile(all_difficulties, [0, 20, 40, 60, 80, 100])" all_difficulties in
  draw_each (seq 0 5) (fun i =>
    call "ax5.axvspan" [[Lit (nth i stage_labels "")]]
         [NdOp "quintiles[i]" [quintiles; nd_nat i];
          NdOp "quintiles[i+1]" [quintiles; nd_nat i]]) ;;
  say "ax5.set_xlabel" "Difficulty Score" ;;
  say "ax5.set_ylabel" "Environment Count" ;;
  shape "ax5.legend" ;;
  shape "ax5.grid" ;;
  say "ax5.text" "Eq. (35): Weighted latent combination" ;;
  shape "fig.add_subplot" ;;
  say "ax6.set_title" "Training Progression Timeline" ;;
  let episodes_per_stage := [lit 180; lit 200; lit 260; lit 280; lit 220] in
  let cumulative := np_cumsum ([lit 0] ++ episodes_per_stage) in
  draw_each (py_range 5) (fun i =>
    call "ax6.barh" []
         [NdLit ["0"]; nd_ints [py_index episodes_per_stage i];
          nd_ints [py_index cumulative i]] ;;
    call "ax6.text"
         [[Lit "S"; FmtInt (int_add i (lit 1)); Lit nl;
           FmtInt (py_index episodes_per_stage i)]] []) ;;
  shape "ax6.set_xlim" ;;
  shape "ax6.set_ylim" ;;
  say "ax6.set_xlabel" "Training Episodes" ;;
  shape "ax6.set_yticks" ;;
  shape "ax6.grid" ;;
  call "ax6.text"
       [[Lit "Total: "; FmtInt (py_last cumulative); Lit " episodes (vs 2000 uniform)"]] [] ;;
  say "ax6.text" "Eq. (36): Automatic stage advancement (η ≥ 0.85)" ;;
  shape "fig.add_subplot" ;;
  say "ax7.set_title" (lines ["Adaptive Sampling"; "Strategy"]) ;;
  let success_rates_range := (NdOp "np.linspace(0, 1, 50)" []) in
  let sampling_probs := (NdOp "np.exp(-3 * (success_rates_range - 0.5)**2)" [success_rates_range]) in
  call "ax7.fill_between" [] [success_rates_range; sampling_probs] ;;
  call "ax7.plot" [] [success_rates_range; sampling_probs] ;;
  call "ax7.axvline" [] [(NdLit ["0.5"])] ;;
  say "ax7.text" (lines ["Optimal"; "(50%)"]) ;;
  call "ax7.axvspan" [] [(NdLit ["0.35"]); (NdLit ["0.65"])] ;;
  say "ax7.text" (lines ["Zone of Proximal"; "Development"]) ;;
  say "ax7.set_xlabel" "Environment Success Rate" ;;
  say "ax7.set_ylabel" "Sampling Probability" ;;
  shape "ax7.grid" ;;
  shape "ax7.set_xlim" ;;
  shape "ax7.set_ylim" ;;
  say "ax7.text" "Eq. (38): Gaussian weighting" ;;
  shape "fig.add_subplot" ;;
  say "ax8.set_title" "Environment Sampling Over Training" ;;
  let n_phases := NdLit ["24"] in
  let n_envs_display := NdLit ["30"] in
  let sampling_matrix := (NdOp "np.zeros((n_phases, n_envs_display))" [n_phases; n_envs_display]) in
  let sampling_matrix :=
    NdOp "sampling_matrix[phase, env] = np.exp(-abs(env - int(phase / n_phases * n_envs_display))**2 / 50)"
         [sampling_matrix; n_phases; n_envs_display] in
  call "ax8.imshow" [] [sampling_matrix] ;;
  say "ax8.set_xlabel" "Environment Index (sorted by difficulty →)" ;;
  say "ax8.set_ylabel" "Training Phase (50-ep bins)" ;;
  shape "plt.colorbar" ;;
  say "cbar8.set_label" "Sampling Freq" ;;
  let diagonal := (NdOp "np.linspace(0, n_envs_display-1, n_phases)" [n_phases; n_envs_display]) in
  call "ax8.plot" [[Lit "Curriculum Path"]] [diagonal; (NdOp "np.arange(n_phases)" [n_phases])] ;;
  shape "ax8.legend" ;;
  shape "fig.add_subplot" ;;
  say "ax9.set_title" (lines ["Sample Complexity"; "Comparison"]) ;;
  let methods_samp := ["Uniform"; (lines ["Fixed"; "Curr."]); "LPC"] in
  let episodes_required := [lit 2000; lit 1420; lit 1160] in
  call "ax9.bar" [] [NdOp "range(3)" []; nd_ints episodes_required] ;;
  shape "ax9.set_xticks" ;;
  call "ax9.set_xticklabels" (map (fun s => [Lit s]) methods_samp) [] ;;
  say "ax9.set_ylabel" "Episodes to 90%" ;;
  shape "ax9.set_ylim" ;;
  shape "ax9.grid" ;;
  say "ax9.text" "↓29%" ;;
  say "ax9.text" "↓42%" ;;
  draw_each episodes_required (fun val =>
    call "ax9.text" [[FmtInt val]] []) ;;
  say "ax9.text" "Prop. 3: O(N/logK)" ;;
  say "fig.suptitle" "Figure 6. Learned Perceptual Curriculum (LPC) with Automatic Difficulty Decomposition".

(** *** The figure functions *)

Definition plot_system_architecture : Py unit :=
  emit (EvEnter "plot_system_architecture") ;;
  fig ← plt_figure (18, 12) ;
  drawing fig system_architecture_body ;;
  plt_tight_layout [] ;;
  save_figure fig "figure3_system_architecture" ;;
  plt_close.

Definition plot_haa_uq_mechanism : Py unit :=
  emit (EvEnter "plot_haa_uq_mechanism") ;;
  fig ← plt_figure (18, 10) ;
  drawing fig haa_uq_body ;;
  plt_tight_layout ["0"; "0"; "1"; "0.96"] ;;
  save_figure fig "figure4_haa_uq_mechanism" ;;
  plt_close.

Definition plot_pi_cmdr_pipeline : Py unit :=
  emit (EvEnter "plot_pi_cmdr_pipeline") ;;
  fig ← plt_figure (18, 10) ;
  drawing fig pi_cmdr_body ;;
  plt_tight_layout ["0"; "0"; "1"; "0.96"] ;;
  save_figure fig "figure5_pi_cmdr_pipeline" ;;
  plt_close.

Definition plot_lpc_curriculum : Py unit :=
  emit (EvEnter "plot_lpc_curriculum") ;;
  fig ← plt_figure (18, 11) ;
  drawing fig lpc_body ;;
  plt_tight_layout ["0"; "0"; "1"; "0.96"] ;;
  save_figure fig "figure6_lpc_curriculum" ;;
  plt_close.

(** *** The drivers *)

Fixpoint for_each {A} (l : list A) (body : A -> Py unit) : Py unit :=
  match l with
  | [] => mret tt
  | x :: rest => body x ;; for_each rest body
  end.

Fixpoint repeat_string (s : string) (n : nat) : string :=
  match n with
  | O => ""
  | S n' => s +:+ repeat_string s n'
  end.

(** ["="*70] *)
Definition rule70 : string := repeat_string "=" 70.

(** The [except Exception as e] block shared by both loops. *)
Definition report_error (e : PyExc) : Py unit :=
  print ("  ✗ ERROR: " +:+ exc_msg e) ;;
  traceback_print_exc e.

Definition main : Py unit :=
  emit (EvEnter "main") ;;
  print rule70 ;;
  print "ST-RL Nav - Section 3 Methodology Figures" ;;
  print rule70 ;;
  print ("Output directory: " +:+ OUTPUT_DIR +:+ "/") ;;
  print rule70 ;;
  print "" ;;
  let figures :=
    [("Figure 3: System Architecture", plot_system_architecture);
     ("Figure 4: HAA-UQ Mechanism", plot_haa_uq_mechanism)] in
  for_each (enumerate_from 1 figures) (fun '(idx, (name, func)) =>
    try_except
      (print ("[" +:+ pretty idx +:+ "/" +:+ pretty (length figures)
                  +:+ "] Generating " +:+ name +:+ "...") ;;
       func)
      report_error) ;;
  print "" ;;
  print rule70 ;;
  print "✓ Section 3 figures generated!" ;;
  print rule70 ;;
  print (nl +:+ "All figures saved to: " +:+ OUTPUT_DIR +:+ "/") ;;
  print (nl +:+ "Next: Run this script to generate remaining figures:") ;;
  print "  • Figure 5: PI-CMDR Pipeline" ;;
  print "  • Figure 6: LPC Curriculum Construction".

(** The [if __name__ == "__main__":] block. *)
Definition dunder_main : Py unit :=
  main ;;
  print (nl +:+ rule70) ;;
  print "Generating additional Section 3 figures..." ;;
  print rule70 ;;
  print "" ;;
  let additional_figures :=
    [("Figure 5: PI-CMDR Pipeline", plot_pi_cmdr_pipeline);
     ("Figure 6: LPC Curriculum", plot_lpc_curriculum)] in
  for_each (enumerate_from 3 additional_figures) (fun '(idx, (name, func)) =>
    try_except
      (print ("[" +:+ pretty idx +:+ "/4] Generating " +:+ name +:+ "...") ;;
       func)
      report_error) ;;
  print (nl +:+ rule70) ;;
  print "✓ ALL Section 3 figures complete!" ;;
  print rule70.

(** [import m]: may fail like any other library call. *)
Definition py_import (m : string) : Py unit := fault_point.

(** Lines 10-27, executed when the module is loaded. *)
Definition module_init : Py unit :=
  py_import "numpy" ;;
  py_import "matplotlib.pyplot" ;;
  py_import "matplotlib.patches" ;;
  py_import "matplotlib.gridspec" ;;
  py_import "seaborn" ;;
  py_import "os" ;;
  plt_style_use "seaborn-v0_8-paper" ;;
  rcParams_set "figure.dpi" "150" ;;
  rcParams_set "font.size" "9" ;;
  rcParams_set "font.family" "serif" ;;
  rcParams_set "axes.grid" "True" ;;
  rcParams_set "grid.alpha" "0.3" ;;
  os_makedirs_exist_ok OUTPUT_DIR.

(** Running the file as a program. *)
Definition script : Py unit :=
  module_init ;;
  dunder_main.

Definition fresh_world : World :=
  mkWorld [] ∅ ∅ ∅ ∅ ∅ [] 1 (RngUnknown 0) [] [].


(** * Specification vocabulary *)

(** ** Failure schedules *)

(** No failure is pending in the schedule. *)
Definition quiet (F : list (option PyExc)) : Prop := Forall (fun x => x = None) F.

(** Every pending failure is an instance of [Exception]. *)
Definition catchable (F : list (option PyExc)) : Prop :=
  forall e, Some e ∈ F -> exc_is_Exception e = true.

(** The failure the next library call meets, if any. *)
Definition pending (F : list (option PyExc)) : option PyExc := fst (pop_fault F).

(** ** Observations on a trace *)

(** Paths written by [savefig], in order. *)
Definition writes (t : list Event) : list string :=
  omap (fun ev => match ev with EvSavefig p => Some p | _ => None end) t.

(** Functions of the script entered, in order. *)
Definition entered (t : list Event) : list string :=
  omap (fun ev => match ev with EvEnter fn => Some fn | _ => None end) t.

(** Lines printed on stdout, in order. *)
Definition stdout (t : list Event) : list string :=
  omap (fun ev => match ev with EvPrint s => Some s | _ => None end) t.

(** Exceptions raised, in order. *)
Definition raises (t : list Event) : list PyExc :=
  omap (fun ev => match ev with EvRaise e => Some e | _ => None end) t.

(** Figures created and figures closed, in order. *)
Definition created (t : list Event) : list nat :=
  omap (fun ev => match ev with EvFigure i => Some i | _ => None end) t.
Definition closed (t : list Event) : list nat :=
  omap (fun ev => match ev with EvClose i => Some i | _ => None end) t.

(** ** Drawing bodies *)

(** The figure a body draws on a new figure of the given size. *)
Definition drawn (size : Z * Z) (body : Drawing unit) (rc : RcParams) : Figure :=
  cv_fig (snd (run_drawing body
                 (mkCanvas (new_figure (Some size) rc) (RngUnknown 0) []))).

(** A body is self-seeded when what it draws does not depend on the state
    in which it finds numpy's generator. *)
Definition self_seeded (size : Z * Z) (body : Drawing unit) : Prop :=
  forall rc r,
    cv_fig (snd (run_drawing body (mkCanvas (new_figure (Some size) rc) r []))) =
    drawn size body rc.

(** ** Figure functions *)

(** The four figure functions have one shape: open a figure, draw, lay
    out, save under the figure's identifier, close. *)
Record FigSpec := mkFigSpec {
  fs_fn : string;
  fs_size : Z * Z;
  fs_body : Drawing unit;
  fs_rect : list string;
  fs_name : string
}.

Definition figure_function (s : FigSpec) : Py unit :=
  emit (EvEnter (fs_fn s)) ;;
  fig ← plt_figure (fs_size s) ;
  drawing fig (fs_body s) ;;
  plt_tight_layout (fs_rect s) ;;
  save_figure fig (fs_name s) ;;
  plt_close.

Inductive FigureFn := Fig3 | Fig4 | Fig5 | Fig6.

Definition all_figures : list FigureFn := [Fig3; Fig4; Fig5; Fig6].

Definition plot (f : FigureFn) : Py unit :=
  match f with
  | Fig3 => plot_system_architecture
  | Fig4 => plot_haa_uq_mechanism
  | Fig5 => plot_pi_cmdr_pipeline
  | Fig6 => plot_lpc_curriculum
  end.

Definition spec_of (f : FigureFn) : FigSpec :=
  match f with
  | Fig3 => mkFigSpec "plot_system_architecture" (18, 12) system_architecture_body
                      [] "figure3_system_architecture"
  | Fig4 => mkFigSpec "plot_haa_uq_mechanism" (18, 10) haa_uq_body
                      ["0"; "0"; "1"; "0.96"] "figure4_haa_uq_mechanism"
  | Fig5 => mkFigSpec "plot_pi_cmdr_pipeline" (18, 10) pi_cmdr_body
                      ["0"; "0"; "1"; "0.96"] "figure5_pi_cmdr_pipeline"
  | Fig6 => mkFigSpec "plot_lpc_curriculum" (18, 11) lpc_body
                      ["0"; "0"; "1"; "0.96"] "figure6_lpc_curriculum"
  end.

(** The name of the Python function and the identifier under which its
    figure is saved. *)
Definition function_name (f : FigureFn) : string := fs_fn (spec_of f).
Definition figure_id (f : FigureFn) : string := fs_name (spec_of f).

Definition png_path (name : string) : string :=
  os_path_join OUTPUT_DIR (name +:+ ".png").
Definition pdf_path (name : string) : string :=
  os_path_join OUTPUT_DIR (name +:+ ".pdf").

Definition png_file (name : string) (fig : Figure) : File :=
  mkFile (extension (png_path name)) (Some 300) fig.
Definition pdf_file (name : string) (fig : Figure) : File :=
  mkFile (extension (pdf_path name)) None fig.

(** The figure as it is when [save_figure] is called. *)
Definition final_figure (s : FigSpec) (rc : RcParams) : Figure :=
  add_artist (mkArtist "plt.tight_layout" [] [NdLit (fs_rect s)])
             (drawn (fs_size s) (fs_body s) rc).

(** [savefig] cannot write [p]: its directory is missing or [p] is a
    directory. *)
Definition blocked (p : string) (w : World) : bool :=
  negb (dir_exists (dirname p) w) || bool_decide (p ∈ dirs w).

Definition savefig_error (path : string) (w : World) : PyExc :=
  if negb (dir_exists (dirname path) w)
  then OSError "FileNotFoundError" path
  else OSError "IsADirectoryError" path.

Definition raised {A} (r : Outcome A) : list Event :=
  match r with
  | Ok _ => []
  | Raise e => [EvRaise e]
  end.

(** *** Runs of [save_figure] *)

(** How far a call of [save_figure] got. *)
Inductive SaveStage := SavePng | SavePdf | Saved.

Definition save_trace (name : string) (st : SaveStage) : list Event :=
  match st with
  | SavePng => [EvEnter "save_figure"]
  | SavePdf => [EvEnter "save_figure"; EvSavefig (png_path name)]
  | Saved => [EvEnter "save_figure"; EvSavefig (png_path name);
              EvSavefig (pdf_path name); EvPrint ("  ✓ Saved: " +:+ name)]
  end.

Definition save_files (name : string) (fig : Figure) (st : SaveStage)
    (fl : gmap string File) : gmap string File :=
  match st with
  | SavePng => fl
  | SavePdf => <[png_path name := png_file name fig]> fl
  | Saved => <[pdf_path name := pdf_file name fig]>
               (<[png_path name := png_file name fig]> fl)
  end.

(** Where a call stops when no library failure is pending. *)
Definition fs_save_stage (name : string) (w : World) : SaveStage :=
  if blocked (png_path name) w then SavePng
  else if blocked (pdf_path name) w then SavePdf
  else Saved.

Record save_run (fig : nat) (name : string) (w : World) (st : SaveStage)
    (r : Outcome unit) (w' : World) : Prop := mkSaveRun {
  sv_outcome : match r with Ok _ => st = Saved | Raise _ => st <> Saved end;
  sv_trace : trace w' = trace w ++ save_trace name st ++ raised r;
  sv_files : files w' = save_files name (figure_of w fig) st (files w);
  sv_argv : argv w' = argv w;
  sv_environ : environ w' = environ w;
  sv_dirs : dirs w' = dirs w;
  sv_rcparams : rcparams w' = rcparams w;
  sv_heap : fig_heap w' = fig_heap w;
  sv_open : open_figs w' = open_figs w;
  sv_next : next_fig w' = next_fig w;
  sv_rng : rng w' = rng w;
  sv_faults : exists n, faults w' = drop n (faults w);
  sv_quiet : quiet (faults w) -> st = fs_save_stage name w;
  sv_exc : forall e, r = Raise e -> Some e ∈ faults w \/ exc_is_Exception e = true
}.

(** *** Runs of a figure function *)

(** How far a call of a figure function got. *)
Inductive Stage := AtFigure | AtDrawing | AtPng | AtPdf | AtClose | Finished.

Definition stage_trace (s : FigSpec) (id : nat) (st : Stage) : list Event :=
  let name := fs_name s in
  match st with
  | AtFigure => [EvEnter (fs_fn s)]
  | AtDrawing => [EvEnter (fs_fn s); EvFigure id]
  | AtPng => [EvEnter (fs_fn s); EvFigure id; EvEnter "save_figure"]
  | AtPdf => [EvEnter (fs_fn s); EvFigure id; EvEnter "save_figure";
              EvSavefig (png_path name)]
  | AtClose => [EvEnter (fs_fn s); EvFigure id; EvEnter "save_figure";
                EvSavefig (png_path name); EvSavefig (pdf_path name);
                EvPrint ("  ✓ Saved: " +:+ name)]
  | Finished => [EvEnter (fs_fn s); EvFigure id; EvEnter "save_figure";
                 EvSavefig (png_path name); EvSavefig (pdf_path name);
                 EvPrint ("  ✓ Saved: " +:+ name); EvClose id]
  end.

Definition stage_files (s : FigSpec) (fig : Figure) (st : Stage)
    (fl : gmap string File) : gmap string File :=
  match st with
  | AtFigure | AtDrawing | AtPng => fl
  | AtPdf => <[png_path (fs_name s) := png_file (fs_name s) fig]> fl
  | AtClose | Finished =>
      <[pdf_path (fs_name s) := pdf_file (fs_name s) fig]>
        (<[png_path (fs_name s) := png_file (fs_name s) fig]> fl)
  end.

Definition stage_open (id : nat) (st : Stage) (o : list nat) : list nat :=
  match st with
  | AtFigure | Finished => o
  | _ => id :: o
  end.

Definition stage_next (id : nat) (st : Stage) : nat :=
  match st with
  | AtFigure => id
  | _ => S id
  end.

(** Where a call stops when no library failure is pending. *)
Definition fs_stage (s : FigSpec) (w : World) : Stage :=
  if blocked (png_path (fs_name s)) w then AtPng
  else if blocked (pdf_path (fs_name s)) w then AtPdf
  else Finished.

Record fig_run (s : FigSpec) (w : World) (st : Stage) (r : Outcome unit) (w' : World)
  : Prop := mkFigRun {
  run_outcome : match r with Ok _ => st = Finished | Raise _ => st <> Finished end;
  run_trace : trace w' = trace w ++ stage_trace s (next_fig w) st ++ raised r;
  run_files : files w' = stage_files s (final_figure s (rcparams w)) st (files w);
  run_open : open_figs w' = stage_open (next_fig w) st (open_figs w);
  run_next : next_fig w' = stage_next (next_fig w) st;
  run_argv : argv w' = argv w;
  run_environ : environ w' = environ w;
  run_dirs : dirs w' = dirs w;
  run_rcparams : rcparams w' = rcparams w;
  run_faults : exists n, faults w' = drop n (faults w);
  run_quiet : quiet (faults w) -> st = fs_stage s w;
  run_exc : forall e, r = Raise e -> Some e ∈ faults w \/ exc_is_Exception e = true
}.

(** ** Proof automation *)

Ltac wnorm :=
  unfold with_process, with_dirs, with_files, with_rcparams, with_figs, with_rng,
    with_faults, log; cbn.

Ltac fault_case E :=
  match goal with
  | |- context [match pending ?F with _ => _ end] =>
      destruct (pending F) as [?e|] eqn:E
  end.

Ltac fold_world w :=
  repeat match goal with
    | |- context [blocked ?p ?W] =>
        lazymatch W with w => fail | _ => change (blocked p W) with (blocked p w) end
    | |- context [savefig_error ?p ?W] =>
        lazymatch W with w => fail | _ =>
          change (savefig_error p W) with (savefig_error p w) end
    | |- context [figure_of ?W ?i] =>
        lazymatch W with w => fail | _ => change (figure_of W i) with (figure_of w i) end
    end.

(** ** The drivers *)

(** One iteration of a driver loop. *)
Definition attempt (label : string) (func : Py unit) : Py unit :=
  try_except (print label ;; func) report_error.

Fixpoint attempts (l : list (string * FigureFn)) : Py unit :=
  match l with
  | [] => mret tt
  | (label, f) :: rest => attempt label (plot f) ;; attempts rest
  end.

Definition main_figures : list (string * FigureFn) :=
  [("[1/2] Generating Figure 3: System Architecture...", Fig3);
   ("[2/2] Generating Figure 4: HAA-UQ Mechanism...", Fig4)].

Definition additional_figures : list (string * FigureFn) :=
  [("[3/4] Generating Figure 5: PI-CMDR Pipeline...", Fig5);
   ("[4/4] Generating Figure 6: LPC Curriculum...", Fig6)].

Definition main_pre : list Event :=
  [EvEnter "main"; EvPrint rule70;
   EvPrint "ST-RL Nav - Section 3 Methodology Figures"; EvPrint rule70;
   EvPrint ("Output directory: " +:+ OUTPUT_DIR +:+ "/"); EvPrint rule70;
   EvPrint ""].

Definition main_post : list Event :=
  [EvPrint ""; EvPrint rule70; EvPrint "✓ Section 3 figures generated!";
   EvPrint rule70;
   EvPrint (nl +:+ "All figures saved to: " +:+ OUTPUT_DIR +:+ "/");
   EvPrint (nl +:+ "Next: Run this script to generate remaining figures:");
   EvPrint "  • Figure 5: PI-CMDR Pipeline";
   EvPrint "  • Figure 6: LPC Curriculum Construction"].

Definition extra_pre : list Event :=
  [EvPrint (nl +:+ rule70); EvPrint "Generating additional Section 3 figures...";
   EvPrint rule70; EvPrint ""].

Definition extra_post : list Event :=
  [EvPrint (nl +:+ rule70); EvPrint "✓ ALL Section 3 figures complete!";
   EvPrint rule70].

(** What one iteration did: which figure, the number its figure object
    got, how far the figure function came and what it raised. *)
Record Attempt := mkAttempt {
  at_label : string;
  at_fn : FigureFn;
  at_id : nat;
  at_stage : Stage;
  at_raised : option PyExc
}.

Definition error_line (e : PyExc) : string := "  ✗ ERROR: " +:+ exc_msg e.

Definition error_log (o : option PyExc) : list Event :=
  match o with
  | None => []
  | Some e =>
      EvRaise e ::
      (if exc_is_Exception e then [EvPrint (error_line e); EvTraceback e] else [])
  end.

Definition attempt_events (a : Attempt) : list Event :=
  EvPrint (at_label a) ::
  stage_trace (spec_of (at_fn a)) (at_id a) (at_stage a) ++ error_log (at_raised a).

Definition attempt_files (rc : RcParams) (fl : gmap string File) (a : Attempt)
  : gmap string File :=
  stage_files (spec_of (at_fn a)) (final_figure (spec_of (at_fn a)) rc) (at_stage a) fl.

Definition attempt_open (o : list nat) (a : Attempt) : list nat :=
  stage_open (at_id a) (at_stage a) o.

Definition attempt_result (a : Attempt) : Outcome unit :=
  match at_raised a with
  | None => Ok tt
  | Some e => if exc_is_Exception e then Ok tt else Raise e
  end.

(** An attempt is consistent when it raised exactly if it did not finish. *)
Definition attempt_wf (a : Attempt) : Prop :=
  at_raised a = None <-> at_stage a = Finished.

(** Everything but the trace that a sequence of iterations, summarised by
    [acts], did to the world. *)
Record seq_run (l : list (string * FigureFn)) (w : World) (acts : list Attempt)
    (r : Outcome unit) (w' : World) : Prop := mkSeqRun {
  seq_files : files w' = foldl (attempt_files (rcparams w)) (files w) acts;
  seq_open : open_figs w' = foldl attempt_open (open_figs w) acts;
  seq_argv : argv w' = argv w;
  seq_environ : environ w' = environ w;
  seq_dirs : dirs w' = dirs w;
  seq_rcparams : rcparams w' = rcparams w;
  seq_faults : exists n, faults w' = drop n (faults w);
  seq_labels : map (fun a => (at_label a, at_fn a)) acts = take (length acts) l;
  seq_wf : Forall attempt_wf acts;
  seq_quiet : quiet (faults w) ->
              Forall (fun a => at_stage a = fs_stage (spec_of (at_fn a)) w) acts;
  seq_exc : Forall (fun a => forall e, at_raised a = Some e ->
                       Some e ∈ faults w \/ exc_is_Exception e = true) acts;
  seq_result : match r with
               | Ok _ => length acts = length l /\
                         Forall (fun a => attempt_result a = Ok tt) acts
               | Raise e => Some e ∈ faults w /\ exc_is_Exception e = false
               end
}.

(** The world after the events [evs] have been recorded. *)
Definition logged_all (evs : list Event) (w : World) : World :=
  foldl (fun w ev => log ev w) w evs.

Definition finish (post : list Event) (x : Outcome unit * World)
  : Outcome unit * World :=
  match x with
  | (Ok _, w) => (Ok tt, logged_all post w)
  | (Raise e, w) => (Raise e, w)
  end.

Definition main_trace (acts : list Attempt) (r : Outcome unit) : list Event :=
  main_pre ++ flat_map attempt_events acts ++
  match r with Ok _ => main_post | Raise _ => [] end.

Definition extra_trace (acts : list Attempt) (r : Outcome unit) : list Event :=
  extra_pre ++ flat_map attempt_events acts ++
  match r with Ok _ => extra_post | Raise _ => [] end.

Definition all_attempts : list (string * FigureFn) :=
  main_figures ++ additional_figures.

(** ** Runs *)

(** The events a run from [w] to [w'] added to the trace. *)
Definition events_since (w w' : World) : list Event :=
  drop (length (trace w)) (trace w').


(** A world in which nothing has happened yet and the output directory
    exists. *)
Definition ready_world : World :=
  with_dirs {[OUTPUT_DIR]} fresh_world.

(** A world in which the PDF of figure 3 cannot be written: its path is a
    directory. *)
Definition pdf_blocked_world : World :=
  with_dirs {[OUTPUT_DIR; pdf_path (figure_id Fig3)]} fresh_world.

(** ** Reproducibility *)


(** The seed a generator state descends from, if it descends from one. *)
Fixpoint rng_root (s : RngState) : option Z :=
  match s with
  | RngUnknown _ => None
  | RngSeeded n => Some n
  | RngAfter s' _ => rng_root s'
  end.





(** ** Observations on driver runs *)

Definition figure_of_name (fn : string) : option FigureFn :=
  if bool_decide (fn = "plot_system_architecture") then Some Fig3
  else if bool_decide (fn = "plot_haa_uq_mechanism") then Some Fig4
  else if bool_decide (fn = "plot_pi_cmdr_pipeline") then Some Fig5
  else if bool_decide (fn = "plot_lpc_curriculum") then Some Fig6
  else None.

(** The figure functions entered, in order. *)
Definition figure_calls (t : list Event) : list FigureFn :=
  omap (fun ev => match ev with EvEnter fn => figure_of_name fn | _ => None end) t.


(** The two files of a figure, in the order [save_figure] writes them. *)
Definition figure_writes (f : FigureFn) : list string :=
  [png_path (figure_id f); pdf_path (figure_id f)].

(** The files of the script, in the order a run without failure writes
    them. *)
Definition all_writes : list string := flat_map figure_writes all_figures.

Definition stage_writes (f : FigureFn) (st : Stage) : list string :=
  writes (stage_trace (spec_of f) 0 st).

(** A world with the output directory in which the 201st library call,
    made while figure 5 is drawn, fails. *)
Definition backend_failure : PyExc := mkExc true "RuntimeError" "backend failed".
Definition faulty_schedule : list (option PyExc) :=
  replicate 200 None ++ [Some backend_failure].
Definition faulty_world : World := with_faults faulty_schedule ready_world.

(** ** Module initialisation *)

(** [plt.rcParams] after lines 19-24. *)
Definition init_rc (rc : RcParams) : RcParams :=
  <["grid.alpha" := "0.3"]>
    (<["axes.grid" := "True"]>
       (<["font.family" := "serif"]>
          (<["font.size" := "9"]>
             (<["figure.dpi" := "150"]>
                (<["style" := "seaborn-v0_8-paper"]> rc))))).

Record init_run (w : World) (r : Outcome unit) (w' : World) : Prop := mkInitRun {
  init_files : files w' = files w;
  init_argv : argv w' = argv w;
  init_environ : environ w' = environ w;
  init_open : open_figs w' = open_figs w;
  init_next : next_fig w' = next_fig w;
  init_heap : fig_heap w' = fig_heap w;
  init_faults : exists n, faults w' = drop n (faults w);
  init_result :
    match r with
    | Ok _ => dirs w' = {[OUTPUT_DIR]} ∪ dirs w /\
              rcparams w' = init_rc (rcparams w) /\
              trace w' = trace w ++ [EvMakedirs OUTPUT_DIR] /\
              OUTPUT_DIR ∉ dom (files w)
    | Raise e => dirs w' = dirs w /\
                 trace w' = trace w ++ [EvRaise e] /\
                 (Some e ∈ faults w \/
                  OUTPUT_DIR ∈ dom (files w) /\
                  e = OSError "FileExistsError" OUTPUT_DIR)
    end;
  init_quiet : quiet (faults w) -> (r = Ok tt <-> OUTPUT_DIR ∉ dom (files w))
}.

(** ** Runs without library failures *)

(** What a sequence of iterations did, reduced to the figure and the stage
    reached; the files written depend on nothing else. *)
Definition plan_of (acts : list Attempt) : list (FigureFn * Stage) :=
  map (fun a => (at_fn a, at_stage a)) acts.

Definition plan_files (rc : RcParams) (fl : gmap string File) (p : FigureFn * Stage)
  : gmap string File :=
  stage_files (spec_of p.1) (final_figure (spec_of p.1) rc) p.2 fl.

(** The files one iteration writes, as a map. *)
Definition plan_map (rc : RcParams) (p : FigureFn * Stage) : gmap string File :=
  plan_files rc ∅ p.

(** The files a sequence of iterations writes, later writes first. *)
Definition written (rc : RcParams) (ps : list (FigureFn * Stage)) : gmap string File :=
  foldl (fun M p => plan_map rc p ∪ M) ∅ ps.

(** The plan of a run in which no library failure occurs: each figure
    function stops where the disk stops it. *)
Definition plan_for (w : World) (l : list (string * FigureFn)) : list (FigureFn * Stage) :=
  map (fun x => (x.2, fs_stage (spec_of x.2) w)) l.

Definition plan_writes (ps : list (FigureFn * Stage)) : list string :=
  flat_map (fun p => stage_writes p.1 p.2) ps.

(** The world as [os.makedirs] leaves it. *)
Definition with_output_dir (w : World) : World :=
  with_dirs ({[OUTPUT_DIR]} ∪ dirs w) w.

(** What [os.makedirs] raises when the output path is a regular file. *)
Definition dir_exists_error : PyExc := OSError "FileExistsError" OUTPUT_DIR.

(** ** Displayed text *)

(** The strings a figure displays, in the order the script passed them. *)
Definition annotations (fig : Figure) : list Annotation :=
  flat_map art_texts (fig_artists fig).

(** The displayed strings with a piece that is not written in the source. *)
Definition computed_annotations (fig : Figure) : list Annotation :=
  List.filter (fun a => negb (annotation_is_literal a)) (annotations fig).

(** A piece as a reader of the source sees it: characters written there, or
    a value computed while the figure is generated, with its digits when the
    model determines them. *)
Inductive Shown :=
| Written (s : string)
| Computed (digits : option string).

Definition shown (p : Piece) : Shown :=
  if piece_is_literal p then Written (default "" (piece_digits p))
  else Computed (piece_digits p).

(** The annotations of figure 4 that show an entropy computed from the
    attention maps, and those of figure 6 that show a stage number or the
    total of the cumulative sum. *)
Definition entropy_annotations : list (list Shown) :=
  [ [Written "Entropy: "; Computed None; Written " (HIGH)"];
    [Written "Entropy: "; Computed None; Written " (LOW, ↓"; Computed None;
     Written "%)"] ].

Definition stage_annotations : list (list Shown) :=
  [ [Written "S"; Computed (Some "1"); Written nl; Written "180"];
    [Written "S"; Computed (Some "2"); Written nl; Written "200"];
    [Written "S"; Computed (Some "3"); Written nl; Written "260"];
    [Written "S"; Computed (Some "4"); Written nl; Written "280"];
    [Written "S"; Computed (Some "5"); Written nl; Written "220"];
    [Written "Total: "; Computed (Some "1140");
     Written " episodes (vs 2000 uniform)"] ].

Definition computed_texts (f : FigureFn) : list (list Shown) :=
  match f with
  | Fig3 | Fig5 => []
  | Fig4 => entropy_annotations
  | Fig6 => stage_annotations
  end.

(** ** Command line and environment *)

(** A statement is oblivious when it neither reads nor changes [sys.argv]
    and [os.environ]: run with another command line and environment, it
    does the same to everything else. *)
Definition oblivious {A} (m : Py A) : Prop :=
  forall a e w, m (with_process a e w) = ((m w).1, with_process a e (m w).2).


(** Everything of a world but its command line and environment. *)
Definition outside_process (w : World) : World := with_process [] ∅ w.


(** ** Open figures *)

(** The figures pyplot keeps open are distinct and were all made by
    [plt.figure]; a figure that [plt.close] closed is no longer among
    them. *)
Record fig_inv (w : World) : Prop := mkFigInv {
  inv_nodup : NoDup (open_figs w);
  inv_open : Forall (fun id => id < next_fig w)%nat (open_figs w);
  inv_closed : Forall (fun id => (id < next_fig w)%nat /\ id ∉ open_figs w)
                      (closed (trace w))
}.

(** A statement keeps the invariant, however it ends. *)
Definition preserves {A} (m : Py A) : Prop :=
  forall w, fig_inv w -> fig_inv (m w).2.

(** A world in which two earlier figure functions failed and left their
    figures open. *)
Definition cluttered_world : World :=
  with_figs ∅ [2%nat; 1%nat] 3 ready_world.

(** ** Further vocabulary *)



(** What a figure function raises when no library failure is pending:
    nothing, or the error of the first write that the disk refuses. *)
Definition disk_outcome (f : FigureFn) (w : World) : Outcome unit :=
  match fs_stage (spec_of f) w with
  | AtPng => Raise (savefig_error (png_path (figure_id f)) w)
  | AtPdf => Raise (savefig_error (pdf_path (figure_id f)) w)
  | _ => Ok tt
  end.

Definition disk_errors (f : FigureFn) (w : World) : list PyExc :=
  match disk_outcome f w with
  | Ok _ => []
  | Raise e => [e]
  end.

(** The state in which a body leaves numpy's generator when it finds it in
    state [r0]. *)
Definition rng_after (f : FigureFn) (r0 : RngState) : RngState :=
  cv_rng (snd (run_drawing (fs_body (spec_of f))
                 (mkCanvas (new_figure (Some (fs_size (spec_of f))) ∅) r0 []))).

(** The figures left open by calls of the figure functions [l], the first
    of which gets figure number [id], when no library failure is pending:
    those of the calls that the disk stopped. *)
Fixpoint left_open (w : World) (id : nat) (l : list FigureFn) (o : list nat) : list nat :=
  match l with
  | [] => o
  | f :: rest =>
      left_open w (S id) rest
        (match disk_outcome f w with Ok _ => o | Raise _ => id :: o end)
  end.

(** The generator after calls of the figure functions [l]. *)
Definition rng_after_all (l : list FigureFn) (r0 : RngState) : RngState :=
  foldl (fun r f => rng_after f r) r0 l.



(** A world in which a regular file has the name of the output directory. *)
Definition file_in_the_way_world : World :=
  with_files {[OUTPUT_DIR := mkFile "txt" None blank_figure]} fresh_world.

(** A world without the output directory in which two figures are open. *)
Definition cluttered_world_without_directory : World :=
  with_figs ∅ [2%nat; 1%nat] 3 fresh_world.

#[global] Instance FigureFn_eq_dec : EqDecision FigureFn.
Proof. solve_decision. Defined.
(** * Properties *)

(** ** Failure schedules *)

Lemma pop_fault_eq F : pop_fault F = (pending F, drop 1 F).
Proof. by destruct F. Qed.

Lemma elem_drop {A} (x : A) n l : x ∈ drop n l -> x ∈ l.
Proof. intros H. rewrite <- (take_drop n l). apply elem_of_app. by right. Qed.

Lemma pending_elem k F e : pending (drop k F) = Some e -> Some e ∈ F.
Proof.
  unfold pending. destruct (drop k F) as [|x F'] eqn:E; simpl; [discriminate|].
  intros ->. apply (list_elem_of_lookup_2 _ k).
  rewrite <- (Nat.add_0_r k), <- lookup_drop, E. reflexivity.
Qed.

Lemma quiet_no_fault F e : quiet F -> Some e ∈ F -> False.
Proof. unfold quiet. rewrite Forall_forall. intros H Hin. by apply H in Hin. Qed.

Lemma quiet_pending k F : quiet F -> pending (drop k F) = None.
Proof.
  intros H. destruct (pending (drop k F)) as [e|] eqn:E; [|done].
  apply pending_elem in E. destruct (quiet_no_fault _ _ H E).
Qed.

Lemma quiet_drop n F : quiet F -> quiet (drop n F).
Proof. apply Forall_drop. Qed.

Lemma quiet_catchable F : quiet F -> catchable F.
Proof. intros H e He. destruct (quiet_no_fault _ _ H He). Qed.

Lemma catchable_drop n F : catchable F -> catchable (drop n F).
Proof. intros H e He. apply H. by eapply elem_drop. Qed.

(** ** Drawing bodies *)

Lemma run_drawing_suffix {A} (m : Drawing A) c r c' :
  run_drawing m c = (r, c') -> exists n, cv_faults c' = drop n (cv_faults c).
Proof.
  revert c. induction m as [a|art k IH|n k IH|d k IH]; intros c; simpl;
    [intros [= <- <-]; by exists 0%nat|..]; rewrite pop_fault_eq;
    destruct (pending (cv_faults c)) as [e0|].
  all: try (intros [= <- <-]; by exists 1%nat).
  all: intros H; apply IH in H as [i Hi]; simpl in Hi;
    exists (1 + i)%nat; by rewrite Hi, drop_drop.
Qed.

Lemma run_drawing_raise_elem {A} (m : Drawing A) c e c' :
  run_drawing m c = (Raise e, c') -> Some e ∈ cv_faults c.
Proof.
  revert c. induction m as [a|art k IH|n k IH|d k IH]; intros c; simpl;
    [discriminate|..]; rewrite pop_fault_eq;
    destruct (pending (cv_faults c)) as [e0|] eqn:E.
  all: try (intros [= <- <-]; apply (pending_elem 0); by rewrite drop_0).
  all: intros H; apply IH in H; simpl in H; by apply elem_drop in H.
Qed.

(** A run that succeeds met no failure, so it drew what a run with an empty
    schedule draws. *)
Lemma run_drawing_ok {A} (m : Drawing A) c a c' :
  run_drawing m c = (Ok a, c') ->
  run_drawing m (mkCanvas (cv_fig c) (cv_rng c) []) =
    (Ok a, mkCanvas (cv_fig c') (cv_rng c') []).
Proof.
  revert c. induction m as [a0|art k IH|n k IH|d k IH]; intros c; simpl;
    [by intros [= <- <-]|..]; rewrite pop_fault_eq;
    destruct (pending (cv_faults c)) as [e0|]; try discriminate.
  all: intros H; by apply IH in H.
Qed.

Lemma system_architecture_seeded : self_seeded (18, 12) system_architecture_body.
Proof. intros rc r. vm_compute. reflexivity. Qed.

Lemma haa_uq_seeded : self_seeded (18, 10) haa_uq_body.
Proof. intros rc r. vm_compute. reflexivity. Qed.

Lemma pi_cmdr_seeded : self_seeded (18, 10) pi_cmdr_body.
Proof. intros rc r. vm_compute. reflexivity. Qed.

Lemma lpc_seeded : self_seeded (18, 11) lpc_body.
Proof. intros rc r. vm_compute. reflexivity. Qed.

Lemma spec_seeded f : self_seeded (fs_size (spec_of f)) (fs_body (spec_of f)).
Proof.
  destruct f; simpl;
    [apply system_architecture_seeded | apply haa_uq_seeded
    | apply pi_cmdr_seeded | apply lpc_seeded].
Qed.

Lemma plot_is_figure_function f : plot f = figure_function (spec_of f).
Proof. destruct f; reflexivity. Qed.

(** ** Statements, one step at a time *)

Lemma py_bind_run {A B} (m : Py A) (k : A -> Py B) w :
  (m ≫= k) w = match m w with
                | (Ok a, w') => k a w'
                | (Raise e, w') => (Raise e, w')
                end.
Proof. reflexivity. Qed.

Lemma fault_point_run w :
  fault_point w =
  match pending (faults w) with
  | None => (Ok tt, with_faults (drop 1 (faults w)) w)
  | Some e => (Raise e, log (EvRaise e) (with_faults (drop 1 (faults w)) w))
  end.
Proof. unfold fault_point. rewrite pop_fault_eq. by destruct (pending _). Qed.

Lemma savefig_error_Exception path w : exc_is_Exception (savefig_error path w) = true.
Proof. unfold savefig_error. by destruct (negb _). Qed.

Lemma fig_savefig_run fig path dpi w :
  fig_savefig fig path dpi w =
  match pending (faults w) with
  | Some e => (Raise e, log (EvRaise e) (with_faults (drop 1 (faults w)) w))
  | None =>
      if blocked path w
      then (Raise (savefig_error path w),
            log (EvRaise (savefig_error path w)) (with_faults (drop 1 (faults w)) w))
      else (Ok tt,
            log (EvSavefig path)
              (with_files (<[path := mkFile (extension path) dpi (figure_of w fig)]>
                             (files w))
                          (with_faults (drop 1 (faults w)) w)))
  end.
Proof.
  unfold fig_savefig. rewrite py_bind_run, fault_point_run.
  destruct (pending (faults w)); [reflexivity|].
  unfold act, blocked, savefig_error, py_raise. wnorm.
  destruct (negb (dir_exists (dirname path) w)) eqn:E1.
  - unfold dir_exists in *. cbn. rewrite E1. reflexivity.
  - unfold dir_exists in *. cbn. rewrite E1. cbn.
    destruct (bool_decide (path ∈ dirs w)); reflexivity.
Qed.

Lemma plt_close_run w :
  plt_close w =
  match pending (faults w) with
  | Some e => (Raise e, log (EvRaise e) (with_faults (drop 1 (faults w)) w))
  | None =>
      match open_figs w with
      | [] => (Ok tt, with_faults (drop 1 (faults w)) w)
      | id :: rest =>
          (Ok tt, log (EvClose id)
                    (with_figs (fig_heap w) rest (next_fig w)
                       (with_faults (drop 1 (faults w)) w)))
      end
  end.
Proof.
  unfold plt_close. rewrite py_bind_run, fault_point_run.
  by destruct (pending (faults w)).
Qed.

(** ** [save_figure] *)

Lemma save_figure_run fig name w r w' :
  save_figure fig name w = (r, w') -> exists st, save_run fig name w st r w'.
Proof.
  unfold save_figure. rewrite py_bind_run. cbn [emit]. wnorm.
  fold (png_path name) (pdf_path name).
  rewrite py_bind_run, fig_savefig_run.
  wnorm. fold_world w. rewrite <- (drop_0 (faults w)) at 1.
  fault_case E1.
  { intros [= <- <-]. exists SavePng. split; cbn; try done.
    - by rewrite <- ?app_assoc.
    - by exists 1%nat.
    - intros Hq. by rewrite quiet_pending in E1.
    - intros ? [= <-]. left. by eapply pending_elem. }
  destruct (blocked (png_path name) w) eqn:Bpng.
  { intros [= <- <-]. exists SavePng. split; cbn; try done.
    - by rewrite <- ?app_assoc.
    - by exists 1%nat.
    - intros _. unfold fs_save_stage. by rewrite Bpng.
    - intros ? [= <-]. right. apply savefig_error_Exception. }
  rewrite py_bind_run, fig_savefig_run. wnorm. fold_world w. rewrite drop_drop.
  fault_case E2.
  { intros [= <- <-]. exists SavePdf. split; cbn; try done.
    - by rewrite <- ?app_assoc.
    - eauto.
    - intros Hq. by rewrite quiet_pending in E2.
    - intros ? [= <-]. left. by eapply pending_elem. }
  destruct (blocked (pdf_path name) w) eqn:Bpdf.
  { intros [= <- <-]. exists SavePdf. split; cbn; try done.
    - by rewrite <- ?app_assoc.
    - eauto.
    - intros _. unfold fs_save_stage. by rewrite Bpng, Bpdf.
    - intros ? [= <-]. right. apply savefig_error_Exception. }
  unfold print, emit. wnorm. intros [= <- <-].
  exists Saved. split; cbn; try done.
  - by rewrite <- ?app_assoc.
  - eauto.
  - intros _. unfold fs_save_stage. by rewrite Bpng, Bpdf.
Qed.

(** ** Figure functions *)

Lemma figure_function_run (s : FigSpec) w r w' :
  self_seeded (fs_size s) (fs_body s) ->
  figure_function s w = (r, w') -> exists st, fig_run s w st r w'.
Proof.
  intros Hseed.
  unfold figure_function. rewrite py_bind_run. cbn [emit fst snd].
  rewrite py_bind_run. unfold plt_figure at 1. rewrite py_bind_run, fault_point_run.
  wnorm.
  rewrite <- (drop_0 (faults w)) at 1.
  fault_case E1.
  { intros [= <- <-]. exists AtFigure. split; cbn; try done.
    - by rewrite <- app_assoc.
    - by exists 1%nat.
    - intros Hq. by rewrite quiet_pending in E1.
    - intros ? [= <-]. left. by eapply pending_elem. }
  unfold act at 1. wnorm.
  rewrite py_bind_run. unfold drawing at 1. unfold figure_of at 1. wnorm.
  rewrite lookup_insert_eq. cbn.
  destruct (run_drawing (fs_body s) _) as [[[]|e] c] eqn:Hd.
  2:{ unfold py_raise. wnorm. intros [= <- <-].
      apply run_drawing_raise_elem in Hd as Hin.
      apply run_drawing_suffix in Hd as [n Hn]. cbn in Hn, Hin.
      apply elem_drop in Hin.
      exists AtDrawing. split; cbn; try done.
      - by rewrite <- !app_assoc.
      - rewrite Hn, drop_drop. eauto.
      - intros Hq. destruct (quiet_no_fault _ _ Hq Hin).
      - intros ? [= <-]. by left. }
  assert (cv_fig c = drawn (fs_size s) (fs_body s) (rcparams w)) as Hfig.
  { apply run_drawing_ok in Hd. cbn in Hd. rewrite <- Hseed with (r := rng w).
    by rewrite Hd. }
  apply run_drawing_suffix in Hd as [n Hn]. cbn in Hn.
  destruct c as [cf cr cF]. cbn in Hfig, Hn. subst cf cF. cbn.
  rewrite drop_drop.
  rewrite py_bind_run. unfold plt_tight_layout at 1.
  rewrite py_bind_run, fault_point_run. wnorm. rewrite drop_drop.
  fault_case E2.
  { intros [= <- <-]. exists AtDrawing. split; cbn; try done.
    - by rewrite <- !app_assoc.
    - eauto.
    - intros Hq. by rewrite quiet_pending in E2.
    - intros ? [= <-]. left. by eapply pending_elem. }
  rewrite py_bind_run. unfold plt_gcf, modify_figure, act, figure_of. wnorm.
  rewrite lookup_insert_eq. cbn.
  rewrite !insert_insert_eq.
  fold (final_figure s (rcparams w)).
  rewrite py_bind_run.
  match goal with |- context [save_figure ?i ?nm ?W] =>
    destruct (save_figure i nm W) as [r1 w1] eqn:Hs end.
  apply save_figure_run in Hs as [sst Hs]. destruct Hs. cbn in *.
  unfold figure_of in *. cbn in *. rewrite lookup_insert_eq in *. cbn in *.
  destruct sv_faults0 as [k Hk]. rewrite drop_drop in Hk.
  change (fs_save_stage ?p _) with (fs_save_stage p w) in *.
  assert (quiet (faults w) -> sst = fs_save_stage (fs_name s) w) as Hsq.
  { intros Hq. apply sv_quiet0. by apply quiet_drop. }
  assert (forall e, r1 = Raise e -> Some e ∈ faults w \/ exc_is_Exception e = true)
    as Hexc.
  { intros e He. destruct (sv_exc0 e He) as [Hin|]; [left|by right].
    by apply elem_drop in Hin. }
  clear sv_quiet0 sv_exc0.
  unfold fs_save_stage in Hsq.
  destruct r1 as [[]|e].
  2:{ intros [= <- <-].
      destruct sst; [exists AtPng|exists AtPdf|done].
      all: split; cbn; try done.
      all: try (rewrite sv_trace0; cbn; by rewrite <- ?app_assoc).
      all: try (rewrite Hk; eauto).
      all: intros Hq; unfold fs_stage; apply Hsq in Hq;
        destruct (blocked (png_path _) w); [done|];
        destruct (blocked (pdf_path _) w); done. }
  subst sst.
  rewrite plt_close_run. fault_case E3.
  { intros [= <- <-]. exists AtClose. split; cbn; try done.
    - rewrite sv_trace0. cbn. by rewrite <- ?app_assoc.
    - rewrite Hk, drop_drop. eauto.
    - intros Hq. rewrite Hk, quiet_pending in E3; done.
    - intros ? [= <-]. left. rewrite Hk in E3. by eapply pending_elem. }
  rewrite sv_open0. intros [= <- <-]. exists Finished. split; cbn; try done.
  - rewrite sv_trace0. cbn. by rewrite <- ?app_assoc.
  - rewrite Hk, drop_drop. eauto.
  - intros Hq. unfold fs_stage. apply Hsq in Hq.
    destruct (blocked (png_path _) w); [done|];
        destruct (blocked (pdf_path _) w); done.
Qed.

Lemma plot_run f w r w' :
  plot f w = (r, w') -> exists st, fig_run (spec_of f) w st r w'.
Proof.
  rewrite plot_is_figure_function. apply figure_function_run, spec_seeded.
Qed.

(** ** One iteration of a driver loop *)

Lemma blocked_dirs p w1 w2 : dirs w1 = dirs w2 -> blocked p w1 = blocked p w2.
Proof. intros H. unfold blocked, dir_exists. by rewrite H. Qed.

Lemma fs_stage_dirs s w1 w2 : dirs w1 = dirs w2 -> fs_stage s w1 = fs_stage s w2.
Proof.
  intros H. unfold fs_stage.
  by rewrite (blocked_dirs _ w1 w2 H), (blocked_dirs _ w1 w2 H).
Qed.

Lemma attempt_run label f w r w' :
  attempt label (plot f) w = (r, w') ->
  exists a, seq_run [(label, f)] w [a] r w' /\
            at_id a = next_fig w /\
            next_fig w' = stage_next (next_fig w) (at_stage a) /\
            r = attempt_result a /\
            trace w' = trace w ++ attempt_events a.
Proof.
  unfold attempt, try_except. rewrite py_bind_run. cbn [print emit].
  destruct (plot f (log (EvPrint label) w)) as [r0 w0] eqn:Hp.
  apply plot_run in Hp as [st Hp].
  destruct Hp as [Hout Htr Hfl Hop Hnx Harg Henv Hdir Hrc Hflt Hq Hexc]. cbn in *.
  change (fs_stage ?s _) with (fs_stage s w) in *.
  assert (forall o, (o = None <-> st = Finished) ->
            (forall e, o = Some e -> r0 = Raise e) ->
            seq_run [(label, f)] w [mkAttempt label f (next_fig w) st o]
                    (attempt_result (mkAttempt label f (next_fig w) st o)) w0) as Hseq.
  { intros o Hwf Ho. split; cbn; try done.
    - constructor; [exact Hwf|constructor].
    - intros HQ. constructor; [cbn; auto|constructor].
    - constructor; [|constructor]. cbn. intros e He. apply Hexc. auto.
    - unfold attempt_result. cbn. destruct o as [e|].
      + destruct (exc_is_Exception e) eqn:Hc.
        * split; [done|]. constructor; [|constructor]. 
          unfold attempt_result. cbn. by rewrite Hc.
        * destruct (Hexc e (Ho e eq_refl)) as [?|?]; [done|congruence].
      + split; [done|]. constructor; [done|constructor]. }
  destruct r0 as [[]|e].
  - intros [= <- <-]. exists (mkAttempt label f (next_fig w) st None).
    split; [apply (Hseq None); [by split|discriminate]|].
    cbn. repeat split; try done.
    rewrite Htr. unfold attempt_events. cbn. by rewrite <- ?app_assoc, ?app_nil_r.
  - assert (seq_run [(label, f)] w [mkAttempt label f (next_fig w) st (Some e)]
              (attempt_result (mkAttempt label f (next_fig w) st (Some e))) w0) as Hs.
    { apply Hseq; [split; [discriminate|done]|]. by intros ? [= <-]. }
    unfold attempt_result in *. cbn in Hs.
    destruct (exc_is_Exception e) eqn:Hc.
    + unfold report_error. rewrite py_bind_run. cbn [print emit traceback_print_exc].
      intros [= <- <-]. exists (mkAttempt label f (next_fig w) st (Some e)).
      cbn. rewrite Hc. split; [|repeat split; try done].
      * destruct Hs. split; done.
      * cbn. rewrite Htr. unfold attempt_events. cbn. rewrite Hc.
        by rewrite <- ?app_assoc.
    + intros [= <- <-]. exists (mkAttempt label f (next_fig w) st (Some e)).
      cbn. rewrite Hc. split; [done|repeat split; try done].
      rewrite Htr. unfold attempt_events. cbn. rewrite Hc. by rewrite <- ?app_assoc.
Qed.
Lemma seq_run_nil w : seq_run [] w [] (Ok tt) w.
Proof.
  split; cbn; try done.
  by exists 0%nat.
Qed.

Lemma seq_run_app l1 l2 w acts1 w1 acts2 r w2 :
  seq_run l1 w acts1 (Ok tt) w1 ->
  seq_run l2 w1 acts2 r w2 ->
  seq_run (l1 ++ l2) w (acts1 ++ acts2) r w2.
Proof.
  intros [Hfl1 Hop1 Harg1 Henv1 Hdir1 Hrc1 [n1 Hn1] Hlab1 Hwf1 Hq1 Hexc1 [Hlen1 Hres1]]
         [Hfl2 Hop2 Harg2 Henv2 Hdir2 Hrc2 [n2 Hn2] Hlab2 Hwf2 Hq2 Hexc2 Hres2].
  split.
  - by rewrite foldl_app, <- Hfl1, <- Hrc1.
  - by rewrite foldl_app, <- Hop1.
  - congruence.
  - congruence.
  - congruence.
  - congruence.
  - exists (n1 + n2)%nat. by rewrite Hn2, Hn1, drop_drop.
  - rewrite map_app, Hlab1, Hlab2, length_app, Hlen1.
    rewrite take_app_add', firstn_all by done. done.
  - by apply Forall_app.
  - intros HQ. apply Forall_app. split; [auto|].
    assert (quiet (faults w1)) as HQ1 by (rewrite Hn1; by apply quiet_drop).
    eapply Forall_impl; [apply (Hq2 HQ1)|]. cbn. intros a ->.
    by apply fs_stage_dirs.
  - apply Forall_app. split; [done|].
    eapply Forall_impl; [exact Hexc2|]. cbn. intros a Ha e He.
    destruct (Ha e He) as [Hin|?]; [left|by right].
    rewrite Hn1 in Hin. by eapply elem_drop.
  - destruct r as [[]|e].
    + destruct Hres2 as [Hlen2 Hres2]. split.
      * rewrite !length_app. congruence.
      * by apply Forall_app.
    + destruct Hres2 as [Hin ?]. split; [|done].
      rewrite Hn1 in Hin. by eapply elem_drop.
Qed.

Lemma seq_run_abort l1 l2 w acts e w1 :
  seq_run l1 w acts (Raise e) w1 -> seq_run (l1 ++ l2) w acts (Raise e) w1.
Proof.
  intros [Hfl1 Hop1 Harg1 Henv1 Hdir1 Hrc1 Hn1 Hlab1 Hwf1 Hq1 Hexc1 Hres1].
  split; try done.
  rewrite Hlab1. symmetry. apply take_app_le.
  apply (f_equal length) in Hlab1. rewrite length_map, length_take in Hlab1. lia.
Qed.

Lemma attempts_run l w r w' :
  attempts l w = (r, w') ->
  exists acts, seq_run l w acts r w' /\
               trace w' = trace w ++ flat_map attempt_events acts.
Proof.
  revert w. induction l as [|[label f] rest IH]; intros w.
  - intros [= <- <-]. exists []. split; [apply seq_run_nil|]. cbn.
    by rewrite app_nil_r.
  - cbn [attempts]. rewrite py_bind_run.
    destruct (attempt label (plot f) w) as [r1 w1] eqn:Ha.
    apply attempt_run in Ha as (a & Hs & Hid & Hnx & Hr & Htr).
    destruct r1 as [[]|e].
    + intros Hrest. apply IH in Hrest as (acts & Hs' & Htr').
      exists (a :: acts). split.
      * apply (seq_run_app [(label, f)] rest w [a] w1 acts r w'); done.
      * rewrite Htr', Htr. cbn. by rewrite <- app_assoc.
    + intros [= <- <-]. exists [a]. split.
      * by apply (seq_run_abort [(label, f)] rest).
      * rewrite Htr. cbn. by rewrite app_nil_r.
Qed.
Lemma main_unfold w :
  main w = finish main_post (attempts main_figures (logged_all main_pre w)).
Proof. reflexivity. Qed.

Lemma dunder_main_unfold w :
  dunder_main w =
  match main w with
  | (Ok _, w1) => finish extra_post (attempts additional_figures (logged_all extra_pre w1))
  | (Raise e, w1) => (Raise e, w1)
  end.
Proof. unfold dunder_main. rewrite py_bind_run. destruct (main w) as [[[]|e] w1]; reflexivity. Qed.

Lemma seq_run_logged l evs w acts r w' :
  seq_run l (logged_all evs w) acts r w' -> seq_run l w acts r w'.
Proof.
  unfold logged_all. revert w. induction evs as [|ev evs IH]; intros w; [done|].
  cbn [foldl]. intros H. apply IH in H. destruct H. split; done.
Qed.

Lemma seq_run_logged_r l evs w acts r w' :
  seq_run l w acts r w' -> seq_run l w acts r (logged_all evs w').
Proof.
  unfold logged_all. revert w'. induction evs as [|ev evs IH]; intros w'; [done|].
  cbn [foldl]. intros H. apply IH. destruct H. split; done.
Qed.

Lemma trace_logged_all evs w : trace (logged_all evs w) = trace w ++ evs.
Proof.
  unfold logged_all. revert w. induction evs as [|ev evs IH]; intros w; cbn [foldl].
  - by rewrite app_nil_r.
  - rewrite IH. cbn. by rewrite <- app_assoc.
Qed.

Lemma main_run w r w' :
  main w = (r, w') ->
  exists acts, seq_run main_figures w acts r w' /\
               trace w' = trace w ++ main_trace acts r.
Proof.
  rewrite main_unfold.
  destruct (attempts main_figures (logged_all main_pre w)) as [r1 w1] eqn:Ha.
  apply attempts_run in Ha as (acts & Hs & Htr).
  apply seq_run_logged in Hs. rewrite trace_logged_all in Htr.
  unfold finish, main_trace. destruct r1 as [[]|e]; intros [= <- <-]; exists acts.
  - split; [exact (seq_run_logged_r _ main_post _ _ _ _ Hs)|].
    change (trace (logged_all main_post w1) = 
            trace w ++ main_pre ++ flat_map attempt_events acts ++ main_post).
    rewrite trace_logged_all, Htr. by rewrite <- !app_assoc.
  - split; [done|]. rewrite Htr. by rewrite <- !app_assoc, app_nil_r.
Qed.

Lemma dunder_main_run w r w' :
  dunder_main w = (r, w') ->
  exists acts1 acts2 r1,
    seq_run all_attempts w (acts1 ++ acts2) r w' /\
    trace w' = trace w ++ main_trace acts1 r1 ++
               match r1 with Ok _ => extra_trace acts2 r | Raise _ => [] end /\
    match r1 with
    | Ok _ => length acts1 = length main_figures
    | Raise _ => acts2 = [] /\ r = r1
    end.
Proof.
  rewrite dunder_main_unfold.
  destruct (main w) as [r1 w1] eqn:Hm.
  apply main_run in Hm as (acts1 & Hs1 & Htr1).
  destruct r1 as [[]|e].
  - destruct (attempts additional_figures (logged_all extra_pre w1)) as [r2 w2] eqn:Ha.
    apply attempts_run in Ha as (acts2 & Hs2 & Htr2).
    apply seq_run_logged in Hs2. rewrite trace_logged_all in Htr2.
    assert (seq_run all_attempts w (acts1 ++ acts2) r2 w2) as Hs
      by (by eapply seq_run_app).
    unfold finish, extra_trace.
    destruct r2 as [[]|e]; intros [= <- <-]; exists acts1, acts2, (Ok tt).
    + split; [exact (seq_run_logged_r _ extra_post _ _ _ _ Hs)|].
      split; [|by destruct Hs1 as [? ? ? ? ? ? ? ? ? ? ? [? ?]]].
      change (trace (logged_all extra_post w2) =
              trace w ++ main_trace acts1 (Ok tt) ++
              extra_pre ++ flat_map attempt_events acts2 ++ extra_post).
      rewrite trace_logged_all, Htr2, Htr1. by rewrite <- !app_assoc.
    + split; [done|]. split; [|by destruct Hs1 as [? ? ? ? ? ? ? ? ? ? ? [? ?]]].
      rewrite Htr2, Htr1. by rewrite <- !app_assoc, app_nil_r.
  - intros [= <- <-]. exists acts1, [], (Raise e).
    rewrite app_nil_r. split; [by apply seq_run_abort|].
    split; [|done]. rewrite Htr1. by rewrite app_nil_r.
Qed.
Lemma events_since_app w w' d : trace w' = trace w ++ d -> events_since w w' = d.
Proof. intros H. unfold events_since. by rewrite H, drop_app_length. Qed.

Lemma blocked_false p w :
  dirname p ∈ dirs w -> p ∉ dirs w -> blocked p w = false.
Proof.
  intros Hd Hp. unfold blocked, dir_exists.
  rewrite (bool_decide_eq_true_2 _ Hd), (bool_decide_eq_false_2 _ Hp).
  by rewrite orb_true_r.
Qed.

Lemma dirname_png f : dirname (png_path (figure_id f)) = OUTPUT_DIR.
Proof. by destruct f. Qed.
Lemma dirname_pdf f : dirname (pdf_path (figure_id f)) = OUTPUT_DIR.
Proof. by destruct f. Qed.

Lemma png_pdf_differ f : png_path (figure_id f) <> pdf_path (figure_id f).
Proof. by destruct f. Qed.



Lemma append_inj_r (a b c : string) : a +:+ b = a +:+ c -> b = c.
Proof. induction a as [|ch a IH]; cbn; [done|]. intros [= H]. auto. Qed.

Lemma png_pdf_paths_differ name : png_path name <> pdf_path name.
Proof.
  unfold png_path, pdf_path, os_path_join. intros H.
  do 3 apply append_inj_r in H. discriminate.
Qed.

(** C9: [save_figure] writes the PNG first and the PDF second; when it
    raises after the PNG was written, that is when the PDF write raises, the
    PNG is on disk with the figure in it and the PDF path is as it was
    before the call; and such a run exists: figure 3 called when its PDF
    path is a directory leaves the PNG and no PDF. *)
Theorem save_figure_png_before_pdf (fig : nat) (name : string) (w : World)
    (r : Outcome unit) (w' : World) :
  save_figure fig name w = (r, w') ->
  writes (events_since w w') `prefix_of` [png_path name; pdf_path name] /\
  (forall e, r = Raise e ->
     EvSavefig (png_path name) ∈ events_since w w' ->
     files w' !! png_path name = Some (png_file name (figure_of w fig)) /\
     files w' !! pdf_path name = files w !! pdf_path name /\
     writes (events_since w w') = [png_path name]) /\
  (exists e w1,
     plot Fig3 pdf_blocked_world = (Raise e, w1) /\
     is_Some (files w1 !! png_path (figure_id Fig3)) /\
     files w1 !! pdf_path (figure_id Fig3) = None).
Proof.
  intros Hs. apply save_figure_run in Hs as [st Hs].
  destruct Hs as [Hout Htr Hfl _ _ _ _ _ _ _ _ _ _ _].
  apply events_since_app in Htr. rewrite Htr.
  split; [|split].
  - destruct st, r as [[]|e]; cbn; try done.
    + by eexists.
    + by exists [pdf_path name].
  - intros e -> Hin. destruct st; cbn in *; [|clear Hin|done].
    + apply elem_of_cons in Hin as [?|Hin]; [done|].
      apply elem_of_cons in Hin as [?|Hin]; [done|].
      by apply elem_of_nil in Hin.
    + rewrite Hfl. cbn. rewrite lookup_insert_eq.
      rewrite lookup_insert_ne by apply png_pdf_paths_differ. done.
  - eexists _, _. split; [vm_compute; reflexivity|].
    split; [by vm_compute; eexists|]. by vm_compute.
Qed.

Lemma save_figure_png_before_pdf_witness :
  let run := save_figure 1 "figure3_system_architecture" pdf_blocked_world in
  let name := "figure3_system_architecture" in
  writes (events_since pdf_blocked_world (snd run)) `prefix_of`
    [png_path name; pdf_path name] /\
  (forall e, fst run = Raise e ->
     EvSavefig (png_path name) ∈ events_since pdf_blocked_world (snd run) ->
     files (snd run) !! png_path name =
       Some (png_file name (figure_of pdf_blocked_world 1)) /\
     files (snd run) !! pdf_path name = files pdf_blocked_world !! pdf_path name /\
     writes (events_since pdf_blocked_world (snd run)) = [png_path name]) /\
  (exists e w1,
     plot Fig3 pdf_blocked_world = (Raise e, w1) /\
     is_Some (files w1 !! png_path (figure_id Fig3)) /\
     files w1 !! pdf_path (figure_id Fig3) = None).
Proof.
  intros run name.
  apply (save_figure_png_before_pdf 1 name pdf_blocked_world (fst run) (snd run)).
  vm_compute. reflexivity.
Defined.


Lemma plot_saved f w w' :
  plot f w = (Ok tt, w') ->
  files w' !! png_path (figure_id f) =
    Some (png_file (figure_id f) (final_figure (spec_of f) (rcparams w))) /\
  files w' !! pdf_path (figure_id f) =
    Some (pdf_file (figure_id f) (final_figure (spec_of f) (rcparams w))).
Proof.
  intros Hp. apply plot_run in Hp as [st Hp].
  destruct Hp as [Hout _ Hfl _ _ _ _ _ _ _ _ _]. subst st.
  rewrite Hfl. cbn. fold (figure_id f). split.
  - rewrite lookup_insert_ne by (symmetry; apply png_pdf_paths_differ).
    apply lookup_insert_eq.
  - apply lookup_insert_eq.
Qed.



Lemma omap_flat_map {A B C} (f : B -> option C) (g : A -> list B) l :
  omap f (flat_map g l) = flat_map (fun a => omap f (g a)) l.
Proof.
  induction l as [|a l IH]; cbn; [done|]. by rewrite omap_app, IH.
Qed.

Lemma figure_calls_attempt a : figure_calls (attempt_events a) = [at_fn a].
Proof.
  destruct a as [lab f i st [e|]]; unfold attempt_events, error_log; cbn;
    [destruct (exc_is_Exception e)|]; by destruct f, st.
Qed.

Lemma figure_calls_app t1 t2 :
  figure_calls (t1 ++ t2) = figure_calls t1 ++ figure_calls t2.
Proof. apply omap_app. Qed.

Lemma figure_calls_banners :
  figure_calls main_pre = [] /\ figure_calls main_post = [] /\
  figure_calls extra_pre = [] /\ figure_calls extra_post = [].
Proof. by repeat split. Qed.

Lemma figure_calls_attempts acts :
  figure_calls (flat_map attempt_events acts) = map at_fn acts.
Proof.
  induction acts as [|a acts IH]; [done|].
  cbn [flat_map map]. unfold figure_calls in *. rewrite omap_app, IH.
  fold (figure_calls (attempt_events a)). by rewrite figure_calls_attempt.
Qed.

Lemma seq_run_complete l w acts w' :
  seq_run l w acts (Ok tt) w' ->
  map at_fn acts = map snd l /\ Forall (fun a => attempt_result a = Ok tt) acts.
Proof.
  intros [_ _ _ _ _ _ _ Hlab _ _ _ [Hlen Hres]]. split; [|done].
  rewrite Hlen, firstn_all in Hlab.
  rewrite <- Hlab, map_map. done.
Qed.





Lemma seq_run_catchable l w acts r w' :
  catchable (faults w) -> seq_run l w acts r w' -> r = Ok tt.
Proof.
  intros Hc [_ _ _ _ _ _ _ _ _ _ _ Hres]. destruct r as [[]|e]; [done|].
  destruct Hres as [Hin He]. apply Hc in Hin. congruence.
Qed.



Example faulty_world_raises :
  raises (trace (snd (dunder_main faulty_world))) =
    [backend_failure] /\
  writes (trace (snd (dunder_main faulty_world))) =
    figure_writes Fig3 ++ figure_writes Fig4 ++ figure_writes Fig6.
Proof. vm_compute. split; reflexivity. Qed.
Lemma guarded_run {A} (f : World -> Outcome A * World) w :
  (fault_point ;; act f) w =
  match pending (faults w) with
  | Some e => (Raise e, log (EvRaise e) (with_faults (drop 1 (faults w)) w))
  | None => f (with_faults (drop 1 (faults w)) w)
  end.
Proof.
  rewrite py_bind_run, fault_point_run. by destruct (pending (faults w)).
Qed.

Ltac guarded_step :=
  match goal with
  | |- context [(@mbind _ _ _ _ (fun _ => act ?f) fault_point) ?W] =>
      rewrite (guarded_run f W)
  end.

Ltac bind_step :=
  match goal with
  | |- (@mbind _ _ _ _ ?k ?m ?W = _) -> _ => rewrite (py_bind_run m k W)
  end.

Ltac init_leaf E :=
  intros [= <- <-]; split; cbn; try done;
  [ eauto
  | repeat split; try done; left; by eapply pending_elem
  | intros Hq; by rewrite quiet_pending in E ].

Lemma module_init_run w r w' : module_init w = (r, w') -> init_run w r w'.
Proof.
  unfold module_init, py_import, plt_style_use, rcParams_set, os_makedirs_exist_ok.
  rewrite py_bind_run, fault_point_run; wnorm.
  rewrite <- (drop_0 (faults w)) at 1.
  fault_case E; [init_leaf E|clear E].
  do 5 (rewrite py_bind_run, fault_point_run; wnorm; rewrite ?drop_drop;
        fault_case E; [init_leaf E|clear E]).
  do 6 (bind_step; guarded_step; wnorm; rewrite ?drop_drop;
        fault_case E; [init_leaf E|clear E]).
  guarded_step.
  wnorm; rewrite ?drop_drop. fault_case E; [init_leaf E|clear E].
  rewrite !insert_insert_eq || idtac. fold (init_rc (rcparams w)).
  destruct (bool_decide (OUTPUT_DIR ∈ dom (files w))) eqn:Hex.
  - apply bool_decide_eq_true_1 in Hex.
    unfold py_raise. wnorm. intros [= <- <-]. split; cbn; try done.
    + eauto.
    + repeat split; try done. by right.
  - apply bool_decide_eq_false_1 in Hex.
    intros [= <- <-]. split; cbn; try done.
    eauto.
Qed.

Lemma script_unfold w :
  script w = match module_init w with
             | (Ok _, w1) => dunder_main w1
             | (Raise e, w1) => (Raise e, w1)
             end.
Proof. reflexivity. Qed.
Lemma writes_app t1 t2 : writes (t1 ++ t2) = writes t1 ++ writes t2.
Proof. apply omap_app. Qed.

Lemma writes_banners :
  writes main_pre = [] /\ writes main_post = [] /\
  writes extra_pre = [] /\ writes extra_post = [].
Proof. by repeat split. Qed.

Lemma writes_attempt a :
  writes (attempt_events a) = stage_writes (at_fn a) (at_stage a).
Proof.
  destruct a as [lab f i st [e|]]; unfold attempt_events, error_log; cbn;
    [destruct (exc_is_Exception e)|]; by destruct st.
Qed.

Lemma writes_attempts acts :
  writes (flat_map attempt_events acts) =
  flat_map (fun a => stage_writes (at_fn a) (at_stage a)) acts.
Proof.
  induction acts as [|a acts IH]; [done|].
  cbn [flat_map]. by rewrite writes_app, IH, writes_attempt.
Qed.

Lemma stage_writes_sublist f st : stage_writes f st `sublist_of` figure_writes f.
Proof.
  destruct st; cbn.
  1-3: apply sublist_nil_l.
  - apply sublist_skip, sublist_nil_l.
  - reflexivity.
  - reflexivity.
Qed.

Lemma attempts_writes_sublist acts :
  flat_map (fun a => stage_writes (at_fn a) (at_stage a)) acts
    `sublist_of` flat_map figure_writes (map at_fn acts).
Proof.
  induction acts as [|a acts IH]; [done|].
  cbn [flat_map map]. apply sublist_app; [apply stage_writes_sublist|done].
Qed.

Lemma seq_run_fns l w acts r w' :
  seq_run l w acts r w' -> map at_fn acts = take (length acts) (map snd l).
Proof.
  intros [_ _ _ _ _ _ _ Hlab _ _ _ _].
  transitivity (map snd (map (fun a => (at_label a, at_fn a)) acts));
    [by rewrite map_map|].
  rewrite Hlab. symmetry. apply firstn_map.
Qed.

Lemma flat_map_take_sublist {A B} (g : A -> list B) n l :
  flat_map g (take n l) `sublist_of` flat_map g l.
Proof.
  rewrite <- (take_drop n l) at 2. rewrite flat_map_app.
  apply sublist_inserts_r. reflexivity.
Qed.

Lemma driver_trace_writes acts1 acts2 r1 r :
  writes (main_trace acts1 r1 ++
          match r1 with Ok _ => extra_trace acts2 r | Raise _ => [] end) =
  writes (flat_map attempt_events acts1) ++
  match r1 with Ok _ => writes (flat_map attempt_events acts2) | Raise _ => [] end.
Proof.
  destruct writes_banners as (Hw1 & Hw2 & Hw3 & Hw4).
  unfold main_trace, extra_trace.
  destruct r1, r; rewrite ?writes_app, ?Hw1, ?Hw2, ?Hw3, ?Hw4; cbn [app];
    by rewrite ?app_nil_r.
Qed.

Lemma dunder_main_writes w r w' :
  dunder_main w = (r, w') ->
  writes (events_since w w') `sublist_of` all_writes.
Proof.
  intros Hm. apply dunder_main_run in Hm as (acts1 & acts2 & r1 & Hs & Htr & Hr1).
  apply events_since_app in Htr. rewrite Htr, driver_trace_writes.
  apply seq_run_fns in Hs.
  assert (writes (flat_map attempt_events (acts1 ++ acts2)) `sublist_of` all_writes)
    as Hsub.
  { rewrite writes_attempts. etrans; [apply attempts_writes_sublist|].
    rewrite Hs. apply flat_map_take_sublist. }
  destruct r1 as [[]|e].
  - by rewrite flat_map_app, writes_app in Hsub.
  - destruct Hr1 as [-> _]. by rewrite !app_nil_r in *.
Qed.

(** C7: in every run of the driver, whatever fails, the files are written
    in the order PNG of figure 3, PDF of figure 3, PNG of figure 4, ..., PDF
    of figure 6, each at most once: the writes of a run are a sublist of that
    list of eight distinct paths.  So a figure's PNG comes before its PDF, and
    both come before any write of a later figure.  The same holds for a run
    of the whole script. *)
Theorem figure_writes_do_not_interleave (w : World) :
  writes (events_since w (snd (dunder_main w))) `sublist_of` all_writes /\
  writes (events_since w (snd (script w))) `sublist_of` all_writes /\
  NoDup all_writes /\
  all_writes = [png_path (figure_id Fig3); pdf_path (figure_id Fig3);
                png_path (figure_id Fig4); pdf_path (figure_id Fig4);
                png_path (figure_id Fig5); pdf_path (figure_id Fig5);
                png_path (figure_id Fig6); pdf_path (figure_id Fig6)].
Proof.
  split; [|split; [|split]].
  - destruct (dunder_main w) as [r w'] eqn:Hm. by eapply dunder_main_writes.
  - rewrite script_unfold.
    destruct (module_init w) as [r1 w1] eqn:Hi. apply module_init_run in Hi.
    destruct Hi as [_ _ _ _ _ _ _ Hres _]. destruct r1 as [[]|e].
    + destruct Hres as (_ & _ & Htr & _).
      destruct (dunder_main w1) as [r w'] eqn:Hm. cbn [snd].
      pose proof (dunder_main_writes _ _ _ Hm) as Hsub.
      apply dunder_main_run in Hm as (acts1 & acts2 & r1 & _ & Htr' & _).
      rewrite (events_since_app _ _ _ Htr') in Hsub.
      rewrite Htr, <- app_assoc in Htr'.
      rewrite (events_since_app _ _ _ Htr'), writes_app. exact Hsub.
    + cbn [snd]. destruct Hres as (_ & Htr & _).
      rewrite (events_since_app _ _ _ Htr). apply sublist_nil_l.
  - apply (bool_decide_unpack _). by vm_compute.
  - reflexivity.
Qed.
Lemma foldl_attempt_files rc fl acts :
  foldl (attempt_files rc) fl acts = foldl (plan_files rc) fl (plan_of acts).
Proof.
  revert fl. induction acts as [|a acts IH]; intros fl; [done|].
  cbn [foldl plan_of map]. by rewrite IH.
Qed.

Lemma plan_files_union rc fl p : plan_files rc fl p = plan_map rc p ∪ fl.
Proof.
  destruct p as [f st]. unfold plan_map, plan_files. cbn [fst snd].
  destruct st; cbn; rewrite ?insert_union_singleton_l, ?map_union_assoc;
    rewrite ?(right_id_L ∅ (∪)), ?(left_id_L ∅ (∪)); done.
Qed.

Lemma foldl_plan_files rc fl ps :
  foldl (plan_files rc) fl ps = written rc ps ∪ fl.
Proof.
  unfold written.
  assert (forall M, foldl (plan_files rc) (M ∪ fl) ps =
                    foldl (fun M p => plan_map rc p ∪ M) M ps ∪ fl) as H.
  { induction ps as [|p ps IH]; intros M; [done|].
    cbn [foldl]. by rewrite plan_files_union, map_union_assoc, IH. }
  rewrite <- H. by rewrite (left_id_L ∅ (∪)).
Qed.

(** Writing the same files twice leaves what writing them once leaves. *)
Lemma written_twice rc fl ps :
  foldl (plan_files rc) (foldl (plan_files rc) fl ps) ps = foldl (plan_files rc) fl ps.
Proof.
  rewrite !foldl_plan_files, map_union_assoc. f_equal.
  apply (idemp_L (∪)).
Qed.

Lemma plan_map_dom rc p : forall k, k ∈ dom (plan_map rc p) -> k ∈ figure_writes p.1.
Proof.
  destruct p as [f st]. unfold plan_map, plan_files, figure_writes. cbn [fst snd].
  intros k. fold (figure_id f).
  destruct st; cbn;
    rewrite ?dom_insert_L, ?dom_empty_L, ?elem_of_union, ?elem_of_singleton,
      ?elem_of_empty, !elem_of_cons; tauto.
Qed.

Lemma written_dom rc ps k :
  k ∈ dom (written rc ps) -> exists p, p ∈ ps /\ k ∈ figure_writes p.1.
Proof.
  unfold written.
  assert (forall M, k ∈ dom (foldl (fun M p => plan_map rc p ∪ M) M ps) ->
                    k ∈ dom M \/ exists p, p ∈ ps /\ k ∈ figure_writes p.1) as H.
  { induction ps as [|p ps IH]; intros M; cbn [foldl]; [auto|].
    intros Hk. apply IH in Hk as [Hk|(q & Hq & Hk)].
    - rewrite dom_union_L in Hk. apply elem_of_union in Hk as [Hk|Hk]; [|auto].
      right. exists p. split; [left|]. by apply (plan_map_dom rc).
    - right. exists q. split; [by right|done]. }
  intros Hk. apply H in Hk as [Hk|?]; [|done]. by rewrite dom_empty_L in Hk.
Qed.

Lemma output_dir_not_written rc ps : OUTPUT_DIR ∉ dom (written rc ps).
Proof.
  intros H. apply written_dom in H as ([f st] & _ & Hk). cbn in Hk.
  destruct f; revert Hk; apply (bool_decide_unpack _); by vm_compute.
Qed.
Lemma seq_run_quiet l w acts r w' :
  quiet (faults w) ->
  seq_run l w acts r w' ->
  r = Ok tt /\
  plan_of acts = plan_for w l /\
  files w' = foldl (plan_files (rcparams w)) (files w) (plan_for w l) /\
  quiet (faults w').
Proof.
  intros Hq Hs.
  pose proof (seq_run_catchable _ _ _ _ _ (quiet_catchable _ Hq) Hs) as ->.
  destruct Hs as [Hfl _ _ _ _ _ [n Hn] Hlab _ Hst _ [Hlen _]].
  rewrite Hlen, firstn_all in Hlab.
  assert (plan_of acts = plan_for w l) as Hplan.
  { unfold plan_for. rewrite <- Hlab, map_map. unfold plan_of.
    apply map_ext_Forall. eapply Forall_impl; [apply (Hst Hq)|].
    cbn. by intros a ->. }
  repeat split; try done.
  - by rewrite Hfl, foldl_attempt_files, Hplan.
  - rewrite Hn. by apply quiet_drop.
Qed.

Lemma raises_app t1 t2 : raises (t1 ++ t2) = raises t1 ++ raises t2.
Proof. apply omap_app. Qed.

Lemma raises_banners :
  raises main_pre = [] /\ raises main_post = [] /\
  raises extra_pre = [] /\ raises extra_post = [].
Proof. by repeat split. Qed.

Lemma raises_attempt a :
  raises (attempt_events a) = match at_raised a with Some e => [e] | None => [] end.
Proof.
  destruct a as [lab f i st [e|]]; unfold attempt_events, error_log; cbn;
    [destruct (exc_is_Exception e)|]; by destruct st.
Qed.

Lemma raises_attempts acts :
  Forall attempt_wf acts ->
  (raises (flat_map attempt_events acts) = [] <->
   Forall (fun p => p.2 = Finished) (plan_of acts)).
Proof.
  induction 1 as [|a acts Hwf _ IH]; [done|].
  cbn [flat_map plan_of map]. rewrite raises_app, raises_attempt.
  fold (plan_of acts). rewrite Forall_cons. cbn [snd].
  destruct Hwf as [H1 H2]. destruct (at_raised a) as [e|].
  - split; [done|]. intros [Hf _]. by apply H2 in Hf.
  - cbn [app]. rewrite IH. split; [|by intros [_ ?]].
    intros Hf. split; [by apply H1|done].
Qed.

Lemma writes_plan acts :
  writes (flat_map attempt_events acts) = plan_writes (plan_of acts).
Proof.
  rewrite writes_attempts. unfold plan_writes, plan_of.
  induction acts as [|a acts IH]; [done|]. cbn [flat_map map fst snd].
  by rewrite IH.
Qed.

Lemma plan_for_app w l1 l2 : plan_for w (l1 ++ l2) = plan_for w l1 ++ plan_for w l2.
Proof. apply map_app. Qed.

Lemma main_quiet w r w' :
  quiet (faults w) ->
  main w = (r, w') ->
  r = Ok tt /\
  files w' = foldl (plan_files (rcparams w)) (files w) (plan_for w main_figures) /\
  writes (events_since w w') = plan_writes (plan_for w main_figures) /\
  figure_calls (events_since w w') = [Fig3; Fig4].
Proof.
  intros Hq Hm. apply main_run in Hm as (acts & Hs & Htr).
  pose proof (seq_run_complete main_figures w acts w') as Hc.
  destruct (seq_run_quiet _ _ _ _ _ Hq Hs) as (-> & Hplan & Hfl & Hq').
  destruct (Hc Hs) as [Hfn _].
  apply events_since_app in Htr. rewrite Htr. unfold main_trace.
  destruct writes_banners as (Hw1 & Hw2 & _).
  destruct figure_calls_banners as (Hc1 & Hc2 & _).
  repeat split; try done.
  - by rewrite !writes_app, Hw1, Hw2, writes_plan, app_nil_r, Hplan.
  - by rewrite !figure_calls_app, Hc1, Hc2, figure_calls_attempts, Hfn.
Qed.

Lemma dunder_main_quiet w r w' :
  quiet (faults w) ->
  dunder_main w = (r, w') ->
  r = Ok tt /\
  files w' = foldl (plan_files (rcparams w)) (files w) (plan_for w all_attempts) /\
  dirs w' = dirs w /\
  rcparams w' = rcparams w /\
  quiet (faults w') /\
  writes (events_since w w') = plan_writes (plan_for w all_attempts) /\
  figure_calls (events_since w w') = [Fig3; Fig4; Fig5; Fig6] /\
  (raises (events_since w w') = [] <->
   Forall (fun p => p.2 = Finished) (plan_for w all_attempts)).
Proof.
  intros Hq Hm. apply dunder_main_run in Hm as (acts1 & acts2 & r1 & Hs & Htr & Hr1).
  destruct (seq_run_quiet _ _ _ _ _ Hq Hs) as (-> & Hplan & Hfl & Hq').
  destruct r1 as [[]|e]; [|by destruct Hr1].
  pose proof (seq_run_complete _ _ _ _ Hs) as [Hfn _].
  pose proof (seq_wf _ _ _ _ _ Hs) as Hwf.
  pose proof (seq_dirs _ _ _ _ _ Hs) as Hd.
  pose proof (seq_rcparams _ _ _ _ _ Hs) as Hrc.
  apply events_since_app in Htr. rewrite Htr. unfold main_trace, extra_trace.
  destruct writes_banners as (Hw1 & Hw2 & Hw3 & Hw4).
  destruct figure_calls_banners as (Hc1 & Hc2 & Hc3 & Hc4).
  destruct raises_banners as (Hr1' & Hr2 & Hr3 & Hr4).
  repeat split; try done.
  - rewrite !writes_app, Hw1, Hw2, Hw3, Hw4, !writes_plan, !app_nil_r. cbn [app].
    rewrite <- Hplan. unfold plan_writes, plan_of.
    by rewrite map_app, flat_map_app.
  - rewrite !figure_calls_app, Hc1, Hc2, Hc3, Hc4, !figure_calls_attempts.
    cbn [app]. by rewrite !app_nil_r, <- map_app, Hfn.
  - rewrite !raises_app, Hr1', Hr2, Hr3, Hr4, !app_nil_r. cbn [app].
    rewrite <- raises_app, <- flat_map_app. intros H.
    apply raises_attempts in H; [|done]. by rewrite <- Hplan.
  - rewrite !raises_app, Hr1', Hr2, Hr3, Hr4, !app_nil_r. cbn [app].
    rewrite <- raises_app, <- flat_map_app. intros H.
    apply raises_attempts; [done|]. by rewrite Hplan.
Qed.

(** ** Running the script twice *)

Lemma init_rc_union rc : init_rc rc = init_rc ∅ ∪ rc.
Proof.
  unfold init_rc. rewrite !insert_union_singleton_l, !map_union_assoc.
  by rewrite (right_id_L ∅ (∪)).
Qed.

Lemma init_rc_twice rc : init_rc (init_rc rc) = init_rc rc.
Proof.
  rewrite (init_rc_union (init_rc rc)), (init_rc_union rc), map_union_assoc.
  by rewrite (idemp_L (∪)).
Qed.

Lemma plan_for_dirs w1 w2 l : dirs w1 = dirs w2 -> plan_for w1 l = plan_for w2 l.
Proof.
  intros H. unfold plan_for. apply map_ext. intros x.
  by rewrite (fs_stage_dirs _ w1 w2 H).
Qed.

Lemma script_quiet w r w' :
  quiet (faults w) ->
  script w = (r, w') ->
  quiet (faults w') /\
  if bool_decide (OUTPUT_DIR ∈ dom (files w))
  then r = Raise dir_exists_error /\
       files w' = files w /\ dirs w' = dirs w /\
       events_since w w' = [EvRaise dir_exists_error]
  else r = Ok tt /\
       dirs w' = {[OUTPUT_DIR]} ∪ dirs w /\
       rcparams w' = init_rc (rcparams w) /\
       files w' = foldl (plan_files (init_rc (rcparams w))) (files w)
                        (plan_for (with_output_dir w) all_attempts) /\
       writes (events_since w w') = plan_writes (plan_for (with_output_dir w) all_attempts) /\
       (raises (events_since w w') = [] <->
        Forall (fun p => p.2 = Finished) (plan_for (with_output_dir w) all_attempts)) /\
       EvMakedirs OUTPUT_DIR ∈ events_since w w'.
Proof.
  intros Hq. rewrite script_unfold.
  destruct (module_init w) as [r1 w1] eqn:Hi. apply module_init_run in Hi.
  destruct Hi as [Hfl _ _ _ _ _ [n Hn] Hres Hiq].
  assert (quiet (faults w1)) as Hq1 by (rewrite Hn; by apply quiet_drop).
  specialize (Hiq Hq).
  destruct r1 as [[]|e].
  - destruct Hres as (Hd & Hrc & Htr & Hno).
    rewrite (bool_decide_eq_false_2 _ Hno).
    intros Hm. pose proof Hm as Hm'.
    apply dunder_main_quiet in Hm as (-> & Hfl' & Hd' & Hrc' & Hq' & Hw & _ & Hr); [|done].
    assert (plan_for w1 all_attempts = plan_for (with_output_dir w) all_attempts) as Hplan
      by (by apply plan_for_dirs).
    apply dunder_main_run in Hm' as (acts1 & acts2 & r1 & _ & Htr' & _).
    rewrite (events_since_app _ _ _ Htr') in Hw, Hr.
    rewrite Htr, <- app_assoc in Htr'. apply events_since_app in Htr'.
    rewrite Htr', writes_app, raises_app. cbn [app].
    change (writes [EvMakedirs OUTPUT_DIR]) with (@nil string).
    change (raises [EvMakedirs OUTPUT_DIR]) with (@nil PyExc). cbn [app].
    rewrite Hplan in *. rewrite Hfl', Hrc, Hfl.
    repeat split; try done; try congruence.
    + apply Hr.
    + apply Hr.
    + left.
  - intros [= <- <-]. destruct Hres as (Hd & Htr & [Hin|[Hex ->]]).
    + destruct (quiet_no_fault _ _ Hq Hin).
    + rewrite (bool_decide_eq_true_2 _ Hex).
      apply events_since_app in Htr. done.
Qed.

Lemma script_quiet_rerun w r1 w1 r2 w2 :
  quiet (faults w) ->
  script w = (r1, w1) ->
  script w1 = (r2, w2) ->
  files w2 = files w1 /\ dirs w2 = dirs w1 /\ r2 = r1 /\
  writes (events_since w1 w2) = writes (events_since w w1) /\
  (raises (events_since w w1) = [] -> raises (events_since w1 w2) = []) /\
  (r1 = Ok tt -> EvMakedirs OUTPUT_DIR ∈ events_since w1 w2).
Proof.
  intros Hq H1 H2.
  apply script_quiet in H1 as [Hq1 H1]; [|done].
  apply script_quiet in H2 as [Hq2 H2]; [|done].
  destruct (bool_decide (OUTPUT_DIR ∈ dom (files w))) eqn:Hex.
  - destruct H1 as (-> & Hfl & Hd & Hev).
    rewrite Hfl, Hex in H2. destruct H2 as (-> & Hfl2 & Hd2 & Hev2).
    rewrite Hev, Hev2. repeat split; try done. congruence.
  - destruct H1 as (-> & Hd & Hrc & Hfl & Hw & Hr & Hmk).
    apply bool_decide_eq_false_1 in Hex.
    assert (OUTPUT_DIR ∉ dom (files w1)) as Hex1.
    { rewrite Hfl, foldl_plan_files, dom_union_L. intros Hin.
      apply elem_of_union in Hin as [Hin|Hin]; [|done].
      by apply output_dir_not_written in Hin. }
    rewrite (bool_decide_eq_false_2 _ Hex1) in H2.
    destruct H2 as (-> & Hd2 & Hrc2 & Hfl2 & Hw2 & Hr2 & Hmk2).
    assert (plan_for (with_output_dir w1) all_attempts =
            plan_for (with_output_dir w) all_attempts) as Hplan.
    { apply plan_for_dirs. cbn. rewrite Hd. by rewrite (assoc_L (∪)), (idemp_L (∪)). }
    rewrite Hplan in *. rewrite Hrc, init_rc_twice in Hfl2.
    repeat split; try done.
    + by rewrite Hfl2, Hfl, written_twice.
    + rewrite Hd2, Hd. by rewrite (assoc_L (∪)), (idemp_L (∪)).
    + congruence.
    + intros H. apply Hr2, Hr, H.
Qed.

(** C6: running the script a second time, when no library failure is
    pending, leaves the disk as the first run left it: the same directories,
    the same set of files and the same content; the second run writes the
    paths the first run wrote, and when the first run ended without any
    exception so does the second, [os.makedirs] included. *)
Theorem rerun_overwrites_without_error (w w1 w2 : World) (r1 r2 : Outcome unit) :
  quiet (faults w) ->
  script w = (r1, w1) ->
  script w1 = (r2, w2) ->
  dom (files w2) = dom (files w1) /\
  dirs w2 = dirs w1 /\
  files w2 = files w1 /\
  writes (events_since w1 w2) = writes (events_since w w1) /\
  (r1 = Ok tt -> raises (events_since w w1) = [] ->
   r2 = Ok tt /\ raises (events_since w1 w2) = [] /\
   EvMakedirs OUTPUT_DIR ∈ events_since w1 w2).
Proof.
  intros Hq H1 H2.
  destruct (script_quiet_rerun w r1 w1 r2 w2 Hq H1 H2)
    as (Hfl & Hd & -> & Hw & Hr & Hmk).
  repeat split; try done.
  - by rewrite Hfl.
  - auto.
  - auto.
Qed.

Lemma rerun_overwrites_without_error_witness :
  let w1 := snd (script fresh_world) in
  let w2 := snd (script w1) in
  dom (files w2) = dom (files w1) /\
  dirs w2 = dirs w1 /\
  files w2 = files w1 /\
  writes (events_since w1 w2) = writes (events_since fresh_world w1) /\
  (fst (script fresh_world) = Ok tt -> raises (events_since fresh_world w1) = [] ->
   fst (script w1) = Ok tt /\ raises (events_since w1 w2) = [] /\
   EvMakedirs OUTPUT_DIR ∈ events_since w1 w2).
Proof.
  intros w1 w2.
  apply (rerun_overwrites_without_error fresh_world w1 w2
           (fst (script fresh_world)) (fst (script w1))).
  - apply Forall_nil_2.
  - apply surjective_pairing.
  - apply surjective_pairing.
Defined.

(** ** One invocation and the four figures *)

Lemma unblocked_plan w l :
  OUTPUT_DIR ∈ dirs w ->
  (forall p, p ∈ all_writes -> p ∉ dirs w) ->
  plan_for w l = map (fun x => (x.2, Finished)) l.
Proof.
  intros Hd Hfree. unfold plan_for. apply map_ext. intros [lab f]. cbn [snd].
  f_equal. unfold fs_stage. fold (figure_id f).
  rewrite !blocked_false; rewrite ?dirname_png, ?dirname_pdf; try done.
  - apply Hfree. destruct f; apply (bool_decide_unpack _); by vm_compute.
  - apply Hfree. destruct f; apply (bool_decide_unpack _); by vm_compute.
Qed.

Lemma plan_files_lookup rc fl ps p :
  (exists f, (f, Finished) ∈ ps /\ p ∈ figure_writes f) ->
  is_Some (foldl (plan_files rc) fl ps !! p).
Proof.
  revert fl. induction ps as [|q ps IH] using rev_ind; intros fl (f & Hin & Hp).
  - by apply elem_of_nil in Hin.
  - rewrite foldl_app. cbn [foldl].
    apply elem_of_app in Hin as [Hin|Hin].
    + destruct q as [g st]. unfold plan_files at 1. cbn [fst snd].
      assert (is_Some (foldl (plan_files rc) fl ps !! p)) as Hs by (apply IH; eauto).
      destruct st; cbn; rewrite ?lookup_insert_is_Some'; tauto.
    + apply list_elem_of_singleton in Hin as <-.
      unfold plan_files at 1. cbn. fold (figure_id f).
      unfold figure_writes in Hp. rewrite !elem_of_cons in Hp.
      rewrite !lookup_insert_is_Some'.
      destruct Hp as [->|[->|Hp]]; [tauto|tauto|by apply elem_of_nil in Hp].
Qed.

Lemma plan_files_other rc fl ps p :
  (forall q, q ∈ ps -> p ∉ figure_writes q.1) ->
  foldl (plan_files rc) fl ps !! p = fl !! p.
Proof.
  rewrite foldl_plan_files. intros H. apply lookup_union_r.
  apply not_elem_of_dom. intros Hin. apply written_dom in Hin as (q & Hq & Hp).
  by apply (H q).
Qed.

(** C5, as stated for [main], fails: a run of [main] from a world with the
    output directory returns, calls only the figure functions of figures 3
    and 4 and leaves no file of figures 5 and 6. *)
Lemma main_leaves_out_figures_5_and_6 :
  fst (main ready_world) = Ok tt /\
  figure_calls (trace (snd (main ready_world))) = [Fig3; Fig4] /\
  files (snd (main ready_world)) !! png_path (figure_id Fig5) = None /\
  files (snd (main ready_world)) !! pdf_path (figure_id Fig5) = None /\
  files (snd (main ready_world)) !! png_path (figure_id Fig6) = None /\
  files (snd (main ready_world)) !! pdf_path (figure_id Fig6) = None /\
  ~ (forall f, f ∈ all_figures ->
       f ∈ figure_calls (trace (snd (main ready_world)))).
Proof.
  assert (figure_calls (trace (snd (main ready_world))) = [Fig3; Fig4]) as Hc
    by (vm_compute; reflexivity).
  split; [vm_compute; reflexivity|].
  split; [exact Hc|].
  split; [vm_compute; reflexivity|].
  split; [vm_compute; reflexivity|].
  split; [vm_compute; reflexivity|].
  split; [vm_compute; reflexivity|].
  rewrite Hc. intros H.
  assert (Fig5 ∈ all_figures) as H5.
  { unfold all_figures. rewrite !elem_of_cons. tauto. }
  apply H in H5. rewrite !elem_of_cons in H5.
  destruct H5 as [?|[?|H5]]; [discriminate|discriminate|].
  by apply elem_of_nil in H5.
Qed.

(** C5 (amended): in a world where no library failure is pending and the
    output directory exists, one run of the [__main__] block calls the four
    figure functions in the order 3, 4, 5, 6 and writes their eight files;
    [main] alone calls only the figure functions of figures 3 and 4 and
    leaves the paths of figures 5 and 6 as they were. *)
Theorem main_block_generates_all_four_figures (w : World) :
  quiet (faults w) ->
  OUTPUT_DIR ∈ dirs w ->
  (forall p, p ∈ all_writes -> p ∉ dirs w) ->
  (exists w',
     dunder_main w = (Ok tt, w') /\
     figure_calls (events_since w w') = [Fig3; Fig4; Fig5; Fig6] /\
     writes (events_since w w') = all_writes /\
     (forall p, p ∈ all_writes -> is_Some (files w' !! p))) /\
  (exists w',
     main w = (Ok tt, w') /\
     figure_calls (events_since w w') = [Fig3; Fig4] /\
     writes (events_since w w') = figure_writes Fig3 ++ figure_writes Fig4 /\
     (forall p, p ∈ figure_writes Fig5 ++ figure_writes Fig6 ->
                files w' !! p = files w !! p)).
Proof.
  intros Hq Hd Hfree. split.
  - destruct (dunder_main w) as [r w'] eqn:Hm.
    apply dunder_main_quiet in Hm as (-> & Hfl & _ & _ & _ & Hw & Hc & _); [|done].
    rewrite (unblocked_plan w _ Hd Hfree) in *.
    exists w'. repeat split; try done.
    intros p Hp. rewrite Hfl. apply plan_files_lookup.
    unfold all_writes, all_figures in Hp. cbn [flat_map] in Hp.
    rewrite !elem_of_app in Hp.
    destruct Hp as [Hp|[Hp|[Hp|[Hp|Hp]]]];
      [exists Fig3|exists Fig4|exists Fig5|exists Fig6|by apply elem_of_nil in Hp].
    all: split; [|done]; cbn; rewrite !elem_of_cons; tauto.
  - destruct (main w) as [r w'] eqn:Hm.
    apply main_quiet in Hm as (-> & Hfl & Hw & Hc); [|done].
    rewrite (unblocked_plan w _ Hd Hfree) in *.
    exists w'. repeat split; try done.
    intros p Hp. rewrite Hfl. apply plan_files_other.
    intros q Hin. cbn in Hin. rewrite !elem_of_cons in Hin.
    destruct Hin as [->|[->|Hin]]; [..|by apply elem_of_nil in Hin].
    all: cbn [fst]; intros Hq'; revert Hp;
      rewrite !elem_of_app; unfold figure_writes in *;
      rewrite !elem_of_cons in *.
    all: intros Hp;
      repeat match goal with
             | H : _ \/ _ |- _ => destruct H
             | H : _ ∈ [] |- _ => by apply elem_of_nil in H
             end; subst; discriminate.
Qed.

Lemma main_block_generates_all_four_figures_witness :
  (exists w',
     dunder_main ready_world = (Ok tt, w') /\
     figure_calls (events_since ready_world w') = [Fig3; Fig4; Fig5; Fig6] /\
     writes (events_since ready_world w') = all_writes /\
     (forall p, p ∈ all_writes -> is_Some (files w' !! p))) /\
  (exists w',
     main ready_world = (Ok tt, w') /\
     figure_calls (events_since ready_world w') = [Fig3; Fig4] /\
     writes (events_since ready_world w') = figure_writes Fig3 ++ figure_writes Fig4 /\
     (forall p, p ∈ figure_writes Fig5 ++ figure_writes Fig6 ->
                files w' !! p = files ready_world !! p)).
Proof.
  apply (main_block_generates_all_four_figures ready_world).
  - apply Forall_nil_2.
  - apply (bool_decide_unpack _). by vm_compute.
  - intros p Hp. change (dirs ready_world) with ({[OUTPUT_DIR]} : gset string).
    rewrite elem_of_singleton. intros ->. revert Hp.
    apply (bool_decide_unpack _). by vm_compute.
Defined.

(** ** Displayed numbers *)

(** What a body draws does not depend on the style of the figure. *)
Lemma run_drawing_artists {A} (body : Drawing A) c1 c2 :
  fig_artists (cv_fig c1) = fig_artists (cv_fig c2) ->
  cv_rng c1 = cv_rng c2 ->
  cv_faults c1 = cv_faults c2 ->
  fig_artists (cv_fig (snd (run_drawing body c1))) =
  fig_artists (cv_fig (snd (run_drawing body c2))).
Proof.
  revert c1 c2.
  induction body as [a|art k IH|n k IH|d k IH]; intros c1 c2 Ha Hr Hf; cbn.
  - done.
  - rewrite Hf. destruct (pop_fault (cv_faults c2)) as [[e|] F]; cbn; [done|].
    apply IH; cbn; [by rewrite Ha|done|done].
  - rewrite Hf. destruct (pop_fault (cv_faults c2)) as [[e|] F]; cbn; [done|].
    by apply IH.
  - rewrite Hf, Hr. destruct (pop_fault (cv_faults c2)) as [[e|] F]; cbn; [done|].
    by apply IH.
Qed.

Lemma annotations_style s rc :
  annotations (final_figure s rc) = annotations (final_figure s ∅).
Proof.
  unfold annotations, final_figure, add_artist, drawn. cbn [fig_artists].
  by rewrite (run_drawing_artists (fs_body s)
                (mkCanvas (new_figure (Some (fs_size s)) rc) (RngUnknown 0) [])
                (mkCanvas (new_figure (Some (fs_size s)) ∅) (RngUnknown 0) [])).
Qed.

Lemma computed_texts_drawn f rc :
  map (map shown) (computed_annotations (final_figure (spec_of f) rc)) = computed_texts f.
Proof.
  unfold computed_annotations. rewrite annotations_style.
  destruct f; vm_compute; reflexivity.
Qed.

Lemma computed_annotations_elem fig a :
  a ∈ computed_annotations fig <->
  a ∈ annotations fig /\ annotation_is_literal a = false.
Proof.
  unfold computed_annotations.
  rewrite !list_elem_of_In, filter_In, negb_true_iff. tauto.
Qed.

(** C3, as stated for every displayed number, fails: the file of figure 6
    that a run from a world with the output directory leaves shows
    [Total: 1140 episodes], and 1140 is the last element of a cumulative
    sum; the file of figure 4 shows two entropies computed from the
    attention maps. *)
Lemma figure6_total_is_computed :
  (exists file,
     files (snd (plot Fig6 ready_world)) !! png_path (figure_id Fig6) = Some file /\
     last (computed_annotations (file_figure file)) =
       Some [Lit "Total: "; FmtInt (mkInt 1140 true); Lit " episodes (vs 2000 uniform)"] /\
     int_val (py_last (np_cumsum [lit 0; lit 180; lit 200; lit 260; lit 280; lit 220])) = 1140 /\
     int_computed (py_last (np_cumsum [lit 0; lit 180; lit 200; lit 260; lit 280; lit 220])) = true) /\
  (exists file,
     files (snd (plot Fig4 ready_world)) !! png_path (figure_id Fig4) = Some file /\
     map (map piece_is_literal) (computed_annotations (file_figure file)) =
       [[true; false; true]; [true; false; true; false; true]]) /\
  ~ (forall f file a,
       files (snd (plot f ready_world)) !! png_path (figure_id f) = Some file ->
       a ∈ annotations (file_figure file) ->
       annotation_is_literal a = true).
Proof.
  assert (plot Fig6 ready_world = (Ok tt, snd (plot Fig6 ready_world))) as H6
    by (vm_compute; reflexivity).
  assert (plot Fig4 ready_world = (Ok tt, snd (plot Fig4 ready_world))) as H4
    by (vm_compute; reflexivity).
  apply plot_saved in H6 as [H6 _]. apply plot_saved in H4 as [H4 _].
  assert (last (computed_annotations (final_figure (spec_of Fig6) (rcparams ready_world))) =
          Some [Lit "Total: "; FmtInt (mkInt 1140 true); Lit " episodes (vs 2000 uniform)"])
    as Hlast by (vm_compute; reflexivity).
  split; [|split].
  - eexists. split; [exact H6|]. unfold png_file. cbn [file_figure].
    split; [exact Hlast|]. split; vm_compute; reflexivity.
  - eexists. split; [exact H4|]. unfold png_file. cbn [file_figure].
    vm_compute. reflexivity.
  - intros H.
    apply last_Some in Hlast as [l Hl].
    specialize (H Fig6 _ [Lit "Total: "; FmtInt (mkInt 1140 true);
                          Lit " episodes (vs 2000 uniform)"] H6).
    assert ([Lit "Total: "; FmtInt (mkInt 1140 true); Lit " episodes (vs 2000 uniform)"]
              ∈ computed_annotations (final_figure (spec_of Fig6) (rcparams ready_world)))
      as Hin by (rewrite Hl; apply elem_of_app; right; apply list_elem_of_singleton; reflexivity).
    apply (proj1 (computed_annotations_elem _ _)) in Hin as [Hin _].
    unfold png_file in H. cbn [file_figure] in H.
    specialize (H Hin). discriminate H.
Qed.

(** C3 (amended): in the files a figure function saves, every displayed
    string is made of characters written in the source, except the two
    entropy annotations of figure 4, whose numbers are computed from the
    attention maps, and six annotations of figure 6: the five stage labels,
    whose stage number is the loop index plus one, and the total, 1140,
    which is the last element of a cumulative sum.  Figures 3 and 5 display
    nothing computed. *)
Theorem displayed_numbers_are_literals_except_entropies_and_stage_totals
    (f : FigureFn) (w w' : World) :
  plot f w = (Ok tt, w') ->
  exists png pdf,
    files w' !! png_path (figure_id f) = Some png /\
    files w' !! pdf_path (figure_id f) = Some pdf /\
    file_figure pdf = file_figure png /\
    map (map shown) (computed_annotations (file_figure png)) = computed_texts f /\
    (forall a, a ∈ annotations (file_figure png) ->
               a ∉ computed_annotations (file_figure png) ->
               annotation_is_literal a = true).
Proof.
  intros Hp. apply plot_saved in Hp as [Hpng Hpdf].
  eexists _, _. split; [exact Hpng|]. split; [exact Hpdf|].
  unfold png_file, pdf_file. cbn [file_figure].
  split; [reflexivity|]. split.
  - apply computed_texts_drawn.
  - intros a Hin Hout.
    destruct (annotation_is_literal a) eqn:Hl; [done|].
    exfalso. apply Hout. by apply computed_annotations_elem.
Qed.

Lemma displayed_numbers_are_literals_except_entropies_and_stage_totals_witness :
  exists png pdf,
    files (snd (plot Fig6 ready_world)) !! png_path (figure_id Fig6) = Some png /\
    files (snd (plot Fig6 ready_world)) !! pdf_path (figure_id Fig6) = Some pdf /\
    file_figure pdf = file_figure png /\
    map (map shown) (computed_annotations (file_figure png)) = computed_texts Fig6 /\
    (forall a, a ∈ annotations (file_figure png) ->
               a ∉ computed_annotations (file_figure png) ->
               annotation_is_literal a = true).
Proof.
  apply (displayed_numbers_are_literals_except_entropies_and_stage_totals
           Fig6 ready_world).
  vm_compute. reflexivity.
Defined.

(** ** Command line and environment *)

Create HintDb oblivious.

Lemma oblivious_ret {A} (x : A) : oblivious (mret x : Py A).
Proof. by intros a e w. Qed.

Lemma oblivious_bind {A B} (m : Py A) (k : A -> Py B) :
  oblivious m -> (forall x, oblivious (k x)) -> oblivious (m ≫= k).
Proof.
  intros Hm Hk a e w. unfold mbind, Py_bind, py_bind.
  rewrite Hm. destruct (m w) as [[x|ex] w1]; cbn [fst snd]; [apply Hk|done].
Qed.

Lemma oblivious_raise {A} ex : oblivious (py_raise ex : Py A).
Proof. by intros a e w. Qed.

Lemma oblivious_emit ev : oblivious (emit ev).
Proof. by intros a e w. Qed.

Lemma oblivious_print line : oblivious (print line).
Proof. apply oblivious_emit. Qed.

Lemma oblivious_fault_point : oblivious fault_point.
Proof.
  intros a e w. unfold fault_point. cbn [faults with_process].
  by destruct (pop_fault (faults w)) as [[ex|] F].
Qed.

Lemma oblivious_try_except {A} (body : Py A) handler :
  oblivious body -> (forall ex, oblivious (handler ex)) ->
  oblivious (try_except body handler).
Proof.
  intros Hb Hh a e w. unfold try_except. rewrite Hb.
  destruct (body w) as [[x|ex] w1]; cbn [fst snd]; [done|].
  destruct (exc_is_Exception ex); [apply Hh|done].
Qed.

Lemma oblivious_for_each {A} (l : list A) (body : A -> Py unit) :
  Forall (fun x => oblivious (body x)) l -> oblivious (for_each l body).
Proof.
  induction 1 as [|x l Hx _ IH]; cbn [for_each].
  - apply oblivious_ret.
  - by apply oblivious_bind.
Qed.

Lemma oblivious_drawing {A} fig (body : Drawing A) : oblivious (drawing fig body).
Proof.
  intros a e w. unfold drawing, figure_of. cbn [fig_heap rng faults with_process].
  destruct (run_drawing body _) as [[x|ex] c]; reflexivity.
Qed.

Lemma oblivious_makedirs path : oblivious (os_makedirs_exist_ok path).
Proof.
  apply oblivious_bind; [apply oblivious_fault_point|]. intros _ a e w.
  unfold act. cbn [files with_process]. by destruct (bool_decide _).
Qed.

Lemma oblivious_style_use name : oblivious (plt_style_use name).
Proof. apply oblivious_bind; [apply oblivious_fault_point|]. by intros _ a e w. Qed.

Lemma oblivious_rcParams_set key value : oblivious (rcParams_set key value).
Proof. apply oblivious_bind; [apply oblivious_fault_point|]. by intros _ a e w. Qed.

Lemma oblivious_figure size : oblivious (plt_figure size).
Proof. apply oblivious_bind; [apply oblivious_fault_point|]. by intros _ a e w. Qed.

Lemma oblivious_gcf : oblivious plt_gcf.
Proof.
  intros a e w. unfold plt_gcf. cbn [open_figs with_process].
  by destruct (open_figs w).
Qed.

Lemma oblivious_tight_layout rect : oblivious (plt_tight_layout rect).
Proof.
  apply oblivious_bind; [apply oblivious_fault_point|]. intros _.
  apply oblivious_bind; [apply oblivious_gcf|]. by intros id a e w.
Qed.

Lemma oblivious_close : oblivious plt_close.
Proof.
  apply oblivious_bind; [apply oblivious_fault_point|]. intros _ a e w.
  unfold act. cbn [open_figs with_process]. by destruct (open_figs w).
Qed.

Lemma oblivious_savefig fig path dpi : oblivious (fig_savefig fig path dpi).
Proof.
  apply oblivious_bind; [apply oblivious_fault_point|]. intros _ a e w.
  unfold act, dir_exists. cbn [dirs with_process].
  destruct (negb _); [done|]. by destruct (bool_decide _).
Qed.

#[local] Hint Resolve oblivious_ret oblivious_raise oblivious_emit oblivious_print
  oblivious_fault_point oblivious_drawing oblivious_makedirs oblivious_style_use
  oblivious_rcParams_set oblivious_figure oblivious_gcf oblivious_tight_layout
  oblivious_close oblivious_savefig : oblivious.

Ltac oblivious_step :=
  cbv beta;
  lazymatch goal with
  | |- oblivious (mbind _ _) => apply oblivious_bind; [|intros ?]
  | |- oblivious (try_except _ _) => apply oblivious_try_except; [|intros ?]
  | |- oblivious (for_each _ _) => apply oblivious_for_each; repeat constructor; cbn
  | |- oblivious (let _ := _ in _) => cbv zeta
  | |- _ => solve [auto with oblivious]
  end.
Ltac oblivious_steps := repeat oblivious_step.

Lemma oblivious_save_figure fig name : oblivious (save_figure fig name).
Proof. unfold save_figure. oblivious_steps. Qed.

#[local] Hint Resolve oblivious_save_figure : oblivious.

Lemma oblivious_figure_function s : oblivious (figure_function s).
Proof. unfold figure_function. oblivious_steps. Qed.

Lemma oblivious_plot f : oblivious (plot f).
Proof. rewrite plot_is_figure_function. apply oblivious_figure_function. Qed.

Lemma oblivious_report_error ex : oblivious (report_error ex).
Proof. unfold report_error, traceback_print_exc. oblivious_steps. Qed.

#[local] Hint Resolve oblivious_report_error : oblivious.
#[local] Hint Extern 1 (oblivious plot_system_architecture) =>
  exact (oblivious_plot Fig3) : oblivious.
#[local] Hint Extern 1 (oblivious plot_haa_uq_mechanism) =>
  exact (oblivious_plot Fig4) : oblivious.
#[local] Hint Extern 1 (oblivious plot_pi_cmdr_pipeline) =>
  exact (oblivious_plot Fig5) : oblivious.
#[local] Hint Extern 1 (oblivious plot_lpc_curriculum) =>
  exact (oblivious_plot Fig6) : oblivious.

Lemma oblivious_main : oblivious main.
Proof. unfold main. oblivious_steps. Qed.

#[local] Hint Resolve oblivious_main : oblivious.







(** ** Open figures *)

Lemma closed_app t1 t2 : closed (t1 ++ t2) = closed t1 ++ closed t2.
Proof. apply omap_app. Qed.

Lemma created_app t1 t2 : created (t1 ++ t2) = created t1 ++ created t2.
Proof. apply omap_app. Qed.

(** A step that opens and closes nothing keeps the invariant. *)
Lemma fig_inv_same w w' :
  open_figs w' = open_figs w ->
  next_fig w' = next_fig w ->
  closed (trace w') = closed (trace w) ->
  fig_inv w -> fig_inv w'.
Proof.
  intros Ho Hn Hc [H1 H2 H3]. split; by rewrite ?Ho, ?Hn, ?Hc.
Qed.

(** Opening a new figure keeps it. *)
Lemma fig_inv_open w w' :
  open_figs w' = next_fig w :: open_figs w ->
  next_fig w' = S (next_fig w) ->
  closed (trace w') = closed (trace w) ->
  fig_inv w -> fig_inv w'.
Proof.
  intros Ho Hn Hc [H1 H2 H3]. split; rewrite ?Ho, ?Hn, ?Hc.
  - constructor; [|done]. intros Hin.
    rewrite Forall_forall in H2. apply H2 in Hin. lia.
  - constructor; [lia|]. eapply Forall_impl; [exact H2|]. cbn. lia.
  - eapply Forall_impl; [exact H3|]. cbn. intros id [Hlt Hout].
    split; [lia|]. rewrite not_elem_of_cons. split; [lia|done].
Qed.

(** Closing the current figure keeps it. *)
Lemma fig_inv_close w w' id rest :
  open_figs w = id :: rest ->
  open_figs w' = rest ->
  next_fig w' = next_fig w ->
  closed (trace w') = closed (trace w) ++ [id] ->
  fig_inv w -> fig_inv w'.
Proof.
  intros Hw Ho Hn Hc [H1 H2 H3]. rewrite Hw in *.
  apply NoDup_cons in H1 as [Hid H1]. apply Forall_cons in H2 as [Hlt H2].
  split; rewrite ?Ho, ?Hn, ?Hc; [done|done|].
  apply Forall_app. split.
  - eapply Forall_impl; [exact H3|]. cbn. intros i [? Hout].
    split; [done|]. rewrite not_elem_of_cons in Hout. tauto.
  - by constructor.
Qed.

Lemma preserves_ret {A} (x : A) : preserves (mret x : Py A).
Proof. by intros w. Qed.

Lemma preserves_bind {A B} (m : Py A) (k : A -> Py B) :
  preserves m -> (forall x, preserves (k x)) -> preserves (m ≫= k).
Proof.
  intros Hm Hk w Hw. unfold mbind, Py_bind, py_bind.
  specialize (Hm w Hw). destruct (m w) as [[x|ex] w1]; [by apply Hk|done].
Qed.

Lemma preserves_try_except {A} (body : Py A) handler :
  preserves body -> (forall ex, preserves (handler ex)) ->
  preserves (try_except body handler).
Proof.
  intros Hb Hh w Hw. unfold try_except.
  specialize (Hb w Hw). destruct (body w) as [[x|ex] w1]; [done|].
  destruct (exc_is_Exception ex); [by apply Hh|done].
Qed.

Lemma preserves_for_each {A} (l : list A) (body : A -> Py unit) :
  Forall (fun x => preserves (body x)) l -> preserves (for_each l body).
Proof.
  induction 1 as [|x l Hx _ IH]; cbn [for_each].
  - apply preserves_ret.
  - by apply preserves_bind.
Qed.

(** An action that opens and closes nothing. *)
Lemma preserves_quiet_log ev w :
  match ev with EvClose _ => False | _ => True end ->
  fig_inv w -> fig_inv (log ev w).
Proof.
  intros Hev. apply fig_inv_same; [done|done|].
  cbn. rewrite closed_app. destruct ev; cbn; by rewrite ?app_nil_r.
Qed.

Lemma preserves_raise {A} ex : preserves (py_raise ex : Py A).
Proof. intros w. by apply preserves_quiet_log. Qed.

Lemma preserves_emit ev :
  match ev with EvClose _ => False | _ => True end -> preserves (emit ev).
Proof. intros Hev w. by apply preserves_quiet_log. Qed.

Lemma preserves_print line : preserves (print line).
Proof. by apply preserves_emit. Qed.

Lemma preserves_fault_point : preserves fault_point.
Proof.
  intros w Hw. unfold fault_point.
  destruct (pop_fault (faults w)) as [[ex|] F]; cbn [snd].
  - apply preserves_quiet_log; [done|]. revert Hw. by apply fig_inv_same.
  - revert Hw. by apply fig_inv_same.
Qed.

Lemma preserves_drawing {A} fig (body : Drawing A) : preserves (drawing fig body).
Proof.
  intros w Hw. unfold drawing.
  destruct (run_drawing body _) as [[x|ex] c]; cbn [snd].
  - revert Hw. by apply fig_inv_same.
  - apply preserves_quiet_log; [done|]. revert Hw. by apply fig_inv_same.
Qed.

Lemma preserves_makedirs path : preserves (os_makedirs_exist_ok path).
Proof.
  apply preserves_bind; [apply preserves_fault_point|]. intros _ w Hw.
  unfold act. destruct (bool_decide _); cbn [snd].
  - by apply preserves_quiet_log.
  - apply preserves_quiet_log; [done|]. revert Hw. by apply fig_inv_same.
Qed.

Lemma preserves_style_use name : preserves (plt_style_use name).
Proof.
  apply preserves_bind; [apply preserves_fault_point|]. intros _ w.
  by apply fig_inv_same.
Qed.

Lemma preserves_rcParams_set key value : preserves (rcParams_set key value).
Proof.
  apply preserves_bind; [apply preserves_fault_point|]. intros _ w.
  by apply fig_inv_same.
Qed.

Lemma preserves_figure size : preserves (plt_figure size).
Proof.
  apply preserves_bind; [apply preserves_fault_point|]. intros _ w.
  apply fig_inv_open; [done|done|].
  cbn. by rewrite closed_app, app_nil_r.
Qed.

Lemma preserves_gcf : preserves plt_gcf.
Proof.
  intros w Hw. unfold plt_gcf. destruct (open_figs w) as [|id rest] eqn:Ho; [|done].
  cbn [snd]. revert Hw. apply fig_inv_open.
  - cbn. by rewrite Ho.
  - done.
  - cbn. by rewrite closed_app, app_nil_r.
Qed.

Lemma preserves_tight_layout rect : preserves (plt_tight_layout rect).
Proof.
  apply preserves_bind; [apply preserves_fault_point|]. intros _.
  apply preserves_bind; [apply preserves_gcf|]. intros id w.
  by apply fig_inv_same.
Qed.

Lemma preserves_close : preserves plt_close.
Proof.
  apply preserves_bind; [apply preserves_fault_point|]. intros _ w Hw.
  unfold act. destruct (open_figs w) as [|id rest] eqn:Ho; [done|].
  cbn [snd]. revert Hw. apply (fig_inv_close _ _ id rest); try done.
  cbn. by rewrite closed_app.
Qed.

Lemma preserves_savefig fig path dpi : preserves (fig_savefig fig path dpi).
Proof.
  apply preserves_bind; [apply preserves_fault_point|]. intros _ w Hw.
  unfold act. destruct (negb _); [by apply preserves_quiet_log|].
  destruct (bool_decide _); [by apply preserves_quiet_log|].
  cbn [snd]. apply preserves_quiet_log; [done|]. revert Hw. by apply fig_inv_same.
Qed.

Create HintDb preserves.

#[local] Hint Resolve preserves_ret preserves_raise preserves_print
  preserves_fault_point preserves_drawing preserves_makedirs preserves_style_use
  preserves_rcParams_set preserves_figure preserves_gcf preserves_tight_layout
  preserves_close preserves_savefig : preserves.
#[local] Hint Extern 1 (preserves (emit _)) =>
  apply preserves_emit; exact I : preserves.

Ltac preserves_step :=
  cbv beta;
  lazymatch goal with
  | |- preserves (mbind _ _) => apply preserves_bind; [|intros ?]
  | |- preserves (try_except _ _) => apply preserves_try_except; [|intros ?]
  | |- preserves (for_each _ _) => apply preserves_for_each; cbn;
      repeat first [apply Forall_nil_2|apply Forall_cons_2]
  | |- preserves (let _ := _ in _) => cbv zeta
  | |- _ => solve [auto with preserves]
  end.
Ltac preserves_steps := repeat preserves_step.

Lemma preserves_save_figure fig name : preserves (save_figure fig name).
Proof. unfold save_figure. preserves_steps. Qed.

#[local] Hint Resolve preserves_save_figure : preserves.

Lemma preserves_figure_function s : preserves (figure_function s).
Proof. unfold figure_function. preserves_steps. Qed.

Lemma preserves_plot f : preserves (plot f).
Proof. rewrite plot_is_figure_function. apply preserves_figure_function. Qed.

Lemma preserves_report_error ex : preserves (report_error ex).
Proof. unfold report_error, traceback_print_exc. preserves_steps. Qed.

#[local] Hint Resolve preserves_report_error : preserves.
#[local] Hint Extern 1 (preserves plot_system_architecture) =>
  exact (preserves_plot Fig3) : preserves.
#[local] Hint Extern 1 (preserves plot_haa_uq_mechanism) =>
  exact (preserves_plot Fig4) : preserves.
#[local] Hint Extern 1 (preserves plot_pi_cmdr_pipeline) =>
  exact (preserves_plot Fig5) : preserves.
#[local] Hint Extern 1 (preserves plot_lpc_curriculum) =>
  exact (preserves_plot Fig6) : preserves.

Lemma preserves_main : preserves main.
Proof. unfold main. preserves_steps. Qed.

#[local] Hint Resolve preserves_main : preserves.

Lemma preserves_dunder_main : preserves dunder_main.
Proof. unfold dunder_main. preserves_steps. Qed.

Lemma preserves_module_init : preserves module_init.
Proof. unfold module_init, py_import. preserves_steps. Qed.

Lemma preserves_script : preserves script.
Proof.
  unfold script. apply preserves_bind; [apply preserves_module_init|].
  intros _. apply preserves_dunder_main.
Qed.

Lemma fig_inv_closed w id : fig_inv w -> id ∈ closed (trace w) -> id ∉ open_figs w.
Proof.
  intros [_ _ H] Hin. rewrite Forall_forall in H. by apply H.
Qed.

(** A figure function that returns made one figure and closed it after the
    two files were saved. *)
Lemma plot_closes f w w' :
  plot f w = (Ok tt, w') ->
  events_since w w' = stage_trace (spec_of f) (next_fig w) Finished /\
  open_figs w' = open_figs w /\ next_fig w' = S (next_fig w).
Proof.
  intros Hp. apply plot_run in Hp as [st Hp].
  destruct Hp as [Hout Htr _ Hop Hnx _ _ _ _ _ _ _]. subst st.
  split; [|done]. apply events_since_app. rewrite Htr. cbn. by rewrite ?app_nil_r.
Qed.

Lemma fresh_world_inv : fig_inv fresh_world.
Proof. split; cbn; constructor. Qed.

(** C10: a figure function that returns made exactly one figure, saved the
    PNG and the PDF and then closed that figure, so that pyplot's open
    figures are what they were before the call.  The invariant that a
    closed figure is not among the open figures holds in a fresh world and
    is kept by every figure function and by [main], the [__main__] block
    and the whole script, however they end; hence after any of them no
    figure of a figure function that returned is open. *)
Theorem completed_figure_functions_leave_no_figure_open (w : World) :
  fig_inv w ->
  (forall f w', plot f w = (Ok tt, w') ->
     events_since w w' =
       [EvEnter (function_name f); EvFigure (next_fig w); EvEnter "save_figure";
        EvSavefig (png_path (figure_id f)); EvSavefig (pdf_path (figure_id f));
        EvPrint ("  ✓ Saved: " +:+ figure_id f); EvClose (next_fig w)] /\
     created (events_since w w') = [next_fig w] /\
     closed (events_since w w') = [next_fig w] /\
     open_figs w' = open_figs w /\
     next_fig w ∉ open_figs w') /\
  (forall f r w', plot f w = (r, w') -> fig_inv w') /\
  (forall r w', main w = (r, w') -> fig_inv w') /\
  (forall r w', dunder_main w = (r, w') ->
     fig_inv w' /\ forall id, id ∈ closed (trace w') -> id ∉ open_figs w') /\
  (forall r w', script w = (r, w') ->
     fig_inv w' /\ forall id, id ∈ closed (trace w') -> id ∉ open_figs w').
Proof.
  intros Hw.
  assert (forall {A} (m : Py A) r w', preserves m -> m w = (r, w') -> fig_inv w')
    as Hkeep.
  { intros A m r w' Hm Hr. specialize (Hm w Hw). by rewrite Hr in Hm. }
  split; [|split; [|split; [|split]]].
  - intros f w' Hp. apply plot_closes in Hp as (-> & -> & _).
    destruct f; (repeat split; [done..|]); intros Hin;
      destruct Hw as [_ Ho _]; rewrite Forall_forall in Ho; apply Ho in Hin; lia.
  - intros f r w'. apply Hkeep, preserves_plot.
  - intros r w'. apply Hkeep, preserves_main.
  - intros r w' Hr. apply Hkeep in Hr; [|apply preserves_dunder_main].
    split; [done|]. intros id. by apply fig_inv_closed.
  - intros r w' Hr. apply Hkeep in Hr; [|apply preserves_script].
    split; [done|]. intros id. by apply fig_inv_closed.
Qed.

Lemma completed_figure_functions_leave_no_figure_open_witness :
  (forall f w', plot f cluttered_world = (Ok tt, w') ->
     events_since cluttered_world w' =
       [EvEnter (function_name f); EvFigure (next_fig cluttered_world);
        EvEnter "save_figure";
        EvSavefig (png_path (figure_id f)); EvSavefig (pdf_path (figure_id f));
        EvPrint ("  ✓ Saved: " +:+ figure_id f); EvClose (next_fig cluttered_world)] /\
     created (events_since cluttered_world w') = [next_fig cluttered_world] /\
     closed (events_since cluttered_world w') = [next_fig cluttered_world] /\
     open_figs w' = open_figs cluttered_world /\
     next_fig cluttered_world ∉ open_figs w') /\
  (forall f r w', plot f cluttered_world = (r, w') -> fig_inv w') /\
  (forall r w', main cluttered_world = (r, w') -> fig_inv w') /\
  (forall r w', dunder_main cluttered_world = (r, w') ->
     fig_inv w' /\ forall id, id ∈ closed (trace w') -> id ∉ open_figs w') /\
  (forall r w', script cluttered_world = (r, w') ->
     fig_inv w' /\ forall id, id ∈ closed (trace w') -> id ∉ open_figs w').
Proof.
  apply (completed_figure_functions_leave_no_figure_open cluttered_world).
  split; cbn.
  - apply (bool_decide_unpack _). by vm_compute.
  - repeat constructor.
  - constructor.
Defined.

(** * Further properties of the script *)
Lemma split_last_suffix (s ext : string) :
  split_last "."%char ext = None ->
  split_last "."%char (s +:+ "." +:+ ext) = Some (s, ext).
Proof.
  intros Hext. induction s as [|c s IH].
  - change ("" +:+ "." +:+ ext) with (String "."%char ext).
    cbn [split_last]. by rewrite Hext.
  - change (String c s +:+ "." +:+ ext) with (String c (s +:+ "." +:+ ext)).
    cbn [split_last]. by rewrite IH.
Qed.

Lemma extension_png_path name : extension (png_path name) = "png".
Proof.
  unfold extension, png_path, os_path_join.
  change (OUTPUT_DIR +:+ "/" +:+ name +:+ ".png")
    with ((OUTPUT_DIR +:+ "/" +:+ name) +:+ "." +:+ "png").
  by rewrite split_last_suffix.
Qed.

Lemma extension_pdf_path name : extension (pdf_path name) = "pdf".
Proof.
  unfold extension, pdf_path, os_path_join.
  change (OUTPUT_DIR +:+ "/" +:+ name +:+ ".pdf")
    with ((OUTPUT_DIR +:+ "/" +:+ name) +:+ "." +:+ "pdf").
  by rewrite split_last_suffix.
Qed.

Lemma save_figure_quiet fig name w r w' :
  quiet (faults w) ->
  save_figure fig name w = (r, w') ->
  r = match fs_save_stage name w with
      | SavePng => Raise (savefig_error (png_path name) w)
      | SavePdf => Raise (savefig_error (pdf_path name) w)
      | Saved => Ok tt
      end.
Proof.
  intros Hq. unfold save_figure, fs_save_stage. rewrite py_bind_run. cbn [emit]. wnorm.
  fold (png_path name) (pdf_path name).
  rewrite py_bind_run, fig_savefig_run.
  wnorm. fold_world w. rewrite <- (drop_0 (faults w)) at 1.
  rewrite (quiet_pending _ _ Hq).
  destruct (blocked (png_path name) w) eqn:Bpng; [by intros [= <- <-]|].
  rewrite py_bind_run, fig_savefig_run. wnorm. fold_world w. rewrite drop_drop.
  rewrite (quiet_pending _ _ Hq).
  destruct (blocked (pdf_path name) w) eqn:Bpdf; [by intros [= <- <-]|].
  unfold print, emit. wnorm. by intros [= <- <-].
Qed.

(** ** [save_figure] for any figure and any name *)







(** ** Figure functions when no library failure is pending *)

(** The generator state a body leaves does not depend on the figure. *)
Lemma run_drawing_rng {A} (body : Drawing A) c1 c2 :
  cv_rng c1 = cv_rng c2 ->
  cv_faults c1 = cv_faults c2 ->
  (run_drawing body c1).1 = (run_drawing body c2).1 /\
  cv_rng (run_drawing body c1).2 = cv_rng (run_drawing body c2).2.
Proof.
  revert c1 c2.
  induction body as [a|art k IH|n k IH|d k IH]; intros c1 c2 Hr Hf; cbn.
  - done.
  - rewrite Hf. destruct (pop_fault (cv_faults c2)) as [[e|] F]; cbn; [done|].
    by apply IH.
  - rewrite Hf. destruct (pop_fault (cv_faults c2)) as [[e|] F]; cbn; [done|].
    by apply IH.
  - rewrite Hf, Hr. destruct (pop_fault (cv_faults c2)) as [[e|] F]; cbn; [done|].
    by apply IH.
Qed.

Lemma rng_after_style (s : FigSpec) (rc : RcParams) (r0 : RngState) :
  cv_rng (run_drawing (fs_body s) (mkCanvas (new_figure (Some (fs_size s)) rc) r0 [])).2 =
  cv_rng (run_drawing (fs_body s) (mkCanvas (new_figure (Some (fs_size s)) ∅) r0 [])).2.
Proof. by apply run_drawing_rng. Qed.

Lemma figure_function_quiet (f : FigureFn) w r w' :
  quiet (faults w) ->
  plot f w = (r, w') ->
  r = disk_outcome f w /\ rng w' = rng_after f (rng w).
Proof.
  intros Hq. rewrite plot_is_figure_function. unfold disk_outcome, rng_after.
  generalize (spec_of f) (figure_id f) (eq_refl : figure_id f = fs_name (spec_of f)).
  intros s id Hid. subst id.
  unfold figure_function. rewrite py_bind_run. cbn [emit fst snd].
  rewrite py_bind_run. unfold plt_figure at 1. rewrite py_bind_run, fault_point_run.
  wnorm.
  rewrite <- (drop_0 (faults w)) at 1. rewrite (quiet_pending _ _ Hq).
  unfold act at 1. wnorm.
  rewrite py_bind_run. unfold drawing at 1. unfold figure_of at 1. wnorm.
  rewrite lookup_insert_eq. cbn.
  destruct (run_drawing (fs_body s) _) as [[[]|e] c] eqn:Hd.
  2:{ apply run_drawing_raise_elem in Hd as Hin. cbn in Hin.
      apply elem_drop in Hin. destruct (quiet_no_fault _ _ Hq Hin). }
  apply run_drawing_ok in Hd as Hrng.
  apply (f_equal (fun x => cv_rng x.2)) in Hrng. cbn in Hrng.
  rewrite rng_after_style in Hrng.
  apply run_drawing_suffix in Hd as [n Hn]. cbn in Hn.
  destruct c as [cf cr cF]. cbn in Hrng, Hn. subst cr cF. cbn.
  rewrite drop_drop.
  rewrite py_bind_run. unfold plt_tight_layout at 1.
  rewrite py_bind_run, fault_point_run. wnorm. rewrite drop_drop.
  rewrite (quiet_pending _ _ Hq).
  rewrite py_bind_run. unfold plt_gcf, modify_figure, act, figure_of. wnorm.
  rewrite lookup_insert_eq. cbn.
  rewrite py_bind_run.
  match goal with |- context [save_figure ?i ?nm ?W] =>
    destruct (save_figure i nm W) as [r1 w1] eqn:Hs end.
  pose proof Hs as Hs'.
  apply save_figure_quiet in Hs'; [|cbn; by apply quiet_drop].
  apply save_figure_run in Hs as [sst Hs].
  destruct Hs as [_ _ _ _ _ _ _ _ Hop _ Hrg [k Hk] _ _]. cbn in *.
  rewrite drop_drop in Hk.
  change (fs_save_stage ?p _) with (fs_save_stage p w) in *.
  change (savefig_error ?p _) with (savefig_error p w) in *.
  unfold fs_save_stage in Hs'. unfold fs_stage.
  destruct (blocked (png_path (fs_name s)) w).
  { subst r1. intros [= <- <-]. by rewrite Hrg. }
  destruct (blocked (pdf_path (fs_name s)) w).
  { subst r1. intros [= <- <-]. by rewrite Hrg. }
  subst r1. rewrite plt_close_run. rewrite Hk, (quiet_pending _ _ Hq).
  rewrite Hop. intros [= <- <-]. split; [done|]. cbn. by rewrite Hrg.
Qed.

Lemma disk_outcome_dirs f w1 w2 : dirs w1 = dirs w2 -> disk_outcome f w1 = disk_outcome f w2.
Proof.
  intros H. unfold disk_outcome, savefig_error, dir_exists.
  by rewrite (fs_stage_dirs _ w1 w2 H), H.
Qed.

Lemma disk_errors_dirs f w1 w2 : dirs w1 = dirs w2 -> disk_errors f w1 = disk_errors f w2.
Proof. intros H. unfold disk_errors. by rewrite (disk_outcome_dirs f w1 w2 H). Qed.

Lemma left_open_dirs w1 w2 id l o : dirs w1 = dirs w2 -> left_open w1 id l o = left_open w2 id l o.
Proof.
  intros H. revert id o. induction l as [|f l IH]; intros id o; [done|].
  cbn [left_open]. by rewrite IH, (disk_outcome_dirs f w1 w2 H).
Qed.

Lemma raises_snoc_print t s : raises (t ++ [EvPrint s]) = raises t.
Proof. rewrite raises_app. cbn. by rewrite app_nil_r. Qed.

(** One iteration of a driver loop when no library failure is pending. *)
Lemma attempt_quiet label f w r w' :
  quiet (faults w) ->
  attempt label (plot f) w = (r, w') ->
  r = Ok tt /\ quiet (faults w') /\ dirs w' = dirs w /\
  rng w' = rng_after f (rng w) /\
  next_fig w' = S (next_fig w) /\
  open_figs w' = left_open w (next_fig w) [f] (open_figs w) /\
  exists d, trace w' = trace w ++ d /\
            raises d = disk_errors f w /\ created d = [next_fig w].
Proof.
  intros Hq. unfold attempt, try_except. rewrite py_bind_run. cbn [print emit].
  destruct (plot f (log (EvPrint label) w)) as [r0 w0] eqn:Hp.
  pose proof Hp as Hout. apply figure_function_quiet in Hout as [Hr0 Hrng]; [|done].
  change (disk_outcome f (log (EvPrint label) w)) with (disk_outcome f w) in Hr0.
  change (rng (log (EvPrint label) w)) with (rng w) in Hrng.
  apply plot_run in Hp as [st Hp].
  destruct Hp as [_ Htr _ Hop Hnx _ _ Hd _ [n Hn] Hst _]. cbn in *.
  specialize (Hst Hq). change (fs_stage ?s _) with (fs_stage s w) in Hst. subst st.
  assert (quiet (faults w0)) as Hq0 by (rewrite Hn; by apply quiet_drop).
  unfold disk_errors. unfold disk_outcome in *. unfold fs_stage in *.
  destruct (blocked (png_path (fs_name (spec_of f))) w);
    [|destruct (blocked (pdf_path (fs_name (spec_of f))) w)]; subst r0.
  - rewrite savefig_error_Exception. unfold report_error.
    rewrite py_bind_run. cbn [print emit traceback_print_exc].
    intros [= <- <-]. cbn. repeat split; try done.
    rewrite Htr, <- !app_assoc. eexists. split; [reflexivity|]. done.
  - rewrite savefig_error_Exception. unfold report_error.
    rewrite py_bind_run. cbn [print emit traceback_print_exc].
    intros [= <- <-]. cbn. repeat split; try done.
    rewrite Htr, <- !app_assoc. eexists. split; [reflexivity|]. done.
  - intros [= <- <-]. cbn. repeat split; try done.
    rewrite Htr, <- !app_assoc. eexists. split; [reflexivity|]. done.
Qed.

Lemma attempts_quiet l w r w' :
  quiet (faults w) ->
  attempts l w = (r, w') ->
  r = Ok tt /\ quiet (faults w') /\ dirs w' = dirs w /\
  rng w' = rng_after_all (map snd l) (rng w) /\
  next_fig w' = (next_fig w + length l)%nat /\
  open_figs w' = left_open w (next_fig w) (map snd l) (open_figs w) /\
  exists d, trace w' = trace w ++ d /\
            raises d = flat_map (fun x => disk_errors x.2 w) l /\
            created d = seq (next_fig w) (length l).
Proof.
  revert w. induction l as [|[label f] rest IH]; intros w Hq.
  - intros [= <- <-]. cbn. rewrite Nat.add_0_r. repeat split; try done.
    exists []. by rewrite app_nil_r.
  - cbn [attempts]. rewrite py_bind_run.
    destruct (attempt label (plot f) w) as [r1 w1] eqn:Ha.
    apply attempt_quiet in Ha as (-> & Hq1 & Hd1 & Hr1 & Hn1 & Ho1 & d1 & Ht1 & He1 & Hc1);
      [|done].
    intros Hrest.
    apply IH in Hrest as (-> & Hq2 & Hd2 & Hr2 & Hn2 & Ho2 & d2 & Ht2 & He2 & Hc2);
      [|done].
    repeat split; try done.
    + congruence.
    + rewrite Hr2, Hr1. done.
    + rewrite Hn2, Hn1. cbn [length]. lia.
    + rewrite Ho2, Ho1, Hn1. cbn [map snd left_open].
      apply left_open_dirs. done.
    + exists (d1 ++ d2). rewrite Ht2, Ht1, <- app_assoc. split; [done|].
      rewrite raises_app, created_app, He1, He2, Hc1, Hc2, Hn1. cbn. split; [|done].
      f_equal. apply flat_map_ext. intros x. by apply disk_errors_dirs.
Qed.

Lemma logged_all_frame evs w :
  faults (logged_all evs w) = faults w /\ dirs (logged_all evs w) = dirs w /\
  rng (logged_all evs w) = rng w /\ next_fig (logged_all evs w) = next_fig w /\
  open_figs (logged_all evs w) = open_figs w /\ files (logged_all evs w) = files w.
Proof.
  unfold logged_all. revert w. induction evs as [|ev evs IH]; intros w; [done|].
  cbn [foldl]. destruct (IH (log ev w)) as (-> & -> & -> & -> & -> & ->). done.
Qed.

Lemma created_banners :
  created main_pre = [] /\ created main_post = [] /\
  created extra_pre = [] /\ created extra_post = [].
Proof. by vm_compute. Qed.

Ltac frame_logged :=
  repeat match goal with
    | |- context [faults (logged_all ?evs ?W)] =>
        rewrite (proj1 (logged_all_frame evs W))
    | |- context [dirs (logged_all ?evs ?W)] =>
        rewrite (proj1 (proj2 (logged_all_frame evs W)))
    | |- context [rng (logged_all ?evs ?W)] =>
        rewrite (proj1 (proj2 (proj2 (logged_all_frame evs W))))
    | |- context [next_fig (logged_all ?evs ?W)] =>
        rewrite (proj1 (proj2 (proj2 (proj2 (logged_all_frame evs W)))))
    | |- context [open_figs (logged_all ?evs ?W)] =>
        rewrite (proj1 (proj2 (proj2 (proj2 (proj2 (logged_all_frame evs W))))))
    | |- context [trace (logged_all ?evs ?W)] => rewrite (trace_logged_all evs W)
    end.

Lemma left_open_logged evs w id l o :
  left_open (logged_all evs w) id l o = left_open w id l o.
Proof. apply left_open_dirs, logged_all_frame. Qed.

Lemma left_open_app w id l1 l2 o :
  left_open w id (l1 ++ l2) o =
  left_open w (id + length l1) l2 (left_open w id l1 o).
Proof.
  revert id o. induction l1 as [|f l1 IH]; intros id o; cbn [app left_open length].
  - by rewrite Nat.add_0_r.
  - rewrite IH. f_equal. lia.
Qed.

Lemma rng_after_all_app l1 l2 r :
  rng_after_all (l1 ++ l2) r = rng_after_all l2 (rng_after_all l1 r).
Proof. apply foldl_app. Qed.

(** The [__main__] block when no library failure is pending. *)
Lemma dunder_main_disk w r w' :
  quiet (faults w) ->
  dunder_main w = (r, w') ->
  r = Ok tt /\ dirs w' = dirs w /\
  rng w' = rng_after_all all_figures (rng w) /\
  next_fig w' = (next_fig w + 4)%nat /\
  open_figs w' = left_open w (next_fig w) all_figures (open_figs w) /\
  raises (events_since w w') = flat_map (fun f => disk_errors f w) all_figures /\
  created (events_since w w') = seq (next_fig w) 4.
Proof.
  intros Hq. rewrite dunder_main_unfold, main_unfold.
  destruct (attempts main_figures (logged_all main_pre w)) as [r1 w1] eqn:H1.
  apply attempts_quiet in H1
    as (-> & Hq1 & Hd1 & Hr1 & Hn1 & Ho1 & d1 & Ht1 & He1 & Hc1);
    [|by frame_logged].
  cbn [finish].
  destruct (attempts additional_figures (logged_all extra_pre (logged_all main_post w1)))
    as [r2 w2] eqn:H2.
  apply attempts_quiet in H2
    as (-> & Hq2 & Hd2 & Hr2 & Hn2 & Ho2 & d2 & Ht2 & He2 & Hc2);
    [|by frame_logged].
  cbn [finish]. intros Hfin.
  apply pair_equal_spec in Hfin as [Hfr Hfw]. subst r w'.
  assert (forall f W, dirs W = dirs w -> disk_errors f W = disk_errors f w) as Hde
    by (intros; by apply disk_errors_dirs).
  rewrite (flat_map_ext _ (fun x => disk_errors x.2 w)) in He1
    by (intros; apply Hde, logged_all_frame).
  revert Hd1 Hr1 Hn1 Ho1 Ht1 Hc1 Hd2 Hr2 Hn2 Ho2 Ht2 Hc2. frame_logged.
  rewrite !left_open_logged.
  intros Hd1 Hr1 Hn1 Ho1 Ht1 Hc1 Hd2 Hr2 Hn2 Ho2 Ht2 Hc2.
  rewrite (flat_map_ext _ (fun x => disk_errors x.2 w)) in He2.
  2:{ intros. apply Hde. destruct (logged_all_frame extra_pre (logged_all main_post w1))
        as (_ & -> & _). destruct (logged_all_frame main_post w1) as (_ & -> & _). done. }
  destruct raises_banners as (Rb1 & Rb2 & Rb3 & Rb4).
  destruct created_banners as (Cb1 & Cb2 & Cb3 & Cb4).
  assert (trace (logged_all extra_post w2) =
          trace w ++ main_pre ++ d1 ++ main_post ++ extra_pre ++ d2 ++ extra_post) as Ht.
  { frame_logged. rewrite Ht2, Ht1. by rewrite <- !app_assoc. }
  apply events_since_app in Ht. rewrite Ht.
  repeat split; frame_logged.
  - congruence.
  - rewrite Hr2, Hr1.
    cbv [rng_after_all foldl map snd main_figures additional_figures all_figures].
    reflexivity.
  - rewrite Hn2, Hn1. cbn. lia.
  - rewrite Ho2, Ho1, Hn1.
    change all_figures with (map snd main_figures ++ map snd additional_figures).
    rewrite left_open_app. rewrite length_map.
    apply left_open_dirs. done.
  - rewrite !raises_app, Rb1, Rb2, Rb3, Rb4, He1, He2. cbn. by rewrite ?app_nil_r, <- ?app_assoc.
  - rewrite !created_app, Cb1, Cb2, Cb3, Cb4, Hc1, Hc2, Hn1. cbn.
    repeat f_equal; lia.
Qed.

(** ** Figure functions that fail *)

(** X3: a figure function that raises has closed no figure: if it got as
    far as making its figure, that figure stays open, on top of the figures
    that were open before; it made no other figure. *)
Theorem failed_figure_function_leaves_its_figure_open
    (f : FigureFn) (w : World) (e : PyExc) (w' : World) :
  plot f w = (Raise e, w') ->
  closed (events_since w w') = [] /\
  open_figs w' = created (events_since w w') ++ open_figs w /\
  (created (events_since w w') = [] \/ created (events_since w w') = [next_fig w]) /\
  raises (events_since w w') = [e].
Proof.
  intros Hp. apply plot_run in Hp as [st Hp].
  destruct Hp as [Hout Htr _ Hop _ _ _ _ _ _ _ _].
  apply events_since_app in Htr. rewrite Htr, Hop.
  rewrite closed_app, created_app, raises_app.
  destruct st; cbn; try done; repeat split; auto.
Qed.

Lemma failed_figure_function_leaves_its_figure_open_witness :
  let run := plot Fig4 cluttered_world_without_directory in
  closed (events_since cluttered_world_without_directory run.2) = [] /\
  open_figs run.2 =
    created (events_since cluttered_world_without_directory run.2) ++
    open_figs cluttered_world_without_directory /\
  (created (events_since cluttered_world_without_directory run.2) = [] \/
   created (events_since cluttered_world_without_directory run.2) =
     [next_fig cluttered_world_without_directory]) /\
  raises (events_since cluttered_world_without_directory run.2) =
    [OSError "FileNotFoundError" (png_path (figure_id Fig4))].
Proof.
  intros run.
  apply (failed_figure_function_leaves_its_figure_open
           Fig4 cluttered_world_without_directory
           (OSError "FileNotFoundError" (png_path (figure_id Fig4))) run.2).
  vm_compute. reflexivity.
Defined.

(** ** What a run leaves alone *)

Lemma figure_writes_all f p : p ∈ figure_writes f -> p ∈ all_writes.
Proof.
  unfold all_writes, all_figures. cbn [flat_map]. rewrite !elem_of_app.
  destruct f; tauto.
Qed.

Lemma seq_run_frame l w acts r w' :
  seq_run l w acts r w' ->
  (forall p, p ∉ all_writes -> files w' !! p = files w !! p) /\
  (forall p, is_Some (files w !! p) -> is_Some (files w' !! p)).
Proof.
  intros Hs. rewrite (seq_files _ _ _ _ _ Hs), foldl_attempt_files. split.
  - intros p Hp. apply plan_files_other. intros q _ Hin.
    apply Hp. by apply (figure_writes_all q.1).
  - intros p Hp. rewrite foldl_plan_files, lookup_union_is_Some. by right.
Qed.

(** X6: whatever fails, a run of the script changes no path other than the
    eight output files, removes no file, creates no directory other than
    the output directory and removes none. *)
Theorem script_touches_only_its_output_files (w : World) :
  (forall p, p ∉ all_writes -> files (script w).2 !! p = files w !! p) /\
  (forall p, is_Some (files w !! p) -> is_Some (files (script w).2 !! p)) /\
  (dirs (script w).2 = dirs w \/ dirs (script w).2 = {[OUTPUT_DIR]} ∪ dirs w).
Proof.
  rewrite script_unfold.
  destruct (module_init w) as [r1 w1] eqn:Hi. apply module_init_run in Hi.
  destruct Hi as [Hfl _ _ _ _ _ _ Hres _].
  destruct r1 as [[]|e].
  - destruct Hres as (Hd & _).
    destruct (dunder_main w1) as [r w'] eqn:Hm.
    apply dunder_main_run in Hm as (acts1 & acts2 & r0 & Hs & _).
    destruct (seq_run_frame _ _ _ _ _ Hs) as [H1 H2].
    cbn [snd]. rewrite <- Hfl. split; [done|]. split; [done|].
    right. by rewrite (seq_dirs _ _ _ _ _ Hs).
  - cbn [snd]. destruct Hres as (Hd & _). rewrite Hfl. auto.
Qed.

(** ** How the drivers end *)









(** ** Errors that come from the disk *)



(** X1: when a regular file has the name of the output directory and no
    library failure is pending, the script stops at [os.makedirs] with
    [FileExistsError]: no figure function is called, nothing is printed or
    written, and the disk is as it was. *)
Theorem script_stops_when_a_file_has_the_directory_name
    (w : World) (r : Outcome unit) (w' : World) :
  quiet (faults w) ->
  OUTPUT_DIR ∈ dom (files w) ->
  script w = (r, w') ->
  r = Raise (OSError "FileExistsError" OUTPUT_DIR) /\
  files w' = files w /\ dirs w' = dirs w /\
  figure_calls (events_since w w') = [] /\
  entered (events_since w w') = [] /\
  stdout (events_since w w') = [] /\
  writes (events_since w w') = [] /\
  created (events_since w w') = [].
Proof.
  intros Hq Hex Hs. apply script_quiet in Hs as [_ Hs]; [|done].
  rewrite (bool_decide_eq_true_2 _ Hex) in Hs.
  destruct Hs as (-> & -> & -> & ->). by repeat split.
Qed.

Lemma script_stops_when_a_file_has_the_directory_name_witness :
  let run := script file_in_the_way_world in
  run.1 = Raise (OSError "FileExistsError" OUTPUT_DIR) /\
  files run.2 = files file_in_the_way_world /\
  dirs run.2 = dirs file_in_the_way_world /\
  figure_calls (events_since file_in_the_way_world run.2) = [] /\
  entered (events_since file_in_the_way_world run.2) = [] /\
  stdout (events_since file_in_the_way_world run.2) = [] /\
  writes (events_since file_in_the_way_world run.2) = [] /\
  created (events_since file_in_the_way_world run.2) = [].
Proof.
  intros run.
  apply (script_stops_when_a_file_has_the_directory_name file_in_the_way_world run.1 run.2).
  - apply Forall_nil_2.
  - apply (bool_decide_unpack _). vm_compute. exact I.
  - apply surjective_pairing.
Defined.






(** ** Settings of the module in the saved figures *)

Lemma run_drawing_rc {A} (body : Drawing A) c :
  fig_rc (cv_fig (run_drawing body c).2) = fig_rc (cv_fig c) /\
  fig_size (cv_fig (run_drawing body c).2) = fig_size (cv_fig c).
Proof.
  revert c. induction body as [a|art k IH|n k IH|d k IH]; intros c; cbn.
  - done.
  - destruct (pop_fault (cv_faults c)) as [[e|] F]; cbn; [done|].
    destruct (IH (mkCanvas (add_artist art (cv_fig c)) (cv_rng c) F)) as [-> ->]. done.
  - destruct (pop_fault (cv_faults c)) as [[e|] F]; cbn; [done|].
    destruct (IH (mkCanvas (cv_fig c) (RngSeeded n) F)) as [-> ->]. done.
  - destruct (pop_fault (cv_faults c)) as [[e|] F]; cbn; [done|].
    destruct (IH (NdSample (cv_rng c) d)
                 (mkCanvas (cv_fig c) (RngAfter (cv_rng c) d) F)) as [-> ->]. done.
Qed.

Lemma final_figure_rc s rc : fig_rc (final_figure s rc) = rc.
Proof.
  unfold final_figure, add_artist, drawn. cbn [fig_rc].
  by rewrite (proj1 (run_drawing_rc (fs_body s) _)).
Qed.

Ltac lookup_step :=
  first [ rewrite lookup_insert_eq
        | rewrite lookup_insert_ne
            by (apply (bool_decide_unpack _); vm_compute; exact I) ].

Lemma finished_files rc fl f :
  let fl' := foldl (plan_files rc) fl (map (fun x => (x.2, Finished)) all_attempts) in
  fl' !! png_path (figure_id f) =
    Some (png_file (figure_id f) (final_figure (spec_of f) rc)) /\
  fl' !! pdf_path (figure_id f) =
    Some (pdf_file (figure_id f) (final_figure (spec_of f) rc)).
Proof.
  cbv zeta. unfold all_attempts, main_figures, additional_figures.
  cbn [app map foldl snd]. unfold plan_files. cbn [fst snd stage_files].
  change (fs_name (spec_of ?g)) with (figure_id g).
  destruct f; split; repeat lookup_step; reflexivity.
Qed.

(** X10: in a run of the script that nothing stops, the style and the five
    [plt.rcParams] values set when the module is loaded are the settings of
    every figure saved, whatever the settings were before: style
    seaborn-v0_8-paper, figure.dpi 150, font.size 9, font.family serif,
    axes.grid True, grid.alpha 0.3. *)
Theorem module_settings_reach_every_saved_figure (w : World) :
  quiet (faults w) ->
  OUTPUT_DIR ∉ dom (files w) ->
  (forall p, p ∈ all_writes -> p ∉ dirs w) ->
  exists w',
    script w = (Ok tt, w') /\
    rcparams w' = init_rc (rcparams w) /\
    (forall f, exists png pdf,
       files w' !! png_path (figure_id f) = Some png /\
       files w' !! pdf_path (figure_id f) = Some pdf /\
       fig_rc (file_figure png) = init_rc (rcparams w) /\
       fig_rc (file_figure pdf) = init_rc (rcparams w)) /\
    init_rc (rcparams w) !! "style" = Some "seaborn-v0_8-paper" /\
    init_rc (rcparams w) !! "figure.dpi" = Some "150" /\
    init_rc (rcparams w) !! "font.size" = Some "9" /\
    init_rc (rcparams w) !! "font.family" = Some "serif" /\
    init_rc (rcparams w) !! "axes.grid" = Some "True" /\
    init_rc (rcparams w) !! "grid.alpha" = Some "0.3".
Proof.
  intros Hq Hno Hfree.
  destruct (script w) as [r w'] eqn:Hs. apply script_quiet in Hs as [_ Hs]; [|done].
  rewrite (bool_decide_eq_false_2 _ Hno) in Hs.
  destruct Hs as (-> & _ & Hrc & Hfl & _).
  rewrite (unblocked_plan (with_output_dir w)) in Hfl.
  2:{ cbn. apply elem_of_union. left. by apply elem_of_singleton. }
  2:{ intros p Hp. cbn. rewrite elem_of_union, elem_of_singleton.
      intros [->|Hin]; [|by apply (Hfree p)].
      revert Hp. apply (bool_decide_unpack _). vm_compute. exact I. }
  exists w'. split; [done|]. split; [done|]. split.
  - intros f. destruct (finished_files (init_rc (rcparams w)) (files w) f) as [H1 H2].
    cbv zeta in H1, H2. rewrite <- Hfl in H1, H2.
    eexists _, _. split; [exact H1|]. split; [exact H2|].
    unfold png_file, pdf_file. cbn [file_figure]. by rewrite final_figure_rc.
  - unfold init_rc. repeat split; repeat lookup_step; reflexivity.
Qed.

Lemma module_settings_reach_every_saved_figure_witness :
  exists w',
    script fresh_world = (Ok tt, w') /\
    rcparams w' = init_rc (rcparams fresh_world) /\
    (forall f, exists png pdf,
       files w' !! png_path (figure_id f) = Some png /\
       files w' !! pdf_path (figure_id f) = Some pdf /\
       fig_rc (file_figure png) = init_rc (rcparams fresh_world) /\
       fig_rc (file_figure pdf) = init_rc (rcparams fresh_world)) /\
    init_rc (rcparams fresh_world) !! "style" = Some "seaborn-v0_8-paper" /\
    init_rc (rcparams fresh_world) !! "figure.dpi" = Some "150" /\
    init_rc (rcparams fresh_world) !! "font.size" = Some "9" /\
    init_rc (rcparams fresh_world) !! "font.family" = Some "serif" /\
    init_rc (rcparams fresh_world) !! "axes.grid" = Some "True" /\
    init_rc (rcparams fresh_world) !! "grid.alpha" = Some "0.3".
Proof.
  apply (module_settings_reach_every_saved_figure fresh_world).
  - apply Forall_nil_2.
  - apply (bool_decide_unpack _). vm_compute. exact I.
  - intros p _. apply (bool_decide_unpack _). vm_compute. exact I.
Defined.

(** ** numpy's global generator *)

Lemma rng_after_fig3 r0 : rng_after Fig3 r0 = r0.
Proof. vm_compute. reflexivity. Qed.

Lemma rng_after_seeded f r0 :
  f <> Fig3 ->
  rng_after f r0 = rng_after f (RngSeeded 42) /\ rng_root (rng_after f r0) = Some 42.
Proof. intros Hf. destruct f; [done|..]; vm_compute; split; reflexivity. Qed.

(** X11: the figure functions of figures 4, 5 and 6 reseed numpy's global
    generator: when no library failure is pending, a call leaves the
    generator in a state that descends from seed 42 and depends on the
    function alone, not on the state the caller had; the figure function of
    figure 3 leaves the generator as it was.  After the [__main__] block
    the generator is where figure 6 leaves it. *)
Theorem figure_functions_reseed_the_global_generator (w : World) :
  quiet (faults w) ->
  (forall f r w', plot f w = (r, w') ->
     (f = Fig3 -> rng w' = rng w) /\
     (f <> Fig3 ->
      rng w' = rng_after f (RngSeeded 42) /\ rng_root (rng w') = Some 42)) /\
  (forall r w', dunder_main w = (r, w') ->
     rng w' = rng_after Fig6 (RngSeeded 42) /\ rng_root (rng w') = Some 42).
Proof.
  intros Hq. split.
  - intros f r w' Hp. apply figure_function_quiet in Hp as [_ ->]; [|done]. split.
    + intros ->. apply rng_after_fig3.
    + intros Hf. by apply rng_after_seeded.
  - intros r w' Hm.
    pose proof (dunder_main_disk _ _ _ Hq Hm) as (_ & _ & -> & _).
    cbv [rng_after_all foldl all_figures].
    by apply rng_after_seeded.
Qed.

Lemma figure_functions_reseed_the_global_generator_witness :
  (forall f r w', plot f ready_world = (r, w') ->
     (f = Fig3 -> rng w' = rng ready_world) /\
     (f <> Fig3 ->
      rng w' = rng_after f (RngSeeded 42) /\ rng_root (rng w') = Some 42)) /\
  (forall r w', dunder_main ready_world = (r, w') ->
     rng w' = rng_after Fig6 (RngSeeded 42) /\ rng_root (rng w') = Some 42).
Proof.
  apply (figure_functions_reseed_the_global_generator ready_world).
  apply Forall_nil_2.
Defined.

(** ** Files written in a run with failures *)

Lemma path_owner f g p : p ∈ figure_writes f -> p ∈ figure_writes g -> f = g.
Proof.
  unfold figure_writes. rewrite !elem_of_cons, !elem_of_nil.
  intros [->|[->|[]]]; destruct f, g; try reflexivity;
    intros [H|[H|[]]]; discriminate H.
Qed.

Lemma stage_writes_elem f st p : p ∈ stage_writes f st -> p ∈ figure_writes f.
Proof. intros H. apply (elem_of_sublist _ _ _ H), stage_writes_sublist. Qed.

Lemma plan_writes_elem ps p :
  p ∈ plan_writes ps -> exists q, q ∈ ps /\ p ∈ stage_writes q.1 q.2.
Proof.
  unfold plan_writes. rewrite list_elem_of_In, in_flat_map.
  intros (q & Hq & Hp). exists q. by rewrite !list_elem_of_In.
Qed.

Lemma plan_writes_snoc ps q : plan_writes (ps ++ [q]) = plan_writes ps ++ stage_writes q.1 q.2.
Proof. unfold plan_writes. rewrite flat_map_app. cbn. by rewrite app_nil_r. Qed.

Lemma plan_files_foreign rc fl g st p :
  p ∉ figure_writes g -> plan_files rc fl (g, st) !! p = fl !! p.
Proof.
  unfold figure_writes, plan_files. rewrite !not_elem_of_cons. cbn [fst snd].
  fold (figure_id g). intros (H1 & H2 & _).
  destruct st; cbn [stage_files]; by rewrite ?lookup_insert_ne.
Qed.

Lemma written_file_complete rc fl ps f :
  NoDup (map fst ps) ->
  (png_path (figure_id f) ∈ plan_writes ps ->
   foldl (plan_files rc) fl ps !! png_path (figure_id f) =
     Some (png_file (figure_id f) (final_figure (spec_of f) rc))) /\
  (pdf_path (figure_id f) ∈ plan_writes ps ->
   foldl (plan_files rc) fl ps !! pdf_path (figure_id f) =
     Some (pdf_file (figure_id f) (final_figure (spec_of f) rc))).
Proof.
  induction ps as [|[g st] ps IH] using rev_ind; intros Hnd.
  - split; intros H; by apply elem_of_nil in H.
  - rewrite map_app in Hnd. apply NoDup_app in Hnd as (Hnd & Hfresh & _).
    specialize (IH Hnd). rewrite foldl_app, plan_writes_snoc. cbn [foldl fst snd].
    assert (forall p, p ∈ figure_writes g -> p ∉ plan_writes ps) as Hnew.
    { intros p Hp Hin. apply plan_writes_elem in Hin as (q & Hq & Hin).
      apply stage_writes_elem in Hin.
      pose proof (path_owner _ _ _ Hp Hin) as ->.
      apply (Hfresh q.1); [|cbn; left].
      apply list_elem_of_In, in_map. by apply list_elem_of_In. }
    assert (png_path (figure_id f) ∈ figure_writes f) as Hpng by left.
    assert (pdf_path (figure_id f) ∈ figure_writes f) as Hpdf by (right; left).
    destruct (decide (f = g)) as [<-|Hfg].
    + split; intros Hin; apply elem_of_app in Hin as [Hin|Hin].
      * destruct (Hnew _ Hpng Hin).
      * unfold plan_files. cbn [fst snd]. fold (figure_id f).
        destruct st; cbn in Hin; try (by apply elem_of_nil in Hin); cbn [stage_files].
        -- apply lookup_insert_eq.
        -- rewrite lookup_insert_ne by (symmetry; apply png_pdf_differ).
           apply lookup_insert_eq.
        -- rewrite lookup_insert_ne by (symmetry; apply png_pdf_differ).
           apply lookup_insert_eq.
      * destruct (Hnew _ Hpdf Hin).
      * unfold plan_files. cbn [fst snd]. fold (figure_id f).
        destruct st; cbn in Hin; try (by apply elem_of_nil in Hin); cbn [stage_files].
        -- apply list_elem_of_singleton in Hin. by destruct (png_pdf_differ f).
        -- apply lookup_insert_eq.
        -- apply lookup_insert_eq.
    + assert (forall p, p ∈ figure_writes f -> p ∉ figure_writes g) as Hother.
      { intros p H1 H2. by apply Hfg, (path_owner _ _ p). }
      split; intros Hin; apply elem_of_app in Hin as [Hin|Hin].
      * rewrite plan_files_foreign by auto. by apply IH.
      * apply stage_writes_elem in Hin. by destruct (Hother _ Hpng).
      * rewrite plan_files_foreign by auto. by apply IH.
      * apply stage_writes_elem in Hin. by destruct (Hother _ Hpdf).
Qed.

Lemma dunder_main_plan w r w' :
  dunder_main w = (r, w') ->
  exists ps,
    NoDup (map fst ps) /\
    files w' = foldl (plan_files (rcparams w)) (files w) ps /\
    writes (events_since w w') = plan_writes ps.
Proof.
  intros Hm. apply dunder_main_run in Hm as (acts1 & acts2 & r1 & Hs & Htr & Hr1).
  exists (plan_of (acts1 ++ acts2)). split; [|split].
  - apply seq_run_fns in Hs. unfold plan_of. rewrite map_map. cbn [fst].
    change (map (fun a => at_fn a) (acts1 ++ acts2)) with (map at_fn (acts1 ++ acts2)).
    rewrite Hs. apply (sublist_NoDup _ (map snd all_attempts)); [|apply sublist_take].
    cbn. repeat (apply NoDup_cons; split; [rewrite ?elem_of_cons, elem_of_nil; intuition discriminate|]).
    apply NoDup_nil_2.
  - by rewrite (seq_files _ _ _ _ _ Hs), foldl_attempt_files.
  - rewrite (events_since_app _ _ _ Htr), driver_trace_writes, <- writes_plan.
    destruct r1 as [[]|e1].
    + by rewrite flat_map_app, writes_app.
    + destruct Hr1 as [-> _]. by rewrite !app_nil_r.
Qed.

(** X13: whatever fails in a run of the [__main__] block, a file that the
    run wrote is complete: the PNG of a figure, once written, holds that
    figure as drawn under the current settings, in PNG format at 300 dpi,
    and the PDF holds the same figure in PDF format.  A failure in one
    figure function changes nothing in the files of the others. *)
Theorem files_written_are_complete_whatever_fails
    (f : FigureFn) (w : World) (r : Outcome unit) (w' : World) :
  dunder_main w = (r, w') ->
  (png_path (figure_id f) ∈ writes (events_since w w') ->
   files w' !! png_path (figure_id f) =
     Some (mkFile "png" (Some 300) (final_figure (spec_of f) (rcparams w)))) /\
  (pdf_path (figure_id f) ∈ writes (events_since w w') ->
   files w' !! pdf_path (figure_id f) =
     Some (mkFile "pdf" None (final_figure (spec_of f) (rcparams w)))).
Proof.
  intros Hm. apply dunder_main_plan in Hm as (ps & Hnd & -> & ->).
  destruct (written_file_complete (rcparams w) (files w) ps f Hnd) as [H1 H2].
  unfold png_file, pdf_file in *.
  rewrite extension_png_path in H1. rewrite extension_pdf_path in H2. done.
Qed.

Lemma files_written_are_complete_whatever_fails_witness :
  let w' := (dunder_main faulty_world).2 in
  files w' !! png_path (figure_id Fig6) =
    Some (mkFile "png" (Some 300) (final_figure (spec_of Fig6) (rcparams faulty_world))) /\
  files w' !! pdf_path (figure_id Fig6) =
    Some (mkFile "pdf" None (final_figure (spec_of Fig6) (rcparams faulty_world))).
Proof.
  intros w'.
  destruct (files_written_are_complete_whatever_fails
              Fig6 faulty_world (dunder_main faulty_world).1 w'
              (surjective_pairing _)) as [H1 H2].
  split; [apply H1|apply H2]; apply (bool_decide_unpack _); vm_compute; exact I.
Defined.

(** ** Figures of the caller *)

Lemma attempt_open_suffix o acts : o `suffix_of` foldl attempt_open o acts.
Proof.
  revert o. induction acts as [|a acts IH]; intros o; [done|].
  cbn [foldl]. etrans; [|apply IH].
  unfold attempt_open, stage_open. destruct (at_stage a); try done; by apply suffix_cons_r.
Qed.

Lemma closed_banners :
  closed main_pre = [] /\ closed main_post = [] /\
  closed extra_pre = [] /\ closed extra_post = [].
Proof. by repeat split. Qed.

Lemma closed_attempt a id :
  id ∈ closed (attempt_events a) -> id ∈ created (attempt_events a).
Proof.
  destruct a as [lab f i st o]. unfold attempt_events, error_log. cbn [at_label at_fn at_id at_stage at_raised].
  change (closed (EvPrint lab :: ?t)) with (closed t).
  change (created (EvPrint lab :: ?t)) with (created t).
  rewrite closed_app, created_app, !elem_of_app.
  assert (closed (match o with
                  | Some e => EvRaise e ::
                      (if exc_is_Exception e then [EvPrint (error_line e); EvTraceback e] else [])
                  | None => []
                  end) = []) as ->.
  { destruct o as [e|]; [|done]. by destruct (exc_is_Exception e). }
  intros [Hin|Hin]; [|by apply elem_of_nil in Hin]. left.
  destruct st; cbn in *; try (by apply elem_of_nil in Hin).
  apply list_elem_of_singleton in Hin as ->. by apply list_elem_of_singleton.
Qed.

Lemma closed_attempts acts id :
  id ∈ closed (flat_map attempt_events acts) -> id ∈ created (flat_map attempt_events acts).
Proof.
  induction acts as [|a acts IH]; cbn [flat_map]; [done|].
  rewrite closed_app, created_app, !elem_of_app.
  intros [H|H]; [left; by apply closed_attempt|right; by apply IH].
Qed.

Lemma closed_created_app t1 t2 :
  (forall id, id ∈ closed t1 -> id ∈ created t1) ->
  (forall id, id ∈ closed t2 -> id ∈ created t2) ->
  forall id, id ∈ closed (t1 ++ t2) -> id ∈ created (t1 ++ t2).
Proof.
  intros H1 H2 id. rewrite closed_app, created_app, !elem_of_app.
  intros [H|H]; [left; by apply H1|right; by apply H2].
Qed.

Lemma closed_created_none t :
  closed t = [] -> forall id, id ∈ closed t -> id ∈ created t.
Proof. intros -> id H. by apply elem_of_nil in H. Qed.

Lemma closed_created_loop pre acts post (r : Outcome unit) :
  closed pre = [] -> closed post = [] ->
  forall id,
    id ∈ closed (pre ++ flat_map attempt_events acts ++
                 match r with Ok _ => post | Raise _ => [] end) ->
    id ∈ created (pre ++ flat_map attempt_events acts ++
                  match r with Ok _ => post | Raise _ => [] end).
Proof.
  intros Hpre Hpost.
  apply closed_created_app; [by apply closed_created_none|].
  apply closed_created_app; [intros id; apply closed_attempts|].
  apply closed_created_none. by destruct r.
Qed.

(** X14: whatever fails, a run of the [__main__] block closes no figure but
    figures it made itself: the figures that were open before the run are
    still open after it, below the figures the run left open. *)
Theorem drivers_close_only_their_own_figures (w : World) (r : Outcome unit) (w' : World) :
  dunder_main w = (r, w') ->
  open_figs w `suffix_of` open_figs w' /\
  (forall id, id ∈ closed (events_since w w') -> id ∈ created (events_since w w')).
Proof.
  intros Hm. apply dunder_main_run in Hm as (acts1 & acts2 & r1 & Hs & Htr & Hr1).
  split.
  - rewrite (seq_open _ _ _ _ _ Hs). apply attempt_open_suffix.
  - rewrite (events_since_app _ _ _ Htr).
    destruct closed_banners as (C1 & C2 & C3 & C4).
    apply closed_created_app; [by apply closed_created_loop|].
    destruct r1 as [[]|e1]; [by apply closed_created_loop|].
    by apply closed_created_none.
Qed.

Lemma drivers_close_only_their_own_figures_witness :
  let w' := (dunder_main cluttered_world).2 in
  open_figs cluttered_world `suffix_of` open_figs w' /\
  (forall id, id ∈ closed (events_since cluttered_world w') ->
              id ∈ created (events_since cluttered_world w')).
Proof.
  intros w'.
  apply (drivers_close_only_their_own_figures cluttered_world
           (dunder_main cluttered_world).1 w').
  apply surjective_pairing.
Defined.
